(** * Rewards ledger: points engine, social connections, referrals and
      reconciliation jobs.

    Two implementations of the same operations are embedded:
    - [Db]   : the persistent store (server/db.ts, drizzle over MySQL/TiDB);
    - [Mock] : the in-memory store  (server/mockStore.ts).

    Conventions of the embedding.
    - Points are JavaScript numbers / SQL [int]s holding integers; they are
      modelled as unbounded [Z].
    - A [Date] is the millisecond clock value; every exported operation
      receives the value [now] that its [new Date()] calls read.
    - The UTC day string [today] that the source derives from the clock is
      passed along with [now].
    - Random tokens ([nanoid(8)]) and the answers of the two external HTTP
      APIs are inputs of the operation that consumes them.
    - [getDb()] is taken to return a connection: the embedding starts after
      the [if (!db) return ...] line of each function. *)

From Stdlib Require Import ZArith List String Ascii Bool Lia DecimalString.
From Stdlib Require Import Permutation Sorted.
Import ListNotations.

Local Open Scope Z_scope.
Local Open Scope string_scope.

(** ** Strings as JavaScript uses them here *)

Definition lower_ascii (c : ascii) : ascii :=
  let n := nat_of_ascii c in
  if ((65 <=? n) && (n <=? 90))%nat then ascii_of_nat (n + 32) else c.

Definition upper_ascii (c : ascii) : ascii :=
  let n := nat_of_ascii c in
  if ((97 <=? n) && (n <=? 122))%nat then ascii_of_nat (n - 32) else c.

Fixpoint map_string (f : ascii -> ascii) (s : string) : string :=
  match s with
  | EmptyString => EmptyString
  | String c r => String (f c) (map_string f r)
  end.

(** [String.prototype.toLowerCase] / [toUpperCase] on the ASCII range. *)
Definition toLowerCase : string -> string := map_string lower_ascii.
Definition toUpperCase : string -> string := map_string upper_ascii.

(** Template-literal rendering of an integer. *)
Definition show_Z (z : Z) : string := NilZero.string_of_int (Z.to_int z).

(** JavaScript truthiness of a nullable string and of a nullable value. *)
Definition truthy (o : option string) : bool :=
  match o with
  | Some s => negb (String.eqb s "")
  | None => false
  end.

(** [s || d] for an optional string [s]. *)
Definition or_else (o : option string) (d : string) : string :=
  if truthy o then match o with Some s => s | None => d end else d.

(** [s || null]. *)
Definition or_null (o : option string) : option string :=
  if truthy o then o else None.

Definition opt_string_eqb (o : option string) (v : string) : bool :=
  match o with
  | Some s => String.eqb s v
  | None => false
  end.

(** ** Clock and external HTTP answers *)

Definition Date := Z.

(** What an awaited [fetch] gives: a response with its status, or a thrown
    error (network failure, abort on timeout). *)
Inductive FetchResult : Type :=
| Response (status : Z)
| FetchError.

(** [response.ok] *)
Definition response_ok (status : Z) : bool :=
  ((200 <=? status) && (status <=? 299))%Z.

(** ** Rows (drizzle/schema.ts, and the Mock* types of mockStore.ts) *)

Record WalletProfile : Type := mkWalletProfile {
  wp_walletAddress : string;
  wp_chainType : string;
  wp_totalPoints : Z;
  wp_connectBonusClaimed : bool;
  wp_xConnected : bool;
  wp_xUsername : option string;
  wp_xConnectedAt : option Date;
  wp_discordConnected : bool;
  wp_discordUsername : option string;
  wp_discordConnectedAt : option Date;
  wp_discordId : option string;
  wp_discordVerified : bool;
  wp_discordVerifiedAt : option Date;
  wp_referralCode : option string;
  wp_referredBy : option string;
  wp_referralCount : Z;
  wp_referralPointsEarned : Z;
  wp_createdAt : Date;
  wp_updatedAt : Date
}.

(** The [status] column: ["active"] or ["revoked"]. *)
Inductive TaskStatus : Type := Active | Revoked.

Definition is_active (st : TaskStatus) : bool :=
  match st with Active => true | Revoked => false end.

Record TaskCompletion : Type := mkTaskCompletion {
  tc_id : Z;
  tc_walletAddress : string;
  tc_taskType : string;
  tc_pointsAwarded : Z;
  tc_completionDate : option string;
  tc_metadata : option string;
  tc_status : TaskStatus;
  tc_completedAt : Date;
  tc_revokedAt : option Date
}.

Record PointsHistory : Type := mkPointsHistory {
  ph_id : Z;
  ph_walletAddress : string;
  ph_transactionType : string;
  ph_pointsChange : Z;
  ph_balanceAfter : Z;
  ph_description : option string;
  ph_createdAt : Date
}.

(** The [referrals] table of the persistent store. *)
Record Referral : Type := mkReferral {
  rf_id : Z;
  rf_referrerWallet : string;
  rf_referredWallet : string;
  rf_referralCode : string;
  rf_referrerPoints : Z;
  rf_referredPoints : Z;
  rf_referrerClaimed : bool;
  rf_referredClaimed : bool;
  rf_createdAt : Date;
  rf_claimedAt : option Date
}.

(** [MockReferral]: no code, no [referredClaimed], no [claimedAt]. *)
Record MockReferral : Type := mkMockReferral {
  mr_id : Z;
  mr_referrerWallet : string;
  mr_referredWallet : string;
  mr_referrerClaimed : bool;
  mr_referrerPoints : Z;
  mr_referredPoints : Z;
  mr_createdAt : Date
}.

(** *** Field updates on a profile *)

Definition set_totalPoints (v : Z) (p : WalletProfile) : WalletProfile :=
  mkWalletProfile (wp_walletAddress p) (wp_chainType p) v (wp_connectBonusClaimed p)
    (wp_xConnected p) (wp_xUsername p) (wp_xConnectedAt p)
    (wp_discordConnected p) (wp_discordUsername p) (wp_discordConnectedAt p)
    (wp_discordId p) (wp_discordVerified p) (wp_discordVerifiedAt p)
    (wp_referralCode p) (wp_referredBy p) (wp_referralCount p)
    (wp_referralPointsEarned p) (wp_createdAt p) (wp_updatedAt p).

Definition set_connectBonusClaimed (v : bool) (p : WalletProfile) : WalletProfile :=
  mkWalletProfile (wp_walletAddress p) (wp_chainType p) (wp_totalPoints p) v
    (wp_xConnected p) (wp_xUsername p) (wp_xConnectedAt p)
    (wp_discordConnected p) (wp_discordUsername p) (wp_discordConnectedAt p)
    (wp_discordId p) (wp_discordVerified p) (wp_discordVerifiedAt p)
    (wp_referralCode p) (wp_referredBy p) (wp_referralCount p)
    (wp_referralPointsEarned p) (wp_createdAt p) (wp_updatedAt p).

(** [xConnected], [xUsername], [xConnectedAt] are always written together. *)
Definition set_x (c : bool) (u : option string) (t : option Date)
    (p : WalletProfile) : WalletProfile :=
  mkWalletProfile (wp_walletAddress p) (wp_chainType p) (wp_totalPoints p)
    (wp_connectBonusClaimed p) c u t
    (wp_discordConnected p) (wp_discordUsername p) (wp_discordConnectedAt p)
    (wp_discordId p) (wp_discordVerified p) (wp_discordVerifiedAt p)
    (wp_referralCode p) (wp_referredBy p) (wp_referralCount p)
    (wp_referralPointsEarned p) (wp_createdAt p) (wp_updatedAt p).

Definition set_discordConnected (c : bool) (u : option string) (t : option Date)
    (p : WalletProfile) : WalletProfile :=
  mkWalletProfile (wp_walletAddress p) (wp_chainType p) (wp_totalPoints p)
    (wp_connectBonusClaimed p)
    (wp_xConnected p) (wp_xUsername p) (wp_xConnectedAt p)
    c u t
    (wp_discordId p) (wp_discordVerified p) (wp_discordVerifiedAt p)
    (wp_referralCode p) (wp_referredBy p) (wp_referralCount p)
    (wp_referralPointsEarned p) (wp_createdAt p) (wp_updatedAt p).

Definition set_discordId (v : option string) (p : WalletProfile) : WalletProfile :=
  mkWalletProfile (wp_walletAddress p) (wp_chainType p) (wp_totalPoints p)
    (wp_connectBonusClaimed p)
    (wp_xConnected p) (wp_xUsername p) (wp_xConnectedAt p)
    (wp_discordConnected p) (wp_discordUsername p) (wp_discordConnectedAt p)
    v (wp_discordVerified p) (wp_discordVerifiedAt p)
    (wp_referralCode p) (wp_referredBy p) (wp_referralCount p)
    (wp_referralPointsEarned p) (wp_createdAt p) (wp_updatedAt p).

Definition set_discordVerified (v : bool) (t : option Date)
    (p : WalletProfile) : WalletProfile :=
  mkWalletProfile (wp_walletAddress p) (wp_chainType p) (wp_totalPoints p)
    (wp_connectBonusClaimed p)
    (wp_xConnected p) (wp_xUsername p) (wp_xConnectedAt p)
    (wp_discordConnected p) (wp_discordUsername p) (wp_discordConnectedAt p)
    (wp_discordId p) v t
    (wp_referralCode p) (wp_referredBy p) (wp_referralCount p)
    (wp_referralPointsEarned p) (wp_createdAt p) (wp_updatedAt p).

Definition set_referralCode (v : option string) (p : WalletProfile) : WalletProfile :=
  mkWalletProfile (wp_walletAddress p) (wp_chainType p) (wp_totalPoints p)
    (wp_connectBonusClaimed p)
    (wp_xConnected p) (wp_xUsername p) (wp_xConnectedAt p)
    (wp_discordConnected p) (wp_discordUsername p) (wp_discordConnectedAt p)
    (wp_discordId p) (wp_discordVerified p) (wp_discordVerifiedAt p)
    v (wp_referredBy p) (wp_referralCount p)
    (wp_referralPointsEarned p) (wp_createdAt p) (wp_updatedAt p).

Definition set_referredBy (v : option string) (p : WalletProfile) : WalletProfile :=
  mkWalletProfile (wp_walletAddress p) (wp_chainType p) (wp_totalPoints p)
    (wp_connectBonusClaimed p)
    (wp_xConnected p) (wp_xUsername p) (wp_xConnectedAt p)
    (wp_discordConnected p) (wp_discordUsername p) (wp_discordConnectedAt p)
    (wp_discordId p) (wp_discordVerified p) (wp_discordVerifiedAt p)
    (wp_referralCode p) v (wp_referralCount p)
    (wp_referralPointsEarned p) (wp_createdAt p) (wp_updatedAt p).

(** [referralCount] and [referralPointsEarned] are always written together. *)
Definition set_referralStats (count earned : Z) (p : WalletProfile) : WalletProfile :=
  mkWalletProfile (wp_walletAddress p) (wp_chainType p) (wp_totalPoints p)
    (wp_connectBonusClaimed p)
    (wp_xConnected p) (wp_xUsername p) (wp_xConnectedAt p)
    (wp_discordConnected p) (wp_discordUsername p) (wp_discordConnectedAt p)
    (wp_discordId p) (wp_discordVerified p) (wp_discordVerifiedAt p)
    (wp_referralCode p) (wp_referredBy p) count earned
    (wp_createdAt p) (wp_updatedAt p).

Definition set_updatedAt (v : Date) (p : WalletProfile) : WalletProfile :=
  mkWalletProfile (wp_walletAddress p) (wp_chainType p) (wp_totalPoints p)
    (wp_connectBonusClaimed p)
    (wp_xConnected p) (wp_xUsername p) (wp_xConnectedAt p)
    (wp_discordConnected p) (wp_discordUsername p) (wp_discordConnectedAt p)
    (wp_discordId p) (wp_discordVerified p) (wp_discordVerifiedAt p)
    (wp_referralCode p) (wp_referredBy p) (wp_referralCount p)
    (wp_referralPointsEarned p) (wp_createdAt p) v.

(** The row both stores create for a wallet seen for the first time. *)
Definition new_profile (walletAddress chainType : string) (now : Date) : WalletProfile :=
  {| wp_walletAddress := walletAddress;
     wp_chainType := chainType;
     wp_totalPoints := 0;
     wp_connectBonusClaimed := false;
     wp_xConnected := false;
     wp_xUsername := None;
     wp_xConnectedAt := None;
     wp_discordConnected := false;
     wp_discordUsername := None;
     wp_discordConnectedAt := None;
     wp_discordId := None;
     wp_discordVerified := false;
     wp_discordVerifiedAt := None;
     wp_referralCode := None;
     wp_referredBy := None;
     wp_referralCount := 0;
     wp_referralPointsEarned := 0;
     wp_createdAt := now;
     wp_updatedAt := now |}.

Definition set_task_revoked (t : Date) (c : TaskCompletion) : TaskCompletion :=
  {| tc_id := tc_id c;
     tc_walletAddress := tc_walletAddress c;
     tc_taskType := tc_taskType c;
     tc_pointsAwarded := tc_pointsAwarded c;
     tc_completionDate := tc_completionDate c;
     tc_metadata := tc_metadata c;
     tc_status := Revoked;
     tc_completedAt := tc_completedAt c;
     tc_revokedAt := Some t |}.

(** What every operation answers: [{ success, message, points? }]. *)
Record Result : Type := mkResult {
  success : bool;
  message : string;
  points : option Z
}.

Definition failure (msg : string) : Result := mkResult false msg None.

(** ** A state monad over a store *)

Section StateMonad.
Context {S : Type}.

Definition ST (A : Type) : Type := S -> A * S.

Definition ret {A} (a : A) : ST A := fun s => (a, s).

Definition bind {A B} (m : ST A) (k : A -> ST B) : ST B :=
  fun s => let (a, s') := m s in k a s'.

Definition gets {A} (f : S -> A) : ST A := fun s => (f s, s).

Definition modify (f : S -> S) : ST unit := fun s => (tt, f s).

(** [for (const x of xs) { body }] carrying loop variables [acc]. *)
Fixpoint for_each {A X} (xs : list X) (body : X -> A -> ST A) (acc : A) : ST A :=
  match xs with
  | [] => ret acc
  | x :: rest => bind (body x acc) (for_each rest body)
  end.
End StateMonad.

Arguments ST : clear implicits.

Declare Scope st_scope.
Delimit Scope st_scope with st.
Notation "x <- c1 ;; c2" := (bind c1 (fun x => c2))
  (at level 61, c1 at next level, right associativity) : st_scope.
Notation "c1 ;; c2" := (bind c1 (fun _ => c2))
  (at level 61, right associativity) : st_scope.
Local Open Scope st_scope.

(** ** Arrays and result pages *)

(** [Array.prototype.slice(start, stop)] on integer arguments: a negative
    index counts from the end, both are clamped to the array. *)
Definition slice {A : Type} (start stop : Z) (l : list A) : list A :=
  let len := Z.of_nat (List.length l) in
  let k := if Z.ltb start 0 then Z.max (len + start) 0 else Z.min start len in
  let final := if Z.ltb stop 0 then Z.max (len + stop) 0 else Z.min stop len in
  firstn (Z.to_nat (final - k)) (skipn (Z.to_nat k) l).

(** [Array.prototype.sort(compare)] is stable: [x] goes before the elements
    that [compare] does not put in front of it. *)
Fixpoint insert_by {A : Type} (compare : A -> A -> Z) (x : A) (l : list A) : list A :=
  match l with
  | [] => [x]
  | y :: rest =>
      if Z.leb (compare x y) 0 then x :: y :: rest
      else y :: insert_by compare x rest
  end.

Definition sort_by {A : Type} (compare : A -> A -> Z) (l : list A) : list A :=
  fold_right (insert_by compare) [] l.

(** [array.map((entry, index) => ...)], [index] being that of the head. *)
Fixpoint map_index {A B : Type} (f : A -> Z -> B) (index : Z) (l : list A) : list B :=
  match l with
  | [] => []
  | x :: rest => f x index :: map_index f (index + 1) rest
  end.

(** [new Set(array).size] on strings. *)
Definition distinct_count (l : list string) : Z :=
  Z.of_nat (List.length (nodup string_dec l)).

(** [.limit(limit).offset(offset)]: MySQL refuses a negative bound, and the
    awaited query then throws ([None]). *)
Definition limit_offset {A : Type} (limit offset : Z) (rows : list A)
  : option (list A) :=
  if Z.ltb limit 0 || Z.ltb offset 0 then None
  else Some (firstn (Z.to_nat limit) (skipn (Z.to_nat offset) rows)).

(** [{ profiles | history | referrals, total }] *)
Record Page (A : Type) : Type := mkPage {
  rows : list A;
  total : Z
}.
Arguments mkPage {A} _ _.
Arguments rows {A} _.
Arguments total {A} _.

(** * The persistent store (server/db.ts) *)

Module Db.

(** The four tables.  Rows are kept newest first, so that a query ordered by
    [desc(createdAt)] or [desc(completedAt)] reads the list front to back;
    [eq(column, value)] is exact string equality and [limit(1)] takes the
    first match. *)
Record Store : Type := mkStore {
  walletProfiles : list WalletProfile;
  taskCompletions : list TaskCompletion;
  pointsHistory : list PointsHistory;
  referrals : list Referral
}.

Definition empty : Store := mkStore [] [] [] [].

Definition M : Type -> Type := ST Store.

(** [serial AUTO_INCREMENT] on a table whose rows are never deleted. *)
Definition next_id {R : Type} (rows : list R) : Z := Z.of_nat (List.length rows) + 1.

(** *** Queries and statements *)

Definition walletAddress_is (w : string) (p : WalletProfile) : bool :=
  String.eqb (wp_walletAddress p) w.

Definition select_walletProfile (w : string) (db : Store) : option WalletProfile :=
  find (walletAddress_is w) (walletProfiles db).

Definition insert_walletProfile (p : WalletProfile) : M unit :=
  modify (fun db => mkStore (p :: walletProfiles db) (taskCompletions db)
                            (pointsHistory db) (referrals db)).

(** [db.update(walletProfiles).set(...).where(eq(walletAddress, w))] *)
Definition update_walletProfiles (w : string) (set : WalletProfile -> WalletProfile)
  : M unit :=
  modify (fun db =>
    mkStore (map (fun p => if walletAddress_is w p then set p else p) (walletProfiles db))
            (taskCompletions db) (pointsHistory db) (referrals db)).

Definition insert_pointsHistory (row : Z -> PointsHistory) : M unit :=
  modify (fun db => mkStore (walletProfiles db) (taskCompletions db)
                            (row (next_id (pointsHistory db)) :: pointsHistory db)
                            (referrals db)).

Definition insert_taskCompletion (row : Z -> TaskCompletion) : M unit :=
  modify (fun db => mkStore (walletProfiles db)
                            (row (next_id (taskCompletions db)) :: taskCompletions db)
                            (pointsHistory db) (referrals db)).

Definition select_taskCompletion (id : Z) (db : Store) : option TaskCompletion :=
  find (fun t => Z.eqb (tc_id t) id) (taskCompletions db).

Definition update_taskCompletions (id : Z) (set : TaskCompletion -> TaskCompletion)
  : M unit :=
  modify (fun db =>
    mkStore (walletProfiles db)
            (map (fun t => if Z.eqb (tc_id t) id then set t else t) (taskCompletions db))
            (pointsHistory db) (referrals db)).

Definition insert_referral (row : Z -> Referral) : M unit :=
  modify (fun db => mkStore (walletProfiles db) (taskCompletions db) (pointsHistory db)
                            (row (next_id (referrals db)) :: referrals db)).

Definition select_referral_by_referred (w : string) (db : Store) : option Referral :=
  find (fun r => String.eqb (rf_referredWallet r) w) (referrals db).

Definition update_referrals (id : Z) (set : Referral -> Referral) : M unit :=
  modify (fun db =>
    mkStore (walletProfiles db) (taskCompletions db) (pointsHistory db)
            (map (fun r => if Z.eqb (rf_id r) id then set r else r) (referrals db))).

(** *** Wallet profile functions *)

Definition getOrCreateWalletProfile (now : Date) (walletAddress chainType : string)
  : M (option WalletProfile) :=
  existing <- gets (select_walletProfile walletAddress) ;;
  match existing with
  | Some p => ret (Some p)
  | None =>
      insert_walletProfile (new_profile walletAddress chainType now) ;;
      gets (select_walletProfile walletAddress)
  end.

Definition getWalletProfile (walletAddress : string) : M (option WalletProfile) :=
  gets (select_walletProfile walletAddress).

(** *** Points functions *)

Definition addPoints (now : Date) (walletAddress : string) (points : Z)
    (transactionType : string) (description : option string) : M (option Z) :=
  profile <- getWalletProfile walletAddress ;;
  match profile with
  | None => ret None
  | Some profile =>
      let newTotal := wp_totalPoints profile + points in
      update_walletProfiles walletAddress
        (fun p => set_updatedAt now (set_totalPoints newTotal p)) ;;
      insert_pointsHistory (fun id =>
        {| ph_id := id;
           ph_walletAddress := walletAddress;
           ph_transactionType := transactionType;
           ph_pointsChange := points;
           ph_balanceAfter := newTotal;
           ph_description := description;
           ph_createdAt := now |}) ;;
      ret (Some newTotal)
  end.

(** The newest history row of the wallet with that type decides: its amount
    when positive, the fallback otherwise. *)
Definition getOriginalBonusPoints (walletAddress transactionType : string)
    (fallback : Z) : M Z :=
  record <- gets (fun db =>
    find (fun h => String.eqb (ph_walletAddress h) walletAddress
                   && String.eqb (ph_transactionType h) transactionType)
         (pointsHistory db)) ;;
  match record with
  | Some record =>
      if Z.ltb 0 (ph_pointsChange record) then ret (ph_pointsChange record)
      else ret fallback
  | None => ret fallback
  end.

(** *** Task completion functions *)

Definition hasCompletedTask (walletAddress taskType : string) (date : option string)
  : M bool :=
  result <- gets (fun db =>
    find (fun t =>
            String.eqb (tc_walletAddress t) walletAddress
            && String.eqb (tc_taskType t) taskType
            && (if truthy date
                then match date, tc_completionDate t with
                     | Some d, Some d' => String.eqb d' d
                     | _, _ => false
                     end
                else true)
            && is_active (tc_status t))
         (taskCompletions db)) ;;
  ret (match result with Some _ => true | None => false end).

Definition completeTask (now : Date) (walletAddress taskType : string)
    (pointsAwarded : Z) (metadata completionDate : option string) : M bool :=
  insert_taskCompletion (fun id =>
    {| tc_id := id;
       tc_walletAddress := walletAddress;
       tc_taskType := taskType;
       tc_pointsAwarded := pointsAwarded;
       tc_completionDate := completionDate;
       tc_metadata := metadata;
       tc_status := Active;
       tc_completedAt := now;
       tc_revokedAt := None |}) ;;
  ret true.

(** *** Connect bonus *)

Definition claimConnectBonus (now : Date) (walletAddress : string) : M Result :=
  profile <- getWalletProfile walletAddress ;;
  match profile with
  | None => ret (failure "Profile not found")
  | Some profile =>
      if wp_connectBonusClaimed profile
      then ret (failure "Connect bonus already claimed")
      else
        let bonusPoints := 300 in
        update_walletProfiles walletAddress
          (fun p => set_updatedAt now (set_connectBonusClaimed true p)) ;;
        addPoints now walletAddress bonusPoints "connect_bonus"
                  (Some "Wallet connection bonus") ;;
        ret (mkResult true
               ("Earned " ++ show_Z bonusPoints ++ " points for connecting wallet!")
               (Some bonusPoints))
  end.

(** *** Referral bonus claim *)

Record ClaimResult : Type := mkClaimResult {
  cr_success : bool;
  cr_message : string;
  cr_referrerPoints : option Z;
  cr_referredPoints : option Z
}.

Definition set_referral_claimed (t : Date) (referrerBonus referredBonus : Z)
    (r : Referral) : Referral :=
  {| rf_id := rf_id r;
     rf_referrerWallet := rf_referrerWallet r;
     rf_referredWallet := rf_referredWallet r;
     rf_referralCode := rf_referralCode r;
     rf_referrerPoints := referrerBonus;
     rf_referredPoints := referredBonus;
     rf_referrerClaimed := true;
     rf_referredClaimed := true;
     rf_createdAt := rf_createdAt r;
     rf_claimedAt := Some t |}.

Definition claimReferralBonus (now : Date) (referredWallet : string) : M ClaimResult :=
  referralRecords <- gets (select_referral_by_referred referredWallet) ;;
  match referralRecords with
  | None => ret (mkClaimResult false "No referral found for this wallet" None None)
  | Some referral =>
      if rf_referrerClaimed referral
      then ret (mkClaimResult false "Referral bonus already claimed" None None)
      else
        let referrerBonus := 50 in
        let referredBonus := 50 in
        addPoints now (rf_referrerWallet referral) referrerBonus "referral_bonus"
          (Some ("Referral bonus for inviting " ++ substring 0 8 referredWallet ++ "...")) ;;
        addPoints now referredWallet referredBonus "referral_bonus"
          (Some "Welcome bonus for using referral code") ;;
        referrerProfile <- getWalletProfile (rf_referrerWallet referral) ;;
        match referrerProfile with
        | Some referrerProfile =>
            update_walletProfiles (rf_referrerWallet referral)
              (fun p => set_updatedAt now
                 (set_referralStats (wp_referralCount referrerProfile + 1)
                    (wp_referralPointsEarned referrerProfile + referrerBonus) p))
        | None => ret tt
        end ;;
        update_referrals (rf_id referral)
          (set_referral_claimed now referrerBonus referredBonus) ;;
        ret (mkClaimResult true "Referral bonus claimed!"
               (Some referrerBonus) (Some referredBonus))
  end.

(** *** Social connection functions *)

Definition maybeClaimReferralBonus (now : Date) (walletAddress : string) : M unit :=
  profile <- getWalletProfile walletAddress ;;
  match profile with
  | None => ret tt
  | Some profile =>
      if negb (truthy (wp_referredBy profile)) then ret tt
      else
        referral <- gets (select_referral_by_referred walletAddress) ;;
        match referral with
        | Some r =>
            if negb (rf_referrerClaimed r)
            then claimReferralBonus now walletAddress ;; ret tt
            else ret tt
        | None => ret tt
        end
  end.

(** [nanoid] is the token that [nanoid(8)] draws. *)
Definition maybeGenerateReferralCode (now : Date) (nanoid : string)
    (walletAddress : string) : M unit :=
  profile <- getWalletProfile walletAddress ;;
  match profile with
  | None => ret tt
  | Some profile =>
      if wp_xConnected profile && wp_discordConnected profile
         && wp_discordVerified profile && negb (truthy (wp_referralCode profile))
      then
        let referralCode := toUpperCase nanoid in
        update_walletProfiles walletAddress
          (fun p => set_updatedAt now (set_referralCode (Some referralCode) p))
      else ret tt
  end.

Definition connectXAccount (now : Date) (nanoid : string)
    (walletAddress xUsername : string) : M Result :=
  profile <- getWalletProfile walletAddress ;;
  match profile with
  | None => ret (failure "Profile not found")
  | Some profile =>
      if wp_xConnected profile then ret (failure "X account already connected")
      else
        let bonusPoints := 100 in
        update_walletProfiles walletAddress
          (fun p => set_updatedAt now (set_x true (Some xUsername) (Some now) p)) ;;
        addPoints now walletAddress bonusPoints "x_connect"
                  (Some ("Connected X account: @" ++ xUsername)) ;;
        maybeGenerateReferralCode now nanoid walletAddress ;;
        maybeClaimReferralBonus now walletAddress ;;
        ret (mkResult true
               ("Earned " ++ show_Z bonusPoints ++ " points for connecting X!")
               (Some bonusPoints))
  end.

Definition disconnectXAccount (now : Date) (walletAddress : string) : M Result :=
  profile <- getWalletProfile walletAddress ;;
  match profile with
  | None => ret (failure "Profile not found")
  | Some profile =>
      if negb (wp_xConnected profile) then ret (failure "X account not connected")
      else
        update_walletProfiles walletAddress
          (fun p => set_updatedAt now (set_x false None None p)) ;;
        originalBonus <- getOriginalBonusPoints walletAddress "x_connect" 100 ;;
        addPoints now walletAddress (- originalBonus) "x_disconnect"
          (Some ("Disconnected X account (-" ++ show_Z originalBonus ++ "pt)")) ;;
        ret (mkResult true
               ("X account disconnected. " ++ show_Z originalBonus ++ " points deducted.")
               None)
  end.

Definition connectDiscordAccount (now : Date) (nanoid : string)
    (walletAddress discordUsername : string) (discordId : option string) : M Result :=
  profile <- getWalletProfile walletAddress ;;
  match profile with
  | None => ret (failure "Profile not found")
  | Some profile =>
      if wp_discordConnected profile
      then ret (failure "Discord account already connected")
      else
        let bonusPoints := 50 in
        update_walletProfiles walletAddress
          (fun p => set_updatedAt now
             (set_discordId (or_null discordId)
                (set_discordConnected true (Some discordUsername) (Some now) p))) ;;
        addPoints now walletAddress bonusPoints "discord_connect"
                  (Some ("Connected Discord: " ++ discordUsername)) ;;
        maybeGenerateReferralCode now nanoid walletAddress ;;
        maybeClaimReferralBonus now walletAddress ;;
        ret (mkResult true
               ("Earned " ++ show_Z bonusPoints ++ " points for connecting Discord!")
               (Some bonusPoints))
  end.

Definition disconnectDiscordAccount (now : Date) (walletAddress : string) : M Result :=
  profile <- getWalletProfile walletAddress ;;
  match profile with
  | None => ret (failure "Profile not found")
  | Some profile =>
      if negb (wp_discordConnected profile)
      then ret (failure "Discord account not connected")
      else
        let wasVerified := wp_discordVerified profile in
        update_walletProfiles walletAddress
          (fun p => set_updatedAt now
             (set_discordVerified false None
                (set_discordId None (set_discordConnected false None None p)))) ;;
        connectBonus <- getOriginalBonusPoints walletAddress "discord_connect" 50 ;;
        addPoints now walletAddress (- connectBonus) "discord_disconnect"
          (Some ("Disconnected Discord account (-" ++ show_Z connectBonus ++ "pt)")) ;;
        totalDeducted <-
          (if wasVerified
           then
             verifyBonus <- getOriginalBonusPoints walletAddress "discord_verify" 50 ;;
             addPoints now walletAddress (- verifyBonus) "discord_verify_revoked"
               (Some ("Discord server verification revoked (-"
                      ++ show_Z verifyBonus ++ "pt)")) ;;
             ret (connectBonus + verifyBonus)
           else ret connectBonus) ;;
        ret (mkResult true
               ("Discord account disconnected. " ++ show_Z totalDeducted
                ++ " points deducted.")
               None)
  end.

(** *** Daily post *)

Definition completeDailyPost (now : Date) (today : string) (walletAddress : string)
    (tweetUrl : option string) : M Result :=
  profile <- getWalletProfile walletAddress ;;
  match profile with
  | None => ret (failure "Profile not found")
  | Some profile =>
      if negb (wp_xConnected profile)
      then ret (failure "X account must be connected first")
      else
        alreadyCompleted <- hasCompletedTask walletAddress "daily_post" (Some today) ;;
        if (alreadyCompleted : bool)
        then ret (failure "Daily post already completed today. Try again tomorrow!")
        else
          let bonusPoints := 100 in
          completeTask now walletAddress "daily_post" bonusPoints tweetUrl (Some today) ;;
          addPoints now walletAddress bonusPoints "daily_post"
            (Some ("Daily X post: " ++ or_else tweetUrl "completed")) ;;
          (if truthy (wp_referredBy profile)
           then
             referral <- gets (select_referral_by_referred walletAddress) ;;
             match referral with
             | Some r =>
                 if negb (rf_referrerClaimed r)
                 then claimReferralBonus now walletAddress ;; ret tt
                 else ret tt
             | None => ret tt
             end
           else ret tt) ;;
          ret (mkResult true
                 ("Earned " ++ show_Z bonusPoints ++ " points for daily post!")
                 (Some bonusPoints))
  end.

(** *** Referral functions *)

Definition getOrCreateReferralCode (now : Date) (nanoid : string)
    (walletAddress : string) : M (option string) :=
  profile <- getWalletProfile walletAddress ;;
  match profile with
  | None => ret None
  | Some profile =>
      if negb (wp_xConnected profile) || negb (wp_discordConnected profile)
         || negb (wp_discordVerified profile)
      then ret None
      else if truthy (wp_referralCode profile) then ret (wp_referralCode profile)
      else
        let referralCode := toUpperCase nanoid in
        update_walletProfiles walletAddress
          (fun p => set_updatedAt now (set_referralCode (Some referralCode) p)) ;;
        ret (Some referralCode)
  end.

Definition select_walletProfile_by_code (code : string) (db : Store)
  : option WalletProfile :=
  find (fun p => opt_string_eqb (wp_referralCode p) code) (walletProfiles db).

Definition applyReferralCode (now : Date) (walletAddress referralCode : string)
  : M Result :=
  profile <- getWalletProfile walletAddress ;;
  match profile with
  | None => ret (failure "Profile not found")
  | Some profile =>
      if truthy (wp_referredBy profile)
      then ret (failure "You have already used a referral code")
      else
        referrerProfiles <- gets (select_walletProfile_by_code (toUpperCase referralCode)) ;;
        match referrerProfiles with
        | None => ret (failure "Invalid referral code")
        | Some referrer =>
            if String.eqb (wp_walletAddress referrer) walletAddress
            then ret (failure "You cannot use your own referral code")
            else if negb (wp_xConnected referrer) || negb (wp_discordConnected referrer)
                    || negb (wp_discordVerified referrer)
            then ret (failure "This referral code is currently inactive")
            else
              insert_referral (fun id =>
                {| rf_id := id;
                   rf_referrerWallet := wp_walletAddress referrer;
                   rf_referredWallet := walletAddress;
                   rf_referralCode := toUpperCase referralCode;
                   rf_referrerPoints := 0;
                   rf_referredPoints := 0;
                   rf_referrerClaimed := false;
                   rf_referredClaimed := false;
                   rf_createdAt := now;
                   rf_claimedAt := None |}) ;;
              update_walletProfiles walletAddress
                (fun p => set_updatedAt now
                   (set_referredBy (Some (toUpperCase referralCode)) p)) ;;
              ret (mkResult true
                "Referral code applied! Complete your first task to receive bonus points."
                None)
        end
  end.

(** [calculateTier] / [getReferralTier]: the first threshold, highest first,
    that the count reaches. *)
Record Tier : Type := mkTier {
  tier_name : string;
  minReferrals : Z;
  bonusPerReferral : Z;
  percentageBonus : Z;
  color : string
}.

Definition tiers : list Tier :=
  [ mkTier "Diamond" 100 100 15 "#b9f2ff";
    mkTier "Platinum" 50 75 12 "#e5e4e2";
    mkTier "Gold" 25 60 10 "#ffd700";
    mkTier "Silver" 10 55 8 "#c0c0c0";
    mkTier "Bronze" 0 50 5 "#cd7f32" ].

Definition getReferralTier (referralCount : Z) : Tier :=
  match find (fun tier => Z.leb (minReferrals tier) referralCount) tiers with
  | Some tier => tier
  | None => mkTier "Bronze" 0 50 5 "#cd7f32"
  end.

(** *** Admin functions *)

(** The payload is [newTotal]. *)
Definition adjustUserPoints (now : Date) (walletAddress : string) (pointsChange : Z)
    (reason : string) : M Result :=
  profile <- getWalletProfile walletAddress ;;
  match profile with
  | None => ret (failure "Profile not found")
  | Some _ =>
      newTotal <- addPoints now walletAddress pointsChange "admin_adjustment"
                            (Some reason) ;;
      ret (mkResult true
             ("Points adjusted by " ++ (if Z.leb 0 pointsChange then "+" else "")
              ++ show_Z pointsChange)
             (Some (match newTotal with Some n => n | None => 0 end)))
  end.

Definition revokeTweetPoints (now : Date) (completionId : Z) : M Result :=
  completion <- gets (select_taskCompletion completionId) ;;
  match completion with
  | None => ret (failure "Task completion not found")
  | Some task =>
      match tc_status task with
      | Revoked => ret (failure "Already revoked")
      | Active =>
          update_taskCompletions completionId (set_task_revoked now) ;;
          let pointsToDeduct := - tc_pointsAwarded task in
          addPoints now (tc_walletAddress task) pointsToDeduct "tweet_revoked"
            (Some ("Points revoked for deleted tweet (completion #"
                   ++ show_Z completionId ++ ")")) ;;
          ret (mkResult true
                 ("Revoked " ++ show_Z (tc_pointsAwarded task) ++ " points from "
                  ++ tc_walletAddress task)
                 None)
      end
  end.

(** *** Discord server verification *)

Definition DISCORD_INVITE_URL : string := "https://discord.gg/5BUJrR3JnK".

Record VerifyResult : Type := mkVerifyResult {
  vr_success : bool;
  vr_message : string;
  vr_points : option Z;
  vr_notJoined : bool;
  vr_inviteUrl : option string
}.

Definition verify_failure (msg : string) : VerifyResult :=
  mkVerifyResult false msg None false None.

(** [configured]: both [DISCORD_BOT_TOKEN] and [DISCORD_GUILD_ID] are set.
    [members_api id]: what fetching the guild member [id] gives. *)
Definition verifyDiscordServer (now : Date) (nanoid : string) (configured : bool)
    (members_api : string -> FetchResult) (walletAddress : string) : M VerifyResult :=
  if negb configured then ret (verify_failure "Discord verification not configured")
  else
    profile <- getWalletProfile walletAddress ;;
    match profile with
    | None => ret (verify_failure "Profile not found")
    | Some profile =>
        if negb (wp_discordConnected profile)
        then ret (verify_failure "Discord account must be connected first")
        else if wp_discordVerified profile
        then ret (verify_failure "Discord server already verified")
        else if negb (truthy (wp_discordId profile))
        then ret (verify_failure
                    "Discord ID not found. Please reconnect your Discord account.")
        else
          match members_api (or_else (wp_discordId profile) "") with
          | FetchError =>
              ret (verify_failure
                     "Failed to verify Discord membership. Please try again later.")
          | Response status =>
              if Z.eqb status 404
              then ret (mkVerifyResult false
                "You are not a member of the PerpX Discord server. Please join first and then try again."
                None true (Some DISCORD_INVITE_URL))
              else if negb (response_ok status)
              then ret (verify_failure
                          "Failed to verify Discord membership. Please try again later.")
              else
                let bonusPoints := 50 in
                update_walletProfiles walletAddress
                  (fun p => set_updatedAt now (set_discordVerified true (Some now) p)) ;;
                addPoints now walletAddress bonusPoints "discord_verify"
                  (Some "Verified PerpX Discord server membership") ;;
                maybeGenerateReferralCode now nanoid walletAddress ;;
                maybeClaimReferralBonus now walletAddress ;;
                ret (mkVerifyResult true
                       ("Earned " ++ show_Z bonusPoints
                        ++ " points for verifying Discord server membership!")
                       (Some bonusPoints) false None)
          end
    end.

(** *** Background membership checks *)

Record MembershipCheck : Type := mkMembershipCheck {
  stillMember : bool;
  mc_revoked : bool
}.

Definition checkUserDiscordMembership (now : Date) (configured : bool)
    (members_api : string -> FetchResult) (walletAddress : string)
  : M MembershipCheck :=
  profile <- gets (select_walletProfile walletAddress) ;;
  match profile with
  | None => ret (mkMembershipCheck true false)
  | Some profile =>
      if negb (wp_discordVerified profile) || negb (truthy (wp_discordId profile))
      then ret (mkMembershipCheck true false)
      else if negb configured then ret (mkMembershipCheck true false)
      else
        match members_api (or_else (wp_discordId profile) "") with
        | FetchError => ret (mkMembershipCheck true false)
        | Response status =>
            if Z.eqb status 404
            then
              update_walletProfiles walletAddress
                (fun p => set_updatedAt now (set_discordVerified false None p)) ;;
              verifyBonus <- getOriginalBonusPoints walletAddress "discord_verify" 50 ;;
              addPoints now walletAddress (- verifyBonus) "discord_verify_revoked"
                (Some ("Discord server verification revoked - left server (-"
                       ++ show_Z verifyBonus ++ "pt)")) ;;
              ret (mkMembershipCheck false true)
            else if response_ok status then ret (mkMembershipCheck true false)
            else ret (mkMembershipCheck true false)
        end
  end.

Record SweepCounts : Type := mkSweepCounts {
  checked : Z;
  sw_revoked : Z;
  errors : Z
}.

(** One turn of the sweep's loop over the verified users. *)
Definition membership_sweep_body (now : Date) (members_api : string -> FetchResult)
    (user : WalletProfile) (acc : SweepCounts) : M SweepCounts :=
  if negb (truthy (wp_discordId user)) then ret acc
  else
    match members_api (or_else (wp_discordId user) "") with
    | FetchError => ret (mkSweepCounts (checked acc) (sw_revoked acc) (errors acc + 1))
    | Response status =>
        let checked' := checked acc + 1 in
        if Z.eqb status 404
        then
          update_walletProfiles (wp_walletAddress user)
            (fun p => set_updatedAt now (set_discordVerified false None p)) ;;
          addPoints now (wp_walletAddress user) (-50) "discord_verify_revoked"
            (Some "Discord server verification revoked (left server)") ;;
          ret (mkSweepCounts checked' (sw_revoked acc + 1) (errors acc))
        else if negb (response_ok status)
        then ret (mkSweepCounts checked' (sw_revoked acc) (errors acc + 1))
        else ret (mkSweepCounts checked' (sw_revoked acc) (errors acc))
    end.

Definition checkDiscordServerMemberships (now : Date) (configured : bool)
    (members_api : string -> FetchResult) : M SweepCounts :=
  if negb configured then ret (mkSweepCounts 0 0 0)
  else
    verifiedUsers <- gets (fun db =>
      filter (fun p => wp_discordVerified p
                       && match wp_discordId p with Some _ => true | None => false end)
             (walletProfiles db)) ;;
    for_each verifiedUsers (membership_sweep_body now members_api) (mkSweepCounts 0 0 0).

(** *** Tweet existence (oEmbed) *)

(** [oembed_api url]: what fetching the oEmbed endpoint for [url] gives. *)
Definition checkTweetExists (oembed_api : string -> FetchResult) (tweetUrl : string)
  : bool :=
  match oembed_api tweetUrl with
  | Response status =>
      if response_ok status then true
      else if Z.eqb status 404 || Z.eqb status 403 then false
      else true
  | FetchError => true
  end.

Definition getActiveTweetCompletions (walletAddress : option string)
  : M (list TaskCompletion) :=
  results <- gets (fun db =>
    filter (fun t =>
              String.eqb (tc_taskType t) "daily_post"
              && is_active (tc_status t)
              && match tc_metadata t with Some _ => true | None => false end
              && (if truthy walletAddress
                  then opt_string_eqb walletAddress (tc_walletAddress t)
                  else true))
           (taskCompletions db)) ;;
  ret (filter (fun r => truthy (tc_metadata r)
                        && String.prefix "http" (or_else (tc_metadata r) ""))
              results).

Record TweetCheck : Type := mkTweetCheck {
  tk_checked : Z;
  tk_revoked : Z;
  revokedIds : list Z
}.

Definition checkAndRevokeDeletedTweets (now : Date) (oembed_api : string -> FetchResult)
    (walletAddress : string) : M TweetCheck :=
  completions <- getActiveTweetCompletions (Some walletAddress) ;;
  for_each completions
    (fun completion acc =>
       if negb (truthy (tc_metadata completion)) then ret acc
       else
         let checked' := tk_checked acc + 1 in
         let exists_ := checkTweetExists oembed_api (or_else (tc_metadata completion) "") in
         if negb exists_
         then
           result <- revokeTweetPoints now (tc_id completion) ;;
           if success result
           then ret (mkTweetCheck checked' (tk_revoked acc + 1)
                       (revokedIds acc ++ [tc_id completion])%list)
           else ret (mkTweetCheck checked' (tk_revoked acc) (revokedIds acc))
         else ret (mkTweetCheck checked' (tk_revoked acc) (revokedIds acc)))
    (mkTweetCheck 0 0 []).

Record CronCounts : Type := mkCronCounts {
  totalChecked : Z;
  totalRevoked : Z;
  cron_errors : Z
}.

Definition cronCheckAllTweets (now : Date) (oembed_api : string -> FetchResult)
  : M CronCounts :=
  completions <- getActiveTweetCompletions None ;;
  for_each completions
    (fun completion acc =>
       if negb (truthy (tc_metadata completion)) then ret acc
       else
         let totalChecked' := totalChecked acc + 1 in
         let exists_ := checkTweetExists oembed_api (or_else (tc_metadata completion) "") in
         if negb exists_
         then
           result <- revokeTweetPoints now (tc_id completion) ;;
           if success result
           then ret (mkCronCounts totalChecked' (totalRevoked acc + 1) (cron_errors acc))
           else ret (mkCronCounts totalChecked' (totalRevoked acc) (cron_errors acc))
         else ret (mkCronCounts totalChecked' (totalRevoked acc) (cron_errors acc)))
    (mkCronCounts 0 0 0).

(** *** Sequences of operations *)

Inductive Op : Type :=
| GetOrCreateWalletProfile (walletAddress chainType : string)
| ClaimConnectBonus (walletAddress : string)
| ConnectXAccount (nanoid walletAddress xUsername : string)
| DisconnectXAccount (walletAddress : string)
| ConnectDiscordAccount (nanoid walletAddress discordUsername : string)
    (discordId : option string)
| DisconnectDiscordAccount (walletAddress : string)
| VerifyDiscordServer (nanoid : string) (configured : bool)
    (members_api : string -> FetchResult) (walletAddress : string)
| CompleteDailyPost (today walletAddress : string) (tweetUrl : option string)
| GetOrCreateReferralCode (nanoid walletAddress : string)
| ApplyReferralCode (walletAddress referralCode : string)
| ClaimReferralBonus (referredWallet : string)
| AdjustUserPoints (walletAddress : string) (pointsChange : Z) (reason : string)
| RevokeTweetPoints (completionId : Z)
| CheckUserDiscordMembership (configured : bool)
    (members_api : string -> FetchResult) (walletAddress : string)
| CheckDiscordServerMemberships (configured : bool)
    (members_api : string -> FetchResult)
| CheckAndRevokeDeletedTweets (oembed_api : string -> FetchResult)
    (walletAddress : string)
| CronCheckAllTweets (oembed_api : string -> FetchResult).

(** The store after one operation called at time [now]. *)
Definition step (now : Date) (op : Op) (db : Store) : Store :=
  match op with
  | GetOrCreateWalletProfile w c => snd (getOrCreateWalletProfile now w c db)
  | ClaimConnectBonus w => snd (claimConnectBonus now w db)
  | ConnectXAccount n w u => snd (connectXAccount now n w u db)
  | DisconnectXAccount w => snd (disconnectXAccount now w db)
  | ConnectDiscordAccount n w u i => snd (connectDiscordAccount now n w u i db)
  | DisconnectDiscordAccount w => snd (disconnectDiscordAccount now w db)
  | VerifyDiscordServer n c api w => snd (verifyDiscordServer now n c api w db)
  | CompleteDailyPost today w url => snd (completeDailyPost now today w url db)
  | GetOrCreateReferralCode n w => snd (getOrCreateReferralCode now n w db)
  | ApplyReferralCode w code => snd (applyReferralCode now w code db)
  | ClaimReferralBonus w => snd (claimReferralBonus now w db)
  | AdjustUserPoints w pts reason => snd (adjustUserPoints now w pts reason db)
  | RevokeTweetPoints id => snd (revokeTweetPoints now id db)
  | CheckUserDiscordMembership c api w => snd (checkUserDiscordMembership now c api w db)
  | CheckDiscordServerMemberships c api => snd (checkDiscordServerMemberships now c api db)
  | CheckAndRevokeDeletedTweets api w => snd (checkAndRevokeDeletedTweets now api w db)
  | CronCheckAllTweets api => snd (cronCheckAllTweets now api db)
  end.

Fixpoint run (ops : list (Date * Op)) (db : Store) : Store :=
  match ops with
  | [] => db
  | (now, op) :: rest => run rest (step now op db)
  end.

(** *** What the ledger says about a wallet *)

Definition history_sum (w : string) (db : Store) : Z :=
  fold_right (fun h acc => if String.eqb (ph_walletAddress h) w
                           then ph_pointsChange h + acc else acc)
             0 (pointsHistory db).

Definition balance (w : string) (db : Store) : Z :=
  match select_walletProfile w db with
  | Some p => wp_totalPoints p
  | None => 0
  end.

(** *** Read-only queries *)

(** [today] is what [getUTCDateString()] returns at the call. *)
Definition isDailyPostCompleted (today walletAddress : string) : M bool :=
  hasCompletedTask walletAddress "daily_post" (Some today).

Record ReferralStats : Type := mkReferralStats {
  rs_referralCode : option string;
  rs_referralCount : Z;
  rs_referralPointsEarned : Z;
  rs_referrals : list Referral;
  rs_tier : Tier;
  rs_canGenerateCode : bool;
  rs_referredBy : option string
}.

(** [ORDER BY created_at DESC] arranges the selected rows newest first and
    leaves the order of rows of equal time to the engine.  A query whose
    answer shows that order takes the engine's arrangement as its first
    argument [orderBy]. *)
Definition getReferralStats (orderBy : list Referral -> list Referral)
    (walletAddress : string) : M (option ReferralStats) :=
  profile <- getWalletProfile walletAddress ;;
  match profile with
  | None => ret None
  | Some profile =>
      referralsList <- gets (fun db =>
        orderBy (filter (fun r => String.eqb (rf_referrerWallet r) walletAddress)
                        (referrals db))) ;;
      let tierInfo := getReferralTier (wp_referralCount profile) in
      ret (Some {| rs_referralCode := wp_referralCode profile;
                   rs_referralCount := wp_referralCount profile;
                   rs_referralPointsEarned := wp_referralPointsEarned profile;
                   rs_referrals := referralsList;
                   rs_tier := tierInfo;
                   rs_canGenerateCode :=
                     wp_xConnected profile && wp_discordConnected profile
                     && wp_discordVerified profile;
                   rs_referredBy := wp_referredBy profile |})
  end.

(** The three paginated listings; [None] is the rejected query. *)
Definition getAllWalletProfiles (orderBy : list WalletProfile -> list WalletProfile)
    (page pageSize : Z) : M (option (Page WalletProfile)) :=
  let offset := (page - 1) * pageSize in
  profiles <- gets (fun db =>
    limit_offset pageSize offset (orderBy (walletProfiles db))) ;;
  match profiles with
  | None => ret None
  | Some profiles =>
      total <- gets (fun db => Z.of_nat (List.length (walletProfiles db))) ;;
      ret (Some (mkPage profiles total))
  end.

Definition getPointsHistory (orderBy : list PointsHistory -> list PointsHistory)
    (walletAddress : option string) (page pageSize : Z)
  : M (option (Page PointsHistory)) :=
  let offset := (page - 1) * pageSize in
  if truthy walletAddress
  then
    history <- gets (fun db =>
      limit_offset pageSize offset
        (orderBy (filter (fun h => opt_string_eqb walletAddress (ph_walletAddress h))
                         (pointsHistory db)))) ;;
    match history with
    | None => ret None
    | Some history =>
        total <- gets (fun db =>
          Z.of_nat (List.length
            (filter (fun h => opt_string_eqb walletAddress (ph_walletAddress h))
                    (pointsHistory db)))) ;;
        ret (Some (mkPage history total))
    end
  else
    history <- gets (fun db =>
      limit_offset pageSize offset (orderBy (pointsHistory db))) ;;
    match history with
    | None => ret None
    | Some history =>
        total <- gets (fun db => Z.of_nat (List.length (pointsHistory db))) ;;
        ret (Some (mkPage history total))
    end.

Definition getAllReferrals (orderBy : list Referral -> list Referral)
    (page pageSize : Z) : M (option (Page Referral)) :=
  let offset := (page - 1) * pageSize in
  referralsList <- gets (fun db =>
    limit_offset pageSize offset (orderBy (referrals db))) ;;
  match referralsList with
  | None => ret None
  | Some referralsList =>
      total <- gets (fun db => Z.of_nat (List.length (referrals db))) ;;
      ret (Some (mkPage referralsList total))
  end.

Record AdminStats : Type := mkAdminStats {
  totalUsers : Z;
  totalPointsDistributed : Z;
  xConnectedUsers : Z;
  discordConnectedUsers : Z;
  dailyActiveUsers : Z
}.

(** Row counts, [COALESCE(SUM(total_points), 0)] and
    [count(DISTINCT wallet_address)]. *)
Definition getAdminStats (today : string) : M AdminStats :=
  gets (fun db =>
    {| totalUsers := Z.of_nat (List.length (walletProfiles db));
       totalPointsDistributed :=
         fold_right (fun p sum => wp_totalPoints p + sum) 0 (walletProfiles db);
       xConnectedUsers :=
         Z.of_nat (List.length (filter wp_xConnected (walletProfiles db)));
       discordConnectedUsers :=
         Z.of_nat (List.length (filter wp_discordConnected (walletProfiles db)));
       dailyActiveUsers :=
         distinct_count
           (map tc_walletAddress
              (filter (fun t => opt_string_eqb (tc_completionDate t) today)
                      (taskCompletions db))) |}).

Record TierDistribution : Type := mkTierDistribution {
  Bronze : Z;
  Silver : Z;
  Gold : Z;
  Platinum : Z;
  Diamond : Z
}.

(** [tierDistribution[name]++]; the names are those of [tiers]. *)
Definition count_tier (name : string) (d : TierDistribution) : TierDistribution :=
  if String.eqb name "Bronze"
  then mkTierDistribution (Bronze d + 1) (Silver d) (Gold d) (Platinum d) (Diamond d)
  else if String.eqb name "Silver"
  then mkTierDistribution (Bronze d) (Silver d + 1) (Gold d) (Platinum d) (Diamond d)
  else if String.eqb name "Gold"
  then mkTierDistribution (Bronze d) (Silver d) (Gold d + 1) (Platinum d) (Diamond d)
  else if String.eqb name "Platinum"
  then mkTierDistribution (Bronze d) (Silver d) (Gold d) (Platinum d + 1) (Diamond d)
  else if String.eqb name "Diamond"
  then mkTierDistribution (Bronze d) (Silver d) (Gold d) (Platinum d) (Diamond d + 1)
  else d.

Record ReferralAdminStats : Type := mkReferralAdminStats {
  totalReferrals : Z;
  claimedReferrals : Z;
  pendingReferrals : Z;
  activeReferrers : Z;
  tierDistribution : TierDistribution
}.

Definition getReferralAdminStats : M ReferralAdminStats :=
  totalReferrals <- gets (fun db => Z.of_nat (List.length (referrals db))) ;;
  claimedReferrals <- gets (fun db =>
    Z.of_nat (List.length (filter rf_referrerClaimed (referrals db)))) ;;
  activeReferrers <- gets (fun db =>
    distinct_count (map rf_referrerWallet (referrals db))) ;;
  profiles <- gets (fun db =>
    filter (fun p => Z.leb 1 (wp_referralCount p)) (walletProfiles db)) ;;
  tierDistribution <-
    for_each profiles
      (fun p d => ret (count_tier (tier_name (getReferralTier (wp_referralCount p))) d))
      (mkTierDistribution 0 0 0 0 0) ;;
  ret {| totalReferrals := totalReferrals;
         claimedReferrals := claimedReferrals;
         pendingReferrals := Z.max 0 (totalReferrals - claimedReferrals);
         activeReferrers := activeReferrers;
         tierDistribution := tierDistribution |}.

Definition getAdminReferralStats : M ReferralAdminStats := getReferralAdminStats.

Record ActivityStats : Type := mkActivityStats {
  totalTasks : Z;
  recentDailyPosts : Z;
  as_profile : WalletProfile
}.

Definition getUserActivityStats (orderBy : list TaskCompletion -> list TaskCompletion)
    (walletAddress : string) : M (option ActivityStats) :=
  profile <- getWalletProfile walletAddress ;;
  match profile with
  | None => ret None
  | Some profile =>
      taskCount <- gets (fun db =>
        Z.of_nat (List.length
          (filter (fun t => String.eqb (tc_walletAddress t) walletAddress)
                  (taskCompletions db)))) ;;
      recentPosts <- gets (fun db =>
        firstn 30
          (orderBy
             (filter (fun t => String.eqb (tc_walletAddress t) walletAddress
                               && String.eqb (tc_taskType t) "daily_post")
                     (taskCompletions db)))) ;;
      ret (Some {| totalTasks := taskCount;
                   recentDailyPosts := Z.of_nat (List.length recentPosts);
                   as_profile := profile |})
  end.

End Db.

(** * The users table (server/db.ts) *)

Module Users.

Record User : Type := mkUser {
  u_id : Z;
  u_walletAddress : string;
  u_name : option string;
  u_role : string;
  u_createdAt : Date;
  u_updatedAt : Date;
  u_lastSignedIn : Date
}.

(** The table, newest row first. *)
Definition Table : Type := list User.

Definition select_user (walletAddress : string) (users : Table) : option User :=
  find (fun u => String.eqb (u_walletAddress u) walletAddress) users.

(** [adminWallet] is [process.env.ADMIN_WALLET_ADDRESS]; [None] as the
    result is the thrown error for an empty address. *)
Definition upsertUserByWallet (now : Date) (adminWallet : option string)
    (walletAddress : string) (name : option string) (users : Table) : option Table :=
  if String.eqb walletAddress "" then None
  else
    match select_user walletAddress users with
    | Some _ =>
        Some (map (fun u =>
                     if String.eqb (u_walletAddress u) walletAddress
                     then {| u_id := u_id u;
                             u_walletAddress := u_walletAddress u;
                             u_name := if truthy name then name else u_name u;
                             u_role := u_role u;
                             u_createdAt := u_createdAt u;
                             u_updatedAt := now;
                             u_lastSignedIn := now |}
                     else u) users)
    | None =>
        let isAdmin :=
          truthy adminWallet
          && String.eqb (toLowerCase walletAddress)
                        (toLowerCase (or_else adminWallet "")) in
        Some ({| u_id := Db.next_id users;
                 u_walletAddress := walletAddress;
                 u_name := or_null name;
                 u_role := if isAdmin then "admin" else "user";
                 u_createdAt := now;
                 u_updatedAt := now;
                 u_lastSignedIn := now |} :: users)
    end.

Definition getUserByWallet (walletAddress : string) (users : Table) : option User :=
  select_user walletAddress users.

End Users.

(** * The in-memory store (server/mockStore.ts) *)

Module Mock.

(** [profiles] is the [Map], as the list of its entries in insertion order;
    the three arrays grow at their end; the three counters are the
    module-level [let]s. *)
Record Store : Type := mkStore {
  profiles : list (string * WalletProfile);
  pointsHistory : list PointsHistory;
  taskCompletions : list TaskCompletion;
  referrals : list MockReferral;
  pointsId : Z;
  taskId : Z;
  referralId : Z
}.

Definition empty : Store := mkStore [] [] [] [] 1 1 1.

Definition M : Type -> Type := ST Store.

Definition normalize (address : string) : string := toLowerCase address.

(** *** The map and the objects it holds *)

Definition entries_get (key : string) (l : list (string * WalletProfile))
  : option WalletProfile :=
  match find (fun e => String.eqb (fst e) key) l with
  | Some e => Some (snd e)
  | None => None
  end.

(** [profiles.get(key)] *)
Definition profiles_get (key : string) (db : Store) : option WalletProfile :=
  entries_get key (profiles db).

(** Apply [f] to the first element that satisfies [test]: an assignment
    through the reference that [find] returned. *)
Fixpoint mutate_first {A : Type} (test : A -> bool) (f : A -> A) (l : list A) : list A :=
  match l with
  | [] => []
  | x :: rest => if test x then f x :: rest else x :: mutate_first test f rest
  end.

(** Assignments to fields of the profile object stored under [key]. *)
Definition mutate_profile (key : string) (f : WalletProfile -> WalletProfile) : M unit :=
  modify (fun db =>
    mkStore (mutate_first (fun e => String.eqb (fst e) key)
                          (fun e => (fst e, f (snd e))) (profiles db))
            (pointsHistory db) (taskCompletions db) (referrals db)
            (pointsId db) (taskId db) (referralId db)).

Definition ensureProfile (now : Date) (walletAddress chainType : string)
  : M WalletProfile :=
  let key := normalize walletAddress in
  existing <- gets (profiles_get key) ;;
  match existing with
  | Some existing => ret existing
  | None =>
      let profile := new_profile walletAddress chainType now in
      modify (fun db =>
        mkStore (profiles db ++ [(key, profile)])%list
                (pointsHistory db) (taskCompletions db) (referrals db)
                (pointsId db) (taskId db) (referralId db)) ;;
      ret profile
  end.

Definition touchProfile (now : Date) (key : string) : M unit :=
  mutate_profile key (set_updatedAt now).

Definition maybeGenerateReferralCode (now : Date) (nanoid : string) (key : string)
  : M unit :=
  profile <- gets (profiles_get key) ;;
  match profile with
  | None => ret tt
  | Some profile =>
      if truthy (wp_referralCode profile) then ret tt
      else if wp_xConnected profile && wp_discordConnected profile
              && wp_discordVerified profile
      then
        mutate_profile key (set_referralCode (Some (toUpperCase nanoid))) ;;
        touchProfile now key
      else ret tt
  end.

Definition updateReferralStats (now : Date) (referrerWallet : string) : M unit :=
  let key := normalize referrerWallet in
  profile <- gets (profiles_get key) ;;
  match profile with
  | None => ret tt
  | Some _ =>
      walletReferrals <- gets (fun db =>
        filter (fun r => String.eqb (normalize (mr_referrerWallet r)) key)
               (referrals db)) ;;
      mutate_profile key
        (set_referralStats
           (Z.of_nat (List.length walletReferrals))
           (fold_left (fun sum r => sum + mr_referrerPoints r) walletReferrals 0)) ;;
      touchProfile now key
  end.

Definition addPoints (now : Date) (walletAddress : string) (points : Z)
    (transactionType : string) (description : option string) : M Z :=
  profile <- ensureProfile now walletAddress "evm" ;;
  let key := normalize walletAddress in
  let total := wp_totalPoints profile + points in
  mutate_profile key (set_totalPoints total) ;;
  touchProfile now key ;;
  modify (fun db =>
    mkStore (profiles db)
            (pointsHistory db ++
               [ {| ph_id := pointsId db;
                    ph_walletAddress := wp_walletAddress profile;
                    ph_transactionType := transactionType;
                    ph_pointsChange := points;
                    ph_balanceAfter := total;
                    ph_description := or_null description;
                    ph_createdAt := now |} ])%list
            (taskCompletions db) (referrals db)
            (pointsId db + 1) (taskId db) (referralId db)) ;;
  ret total.

Definition referred_is (walletAddress : string) (r : MockReferral) : bool :=
  String.eqb (normalize (mr_referredWallet r)) (normalize walletAddress).

Definition set_referral_claimed (referrerBonus referredBonus : Z) (r : MockReferral)
  : MockReferral :=
  {| mr_id := mr_id r;
     mr_referrerWallet := mr_referrerWallet r;
     mr_referredWallet := mr_referredWallet r;
     mr_referrerClaimed := true;
     mr_referrerPoints := referrerBonus;
     mr_referredPoints := referredBonus;
     mr_createdAt := mr_createdAt r |}.

Definition mutate_referral (walletAddress : string) (f : MockReferral -> MockReferral)
  : M unit :=
  modify (fun db =>
    mkStore (profiles db) (pointsHistory db) (taskCompletions db)
            (mutate_first (referred_is walletAddress) f (referrals db))
            (pointsId db) (taskId db) (referralId db)).

Definition maybeClaimReferralBonus (now : Date) (walletAddress : string) : M unit :=
  profile <- ensureProfile now walletAddress "evm" ;;
  if negb (truthy (wp_referredBy profile)) then ret tt
  else
    referral <- gets (fun db => find (referred_is walletAddress) (referrals db)) ;;
    match referral with
    | None => ret tt
    | Some referral =>
        if mr_referrerClaimed referral then ret tt
        else
          let referrerBonus := 50 in
          let referredBonus := 50 in
          mutate_referral walletAddress (set_referral_claimed referrerBonus referredBonus) ;;
          addPoints now (mr_referrerWallet referral) referrerBonus "referral_bonus"
                    (Some "Referral bonus") ;;
          addPoints now walletAddress referredBonus "referral_bonus"
                    (Some "Referral bonus") ;;
          updateReferralStats now (mr_referrerWallet referral)
    end.

(** *** Exported operations *)

Definition getOrCreateWalletProfile (now : Date) (walletAddress chainType : string)
  : M WalletProfile :=
  ensureProfile now walletAddress chainType.

Definition getWalletProfile (walletAddress : string) : M (option WalletProfile) :=
  gets (profiles_get (normalize walletAddress)).

Definition claimConnectBonus (now : Date) (walletAddress : string) : M Result :=
  profile <- ensureProfile now walletAddress "evm" ;;
  let key := normalize walletAddress in
  if wp_connectBonusClaimed profile
  then ret (failure "Connect bonus already claimed")
  else
    mutate_profile key (set_connectBonusClaimed true) ;;
    touchProfile now key ;;
    let bonusPoints := 300 in
    addPoints now walletAddress bonusPoints "connect_bonus"
              (Some "Wallet connection bonus") ;;
    maybeClaimReferralBonus now walletAddress ;;
    ret (mkResult true
           ("Earned " ++ show_Z bonusPoints ++ " points for connecting wallet!")
           (Some bonusPoints)).

(** [xUsername.replace(/^@/, "")] *)
Definition strip_at (xUsername : string) : string :=
  match xUsername with
  | String c rest => if Ascii.eqb c "@"%char then rest else xUsername
  | EmptyString => xUsername
  end.

Definition connectXAccount (now : Date) (nanoid : string)
    (walletAddress xUsername : string) : M Result :=
  profile <- ensureProfile now walletAddress "evm" ;;
  let key := normalize walletAddress in
  if wp_xConnected profile then ret (failure "X account already connected")
  else
    mutate_profile key (set_x true (Some (strip_at xUsername)) (Some now)) ;;
    touchProfile now key ;;
    let bonusPoints := 100 in
    addPoints now walletAddress bonusPoints "x_connect"
              (Some ("Connected X account: @" ++ strip_at xUsername)) ;;
    maybeGenerateReferralCode now nanoid key ;;
    maybeClaimReferralBonus now walletAddress ;;
    ret (mkResult true
           ("Earned " ++ show_Z bonusPoints ++ " points for connecting X!")
           (Some bonusPoints)).

Definition disconnectXAccount (now : Date) (walletAddress : string) : M Result :=
  profile <- ensureProfile now walletAddress "evm" ;;
  let key := normalize walletAddress in
  if negb (wp_xConnected profile) then ret (failure "X account not connected")
  else
    mutate_profile key (set_x false None None) ;;
    touchProfile now key ;;
    addPoints now walletAddress (-100) "x_disconnect"
              (Some "Disconnected X account (-100pt)") ;;
    ret (mkResult true "X account disconnected. 100 points deducted." None).

Definition connectDiscordAccount (now : Date) (nanoid : string)
    (walletAddress discordUsername : string) : M Result :=
  profile <- ensureProfile now walletAddress "evm" ;;
  let key := normalize walletAddress in
  if wp_discordConnected profile
  then ret (failure "Discord account already connected")
  else
    mutate_profile key (set_discordConnected true (Some discordUsername) (Some now)) ;;
    touchProfile now key ;;
    let bonusPoints := 50 in
    addPoints now walletAddress bonusPoints "discord_connect"
              (Some ("Connected Discord account: " ++ discordUsername)) ;;
    maybeGenerateReferralCode now nanoid key ;;
    maybeClaimReferralBonus now walletAddress ;;
    ret (mkResult true
           ("Earned " ++ show_Z bonusPoints ++ " points for connecting Discord!")
           (Some bonusPoints)).

Definition disconnectDiscordAccount (now : Date) (walletAddress : string) : M Result :=
  profile <- ensureProfile now walletAddress "evm" ;;
  let key := normalize walletAddress in
  if negb (wp_discordConnected profile)
  then ret (failure "Discord account not connected")
  else
    mutate_profile key
      (fun p => set_discordVerified false None
                  (set_discordId None (set_discordConnected false None None p))) ;;
    touchProfile now key ;;
    addPoints now walletAddress (-50) "discord_disconnect"
              (Some "Disconnected Discord account (-50pt)") ;;
    ret (mkResult true "Discord account disconnected. 50 points deducted." None).

Definition verifyDiscordServer (now : Date) (nanoid : string) (walletAddress : string)
  : M Result :=
  profile <- ensureProfile now walletAddress "evm" ;;
  let key := normalize walletAddress in
  if negb (wp_discordConnected profile)
  then ret (failure "Discord account must be connected first")
  else if wp_discordVerified profile
  then ret (failure "Discord server already verified")
  else
    mutate_profile key (set_discordVerified true (Some now)) ;;
    touchProfile now key ;;
    let bonusPoints := 50 in
    addPoints now walletAddress bonusPoints "discord_verify"
              (Some "Verified PerpX Discord server membership") ;;
    maybeGenerateReferralCode now nanoid key ;;
    maybeClaimReferralBonus now walletAddress ;;
    ret (mkResult true
           ("Earned " ++ show_Z bonusPoints
            ++ " points for verifying Discord server membership!")
           (Some bonusPoints)).

(** [JSON.stringify({ tweetUrl })] *)
Definition quote_char : ascii := ascii_of_nat 34.
Definition backslash_char : ascii := ascii_of_nat 92.

Definition hex_digit (n : nat) : ascii :=
  if (n <? 10)%nat then ascii_of_nat (48 + n) else ascii_of_nat (87 + n).

Definition json_escape_char (c : ascii) : string :=
  let n := nat_of_ascii c in
  if Ascii.eqb c quote_char then String backslash_char (String quote_char "")
  else if Ascii.eqb c backslash_char then String backslash_char (String backslash_char "")
  else if (n =? 8)%nat then String backslash_char "b"
  else if (n =? 12)%nat then String backslash_char "f"
  else if (n =? 10)%nat then String backslash_char "n"
  else if (n =? 13)%nat then String backslash_char "r"
  else if (n =? 9)%nat then String backslash_char "t"
  else if (n <? 32)%nat
  then String backslash_char
         ("u00" ++ String (hex_digit (n / 16)) (String (hex_digit (n mod 16)) ""))
  else String c "".

Fixpoint json_escape (s : string) : string :=
  match s with
  | EmptyString => EmptyString
  | String c rest => json_escape_char c ++ json_escape rest
  end.

Definition JSON_stringify_tweetUrl (tweetUrl : string) : string :=
  "{" ++ String quote_char "tweetUrl" ++ String quote_char ":"
  ++ String quote_char (json_escape tweetUrl) ++ String quote_char "}".

Definition daily_post_today (walletAddress today : string) (t : TaskCompletion) : bool :=
  String.eqb (normalize (tc_walletAddress t)) (normalize walletAddress)
  && String.eqb (tc_taskType t) "daily_post"
  && opt_string_eqb (tc_completionDate t) today
  && is_active (tc_status t).

Definition completeDailyPost (now : Date) (today : string) (walletAddress : string)
    (tweetUrl : option string) : M Result :=
  profile <- ensureProfile now walletAddress "evm" ;;
  already <- gets (fun db => find (daily_post_today walletAddress today)
                                  (taskCompletions db)) ;;
  match already with
  | Some _ => ret (failure "Daily post already completed")
  | None =>
      let bonusPoints := 100 in
      modify (fun db =>
        mkStore (profiles db) (pointsHistory db)
                (taskCompletions db ++
                   [ {| tc_id := taskId db;
                        tc_walletAddress := wp_walletAddress profile;
                        tc_taskType := "daily_post";
                        tc_pointsAwarded := bonusPoints;
                        tc_completionDate := Some today;
                        tc_metadata :=
                          if truthy tweetUrl
                          then Some (JSON_stringify_tweetUrl (or_else tweetUrl ""))
                          else None;
                        tc_status := Active;
                        tc_completedAt := now;
                        tc_revokedAt := None |} ])%list
                (referrals db) (pointsId db) (taskId db + 1) (referralId db)) ;;
      addPoints now walletAddress bonusPoints "daily_post"
                (Some "Daily post completion") ;;
      maybeClaimReferralBonus now walletAddress ;;
      ret (mkResult true
             ("Earned " ++ show_Z bonusPoints ++ " points for daily post!")
             (Some bonusPoints))
  end.

Definition revokeTweetPoints (now : Date) (completionId : Z) : M Result :=
  completion <- gets (fun db => find (fun t => Z.eqb (tc_id t) completionId)
                                     (taskCompletions db)) ;;
  match completion with
  | None => ret (failure "Completion not found")
  | Some completion =>
      match tc_status completion with
      | Revoked => ret (failure "Already revoked")
      | Active =>
          modify (fun db =>
            mkStore (profiles db) (pointsHistory db)
                    (mutate_first (fun t => Z.eqb (tc_id t) completionId)
                                  (set_task_revoked now) (taskCompletions db))
                    (referrals db) (pointsId db) (taskId db) (referralId db)) ;;
          addPoints now (tc_walletAddress completion) (- tc_pointsAwarded completion)
                    "tweet_revoked" (Some "Tweet revoked") ;;
          ret (mkResult true "Tweet points revoked" None)
      end
  end.

Definition applyReferralCode (now : Date) (walletAddress referralCode : string)
  : M Result :=
  profile <- ensureProfile now walletAddress "evm" ;;
  let key := normalize walletAddress in
  if truthy (wp_referredBy profile)
  then ret (failure "Referral code already applied")
  else
    referrer <- gets (fun db =>
      find (fun p => opt_string_eqb (wp_referralCode p) (toUpperCase referralCode))
           (map snd (profiles db))) ;;
    match referrer with
    | None => ret (failure "Referral code not found")
    | Some referrer =>
        if String.eqb (normalize (wp_walletAddress referrer)) (normalize walletAddress)
        then ret (failure "You cannot refer yourself")
        else
          mutate_profile key (set_referredBy (Some (wp_walletAddress referrer))) ;;
          touchProfile now key ;;
          modify (fun db =>
            mkStore (profiles db) (pointsHistory db) (taskCompletions db)
                    (referrals db ++
                       [ {| mr_id := referralId db;
                            mr_referrerWallet := wp_walletAddress referrer;
                            mr_referredWallet := wp_walletAddress profile;
                            mr_referrerClaimed := false;
                            mr_referrerPoints := 0;
                            mr_referredPoints := 0;
                            mr_createdAt := now |} ])%list
                    (pointsId db) (taskId db) (referralId db + 1)) ;;
          updateReferralStats now (wp_walletAddress referrer) ;;
          ret (mkResult true
            "Referral code applied! Complete your first task to receive bonus points."
            None)
    end.

Record ClaimResult : Type := mkClaimResult {
  cr_success : bool;
  cr_message : string;
  cr_referrerPoints : option Z;
  cr_referredPoints : option Z
}.

Definition claimReferralBonus (now : Date) (referredWallet : string) : M ClaimResult :=
  referral <- gets (fun db => find (referred_is referredWallet) (referrals db)) ;;
  match referral with
  | None => ret (mkClaimResult false "Referral not found" None None)
  | Some referral =>
      if mr_referrerClaimed referral
      then ret (mkClaimResult false "Referral bonus already claimed" None None)
      else
        mutate_referral referredWallet (set_referral_claimed 50 50) ;;
        addPoints now (mr_referrerWallet referral) 50 "referral_bonus"
                  (Some "Referral bonus") ;;
        addPoints now referredWallet 50 "referral_bonus" (Some "Referral bonus") ;;
        updateReferralStats now (mr_referrerWallet referral) ;;
        ret (mkClaimResult true "Referral bonus claimed!" (Some 50) (Some 50))
  end.

Definition adjustUserPoints (now : Date) (walletAddress : string) (pointsChange : Z)
    (reason : string) : M Z :=
  addPoints now walletAddress pointsChange "admin_adjustment" (Some reason) ;;
  profile <- getWalletProfile walletAddress ;;
  ret (match profile with Some p => wp_totalPoints p | None => 0 end).

(** *** Sequences of operations *)

Inductive Op : Type :=
| GetOrCreateWalletProfile (walletAddress chainType : string)
| ClaimConnectBonus (walletAddress : string)
| ConnectXAccount (nanoid walletAddress xUsername : string)
| DisconnectXAccount (walletAddress : string)
| ConnectDiscordAccount (nanoid walletAddress discordUsername : string)
| DisconnectDiscordAccount (walletAddress : string)
| VerifyDiscordServer (nanoid walletAddress : string)
| CompleteDailyPost (today walletAddress : string) (tweetUrl : option string)
| RevokeTweetPoints (completionId : Z)
| ApplyReferralCode (walletAddress referralCode : string)
| ClaimReferralBonus (referredWallet : string)
| AdjustUserPoints (walletAddress : string) (pointsChange : Z) (reason : string).

Definition step (now : Date) (op : Op) (db : Store) : Store :=
  match op with
  | GetOrCreateWalletProfile w c => snd (getOrCreateWalletProfile now w c db)
  | ClaimConnectBonus w => snd (claimConnectBonus now w db)
  | ConnectXAccount n w u => snd (connectXAccount now n w u db)
  | DisconnectXAccount w => snd (disconnectXAccount now w db)
  | ConnectDiscordAccount n w u => snd (connectDiscordAccount now n w u db)
  | DisconnectDiscordAccount w => snd (disconnectDiscordAccount now w db)
  | VerifyDiscordServer n w => snd (verifyDiscordServer now n w db)
  | CompleteDailyPost today w url => snd (completeDailyPost now today w url db)
  | RevokeTweetPoints id => snd (revokeTweetPoints now id db)
  | ApplyReferralCode w code => snd (applyReferralCode now w code db)
  | ClaimReferralBonus w => snd (claimReferralBonus now w db)
  | AdjustUserPoints w pts reason => snd (adjustUserPoints now w pts reason db)
  end.

Fixpoint run (ops : list (Date * Op)) (db : Store) : Store :=
  match ops with
  | [] => db
  | (now, op) :: rest => run rest (step now op db)
  end.

(** *** What the ledger says about a wallet *)

(** [getPointsHistory(wallet)] filters on the normalized address. *)
Definition history_sum (w : string) (db : Store) : Z :=
  fold_right (fun h acc => if String.eqb (normalize (ph_walletAddress h)) (normalize w)
                           then ph_pointsChange h + acc else acc)
             0 (pointsHistory db).

Definition balance (w : string) (db : Store) : Z :=
  match profiles_get (normalize w) db with
  | Some p => wp_totalPoints p
  | None => 0
  end.

(** *** Read-only queries and listings *)

(** [Array.from(profiles.values())] *)
Definition profiles_values (db : Store) : list WalletProfile := map snd (profiles db).

Definition getAllWalletProfiles (page pageSize : Z) : M (Page WalletProfile) :=
  let offset := (page - 1) * pageSize in
  all <- gets (fun db =>
    sort_by (fun a b => wp_createdAt b - wp_createdAt a) (profiles_values db)) ;;
  ret (mkPage (slice offset (offset + pageSize) all) (Z.of_nat (List.length all))).

Definition getPointsHistory (walletAddress : option string) (page pageSize : Z)
  : M (Page PointsHistory) :=
  let offset := (page - 1) * pageSize in
  filtered <- gets (fun db =>
    if truthy walletAddress
    then filter (fun h => String.eqb (normalize (ph_walletAddress h))
                                     (normalize (or_else walletAddress "")))
                (pointsHistory db)
    else pointsHistory db) ;;
  let ordered := sort_by (fun a b => ph_createdAt b - ph_createdAt a) filtered in
  ret (mkPage (slice offset (offset + pageSize) ordered)
              (Z.of_nat (List.length ordered))).

(** [today] is what [getUTCDateString()] returns at the call. *)
Definition isDailyPostCompleted (today walletAddress : string) : M bool :=
  gets (fun db => existsb (daily_post_today walletAddress today) (taskCompletions db)).

Record ReferralStats : Type := mkReferralStats {
  rs_referralCode : option string;
  rs_referralCount : Z;
  rs_referralPointsEarned : Z;
  rs_referrals : list MockReferral;
  rs_tier : Db.Tier;
  rs_canGenerateCode : bool;
  rs_referredBy : option string
}.

Definition getReferralStats (now : Date) (walletAddress : string) : M ReferralStats :=
  profile <- ensureProfile now walletAddress "evm" ;;
  walletReferrals <- gets (fun db =>
    filter (fun r => String.eqb (normalize (mr_referrerWallet r))
                                (normalize walletAddress))
           (referrals db)) ;;
  let tier := Db.getReferralTier (wp_referralCount profile) in
  ret {| rs_referralCode := wp_referralCode profile;
         rs_referralCount := wp_referralCount profile;
         rs_referralPointsEarned := wp_referralPointsEarned profile;
         rs_referrals := walletReferrals;
         rs_tier := tier;
         rs_canGenerateCode :=
           wp_xConnected profile && wp_discordConnected profile
           && wp_discordVerified profile;
         rs_referredBy := wp_referredBy profile |}.

Record LeaderboardEntry : Type := mkLeaderboardEntry {
  lb_walletAddress : string;
  lb_referralCount : Z;
  lb_referralPointsEarned : Z;
  rank : Z;
  lb_tier : Db.Tier
}.

Definition getReferralLeaderboard (limit : Z) : M (list LeaderboardEntry) :=
  gets (fun db =>
    map_index
      (fun entry index =>
         {| lb_walletAddress := wp_walletAddress entry;
            lb_referralCount := wp_referralCount entry;
            lb_referralPointsEarned := wp_referralPointsEarned entry;
            rank := index + 1;
            lb_tier := Db.getReferralTier (wp_referralCount entry) |})
      0
      (slice 0 limit
         (sort_by (fun a b => wp_referralCount b - wp_referralCount a)
            (filter (fun p => Z.ltb 0 (wp_referralCount p)) (profiles_values db))))).

Definition getAdminStats (today : string) : M Db.AdminStats :=
  gets (fun db =>
    {| Db.totalUsers := Z.of_nat (List.length (profiles db));
       Db.totalPointsDistributed :=
         fold_left (fun sum p => sum + wp_totalPoints p) (profiles_values db) 0;
       Db.xConnectedUsers :=
         Z.of_nat (List.length (filter wp_xConnected (profiles_values db)));
       Db.discordConnectedUsers :=
         Z.of_nat (List.length (filter wp_discordConnected (profiles_values db)));
       Db.dailyActiveUsers :=
         distinct_count
           (map (fun t => normalize (tc_walletAddress t))
              (filter (fun t => opt_string_eqb (tc_completionDate t) today)
                      (taskCompletions db))) |}).

Definition getAllReferrals (page pageSize : Z) : M (Page MockReferral) :=
  let offset := (page - 1) * pageSize in
  gets (fun db =>
    mkPage (slice offset (offset + pageSize) (referrals db))
           (Z.of_nat (List.length (referrals db)))).

Definition getAdminReferralStats : M Db.ReferralAdminStats :=
  gets (fun db =>
    let totalReferrals := Z.of_nat (List.length (referrals db)) in
    let claimedReferrals :=
      Z.of_nat (List.length (filter mr_referrerClaimed (referrals db))) in
    let pendingReferrals := totalReferrals - claimedReferrals in
    let activeReferrers :=
      distinct_count (map (fun r => normalize (mr_referrerWallet r)) (referrals db)) in
    let tierDistribution :=
      fold_left
        (fun d profile =>
           Db.count_tier (Db.tier_name (Db.getReferralTier (wp_referralCount profile))) d)
        (profiles_values db) (Db.mkTierDistribution 0 0 0 0 0) in
    Db.mkReferralAdminStats totalReferrals claimedReferrals pendingReferrals
      activeReferrers tierDistribution).

(** The two reconciliation entry points do nothing here. *)
Definition checkAndRevokeDeletedTweets (walletAddress : option string)
  : M Db.TweetCheck :=
  ret (Db.mkTweetCheck 0 0 []).

Definition cronCheckAllTweets : M Db.CronCounts := ret (Db.mkCronCounts 0 0 0).

End Mock.

(** * The procedures of the tRPC routers (server/routers.ts,
      server/mockRouters.ts)

    [walletAddress] is the address that [resolveRewardsWalletAddress]
    settled on; the bounds that the [zod] schemas put on the inputs are
    not part of the procedure bodies. *)

Module Routers.

Record ProfileView : Type := mkProfileView {
  pv_profile : WalletProfile;
  dailyPostCompleted : bool;
  todayUTC : string
}.

Definition getProfile (now : Date) (today : string) (configured : bool)
    (members_api : string -> FetchResult) (walletAddress chainType : string)
  : Db.M (option ProfileView) :=
  Db.checkUserDiscordMembership now configured members_api walletAddress ;;
  profile <- Db.getOrCreateWalletProfile now walletAddress chainType ;;
  match profile with
  | None => ret None
  | Some profile =>
      dailyPostCompleted <-
        (if wp_xConnected profile
         then Db.isDailyPostCompleted today walletAddress
         else ret false) ;;
      ret (Some (mkProfileView profile dailyPostCompleted today))
  end.

(** The procedure hands the Discord user name only: no [discordId]. *)
Definition connectDiscord (now : Date) (nanoid : string)
    (walletAddress discordUsername : string) : Db.M Result :=
  Db.connectDiscordAccount now nanoid walletAddress discordUsername None.

(** [getPointsHistory(walletAddress, input.limit)]: the second argument of
    [getPointsHistory] is [page]. *)
Definition getHistory (orderBy : list PointsHistory -> list PointsHistory)
    (walletAddress : string) (limit : Z) : Db.M (option (Page PointsHistory)) :=
  Db.getPointsHistory orderBy (Some walletAddress) limit 20.

Record CodeStatus : Type := mkCodeStatus {
  canGenerate : bool;
  hasCode : bool;
  cs_referralCode : option string;
  reason : option string
}.

Definition canGenerateCode (walletAddress : string) : Db.M CodeStatus :=
  profile <- Db.getWalletProfile walletAddress ;;
  match profile with
  | None => ret (mkCodeStatus false false None (Some "Profile not found"))
  | Some profile =>
      ret {| canGenerate :=
               wp_xConnected profile && wp_discordConnected profile
               && wp_discordVerified profile;
             hasCode := truthy (wp_referralCode profile);
             cs_referralCode := wp_referralCode profile;
             reason :=
               if negb (wp_xConnected profile) && negb (wp_discordConnected profile)
               then Some "Connect X and Discord to get your referral code"
               else if negb (wp_xConnected profile)
               then Some "Connect X to get your referral code"
               else if negb (wp_discordConnected profile)
               then Some "Connect Discord to get your referral code"
               else if negb (wp_discordVerified profile)
               then Some "Verify Discord server membership to get your referral code"
               else None |}
  end.

End Routers.

Module MockRouters.

Definition getProfile (now : Date) (today : string) (walletAddress chainType : string)
  : Mock.M Routers.ProfileView :=
  profile <- Mock.getOrCreateWalletProfile now walletAddress chainType ;;
  dailyPostCompleted <- Mock.isDailyPostCompleted today walletAddress ;;
  ret (Routers.mkProfileView profile dailyPostCompleted today).

Definition getHistory (walletAddress : string) (limit : Z)
  : Mock.M (Page PointsHistory) :=
  Mock.getPointsHistory (Some walletAddress) 1 limit.

End MockRouters.

(** * Specification vocabulary *)

(** A profile update that leaves the key of the row alone. *)
Definition keeps_address (f : WalletProfile -> WalletProfile) : Prop :=
  forall p, wp_walletAddress (f p) = wp_walletAddress p.

(** A profile update that leaves the balance alone. *)
Definition keeps_total (f : WalletProfile -> WalletProfile) : Prop :=
  forall p, wp_totalPoints (f p) = wp_totalPoints p.

Module DbSpec.
Import Db.

(** The ledger identity: the stored total of every wallet is the sum of
    its history rows (and a wallet without a profile has no history). *)
Definition ledger_ok (db : Store) : Prop :=
  forall w, balance w db = history_sum w db.

(** Every completion belongs to a wallet with a profile and carries a
    positive award. *)
Definition tasks_ok (db : Store) : Prop :=
  forall t, In t (taskCompletions db) ->
    select_walletProfile (tc_walletAddress t) db <> None /\ 0 < tc_pointsAwarded t.

(** A computation that maintains the invariant [I]. *)
Definition preserves (I : Store -> Prop) {A : Type} (m : M A) : Prop :=
  forall db, I db -> I (snd (m db)).

(** The history rows of one wallet, newest first. *)
Definition history_of (w : string) (db : Store) : list PointsHistory :=
  filter (fun h => String.eqb (ph_walletAddress h) w) (pointsHistory db).

(** The history row that [getOriginalBonusPoints] reads. *)
Definition newest_grant (w ty : string) (db : Store) : option PointsHistory :=
  find (fun h => String.eqb (ph_walletAddress h) w
                 && String.eqb (ph_transactionType h) ty)
       (pointsHistory db).

(** The wallet was referred and its referral is still unclaimed: the
    condition under which [maybeClaimReferralBonus] pays. *)
Definition pending_referral (w : string) (db : Store) : bool :=
  match select_walletProfile w db with
  | Some p =>
      truthy (wp_referredBy p)
      && match select_referral_by_referred w db with
         | Some r => negb (rf_referrerClaimed r)
         | None => false
         end
  | None => false
  end.

(** What [disconnectXAccount] looks at: the X flag of the wallet and its
    newest [x_connect] row. *)
Definition x_view (w : string) (db : Store) : option bool * option PointsHistory :=
  (option_map wp_xConnected (select_walletProfile w db), newest_grant w "x_connect" db).

Definition x_view_is (w : string) (c : option bool * option PointsHistory)
    (db : Store) : Prop :=
  x_view w db = c.

End DbSpec.

Module MockSpec.
Import Mock.

(** The ledger identity, on the normalized address. *)
Definition ledger_ok (db : Store) : Prop :=
  forall w, balance w db = history_sum w db.

(** Every profile sits under the normalized form of its own address. *)
Definition keys_ok (db : Store) : Prop :=
  forall key p, profiles_get key db = Some p -> normalize (wp_walletAddress p) = key.

Definition wf (db : Store) : Prop := ledger_ok db /\ keys_ok db.

(** Every completion carries a positive award. *)
Definition tasks_ok (db : Store) : Prop :=
  forall t, In t (taskCompletions db) -> 0 < tc_pointsAwarded t.

Definition preserves (I : Store -> Prop) {A : Type} (m : M A) : Prop :=
  forall db, I db -> I (snd (m db)).

End MockSpec.

(** * Stores and runs used as concrete inputs *)

Module Scenario.

(** An external API that answers every request with the same status. *)
Definition always (status : Z) : string -> FetchResult := fun _ => Response status.

(** A run of the persistent store: A becomes eligible, B is referred by A,
    connects X and completes a daily post, whose tweet is then found gone. *)
Definition db_happy_path : list (Date * Db.Op) :=
  [ (1, Db.GetOrCreateWalletProfile "0xa" "evm");
    (2, Db.ConnectXAccount "abcdefgh" "0xa" "alice");
    (3, Db.ConnectDiscordAccount "abcdefgh" "0xa" "alice#1" (Some "d1"));
    (4, Db.VerifyDiscordServer "abcdefgh" true (always 200) "0xa");
    (5, Db.GetOrCreateWalletProfile "0xb" "evm");
    (6, Db.ApplyReferralCode "0xb" "abcdefgh");
    (7, Db.ConnectXAccount "zzzzzzzz" "0xb" "bob");
    (8, Db.CompleteDailyPost "2026-01-01" "0xb" (Some "https://x.com/bob/status/1"));
    (9, Db.CheckAndRevokeDeletedTweets (always 404) "0xb") ].

(** The like run of the in-memory store. *)
Definition mock_happy_path : list (Date * Mock.Op) :=
  [ (1, Mock.ConnectXAccount "abcdefgh" "0xA" "@alice");
    (2, Mock.ConnectDiscordAccount "abcdefgh" "0xa" "alice#1");
    (3, Mock.VerifyDiscordServer "abcdefgh" "0xa");
    (4, Mock.ApplyReferralCode "0xb" "abcdefgh");
    (5, Mock.CompleteDailyPost "2026-01-01" "0xb" (Some "https://x.com/bob/status/1"));
    (6, Mock.RevokeTweetPoints 1) ].

(** A run in which A refers both B and C. *)
Definition db_two_referred : list (Date * Db.Op) :=
  [ (1, Db.GetOrCreateWalletProfile "0xa" "evm");
    (2, Db.ConnectXAccount "abcdefgh" "0xa" "alice");
    (3, Db.ConnectDiscordAccount "abcdefgh" "0xa" "alice#1" (Some "d1"));
    (4, Db.VerifyDiscordServer "abcdefgh" true (always 200) "0xa");
    (5, Db.GetOrCreateWalletProfile "0xb" "evm");
    (6, Db.GetOrCreateWalletProfile "0xc" "evm");
    (7, Db.ApplyReferralCode "0xb" "ABCDEFGH");
    (8, Db.ApplyReferralCode "0xc" "ABCDEFGH") ].

Definition mock_two_referred : list (Date * Mock.Op) :=
  [ (1, Mock.ConnectXAccount "abcdefgh" "0xa" "alice");
    (2, Mock.ConnectDiscordAccount "abcdefgh" "0xa" "alice#1");
    (3, Mock.VerifyDiscordServer "abcdefgh" "0xa");
    (4, Mock.ApplyReferralCode "0xb" "ABCDEFGH");
    (5, Mock.ApplyReferralCode "0xc" "ABCDEFGH") ].

(** A store in which the X connect bonus was granted at 120 points. *)
Definition db_x_grant_120 : Db.Store :=
  Db.mkStore
    [ set_x true (Some "alice") (Some 1)
        (set_totalPoints 120 (new_profile "0xa" "evm" 1)) ]
    []
    [ mkPointsHistory 1 "0xa" "x_connect" 120 120 None 1 ]
    [].

(** A store in which the verify bonus was granted at 75 points. *)
Definition db_verify_75 : Db.Store :=
  Db.mkStore
    [ set_discordVerified true (Some 2)
        (set_discordId (Some "d1")
           (set_discordConnected true (Some "alice#1") (Some 1)
              (set_totalPoints 125 (new_profile "0xa" "evm" 1)))) ]
    []
    [ mkPointsHistory 2 "0xa" "discord_verify" 75 125
        (Some "Verified PerpX Discord server membership") 2;
      mkPointsHistory 1 "0xa" "discord_connect" 50 50
        (Some "Connected Discord: alice#1") 1 ]
    [].
End Scenario.

(** * Vocabulary of the further properties *)

(** ** Listings *)

(** The rows of the pages [1 .. n], one after the other. *)
Definition pages_upto {A : Type} (page_rows : Z -> list A) (n : nat) : list A :=
  List.concat (map (fun i => page_rows (Z.of_nat i)) (seq 1 n)).

(** Non-increasing in [key], front to back. *)
Definition descending {A : Type} (key : A -> Z) (l : list A) : Prop :=
  StronglySorted (fun a b => key b <= key a) l.

(** The rows of a page, none for a rejected query. *)
Definition page_rows {A : Type} (o : option (Page A)) : list A :=
  match o with Some pg => rows pg | None => [] end.

(** The sum of all the changes of a history. *)
Definition all_changes (l : list PointsHistory) : Z :=
  fold_right (fun h acc => ph_pointsChange h + acc) 0 l.

(** The ids of a table kept newest first are the insertion ranks. *)
Fixpoint ranked {R : Type} (id : R -> Z) (l : list R) : Prop :=
  match l with
  | [] => True
  | x :: rest => id x = Z.of_nat (List.length rest) + 1 /\ ranked id rest
  end.

(** ** The persistent store *)

Module DbProps.
Import Db.

(** What [ORDER BY key DESC] promises of the engine's arrangement: the same
    rows, the larger keys first. *)
Definition orders_desc {A : Type} (key : A -> Z) (orderBy : list A -> list A) : Prop :=
  forall l, Permutation (orderBy l) l /\ descending key (orderBy l).

(** Whether the answer of an operation reports success; the operations
    that answer without such a flag count as successful. *)
Definition succeeded (now : Date) (op : Op) (db : Store) : bool :=
  match op with
  | GetOrCreateWalletProfile _ _ => true
  | ClaimConnectBonus w => success (fst (claimConnectBonus now w db))
  | ConnectXAccount n w u => success (fst (connectXAccount now n w u db))
  | DisconnectXAccount w => success (fst (disconnectXAccount now w db))
  | ConnectDiscordAccount n w u i => success (fst (connectDiscordAccount now n w u i db))
  | DisconnectDiscordAccount w => success (fst (disconnectDiscordAccount now w db))
  | VerifyDiscordServer n c api w => vr_success (fst (verifyDiscordServer now n c api w db))
  | CompleteDailyPost today w url => success (fst (completeDailyPost now today w url db))
  | GetOrCreateReferralCode n w =>
      match fst (getOrCreateReferralCode now n w db) with Some _ => true | None => false end
  | ApplyReferralCode w code => success (fst (applyReferralCode now w code db))
  | ClaimReferralBonus w => cr_success (fst (claimReferralBonus now w db))
  | AdjustUserPoints w pts reason => success (fst (adjustUserPoints now w pts reason db))
  | RevokeTweetPoints id => success (fst (revokeTweetPoints now id db))
  | CheckUserDiscordMembership _ _ _ => true
  | CheckDiscordServerMemberships _ _ => true
  | CheckAndRevokeDeletedTweets _ _ => true
  | CronCheckAllTweets _ => true
  end.

(** The sum that [history_sum] takes, on a part of the history. *)
Definition changes_of (w : string) (l : list PointsHistory) : Z :=
  fold_right (fun h acc => if String.eqb (ph_walletAddress h) w
                           then ph_pointsChange h + acc else acc) 0 l.

(** Every row records the balance that the rows up to it add up to. *)
Definition running_balance (l : list PointsHistory) : Prop :=
  forall newer h older, l = (newer ++ h :: older)%list ->
    ph_balanceAfter h = changes_of (ph_walletAddress h) older + ph_pointsChange h.

(** No two profile rows for one address (the [unique] constraint). *)
Definition unique_wallets (db : Store) : Prop :=
  NoDup (map wp_walletAddress (walletProfiles db)).

(** What [getAdminStats] reports as [totalPointsDistributed]. *)
Definition points_held (db : Store) : Z :=
  fold_right (fun p sum => wp_totalPoints p + sum) 0 (walletProfiles db).

Definition conserved (db : Store) : Prop :=
  unique_wallets db /\ points_held db = all_changes (pointsHistory db).

(** The value that a wallet's profile row holds in one column. *)
Definition column {T : Type} (proj : WalletProfile -> T) (w : string) (db : Store)
  : option T :=
  option_map proj (select_walletProfile w db).

(** The users that the membership sweep visits. *)
Definition verifiedUsers (db : Store) : list WalletProfile :=
  filter (fun p => wp_discordVerified p
                   && match wp_discordId p with Some _ => true | None => false end)
         (walletProfiles db).

Definition tier_total (d : TierDistribution) : Z :=
  Bronze d + Silver d + Gold d + Platinum d + Diamond d.

(** The [connect_bonus] rows of a wallet. *)
Definition connect_bonus_rows (w : string) (db : Store) : list PointsHistory :=
  filter (fun h => String.eqb (ph_walletAddress h) w
                   && String.eqb (ph_transactionType h) "connect_bonus")
         (pointsHistory db).

(** At most one such row, of 300 points, and none unless the flag is set. *)
Definition bonus_once (w : string) (db : Store) : Prop :=
  connect_bonus_rows w db = []
  \/ (exists row, connect_bonus_rows w db = [row] /\ ph_pointsChange row = 300)
     /\ column wp_connectBonusClaimed w db = Some true.

(** A verified profile is a connected one that holds a Discord id. *)
Definition verified_is_connected (p : WalletProfile) : Prop :=
  wp_discordVerified p = true ->
  wp_discordConnected p = true /\ truthy (wp_discordId p) = true.

Definition discord_ok (db : Store) : Prop :=
  forall w p, select_walletProfile w db = Some p -> verified_is_connected p.

(** The active daily posts of a wallet for a day. *)
Definition active_posts (w date : string) (db : Store) : list TaskCompletion :=
  filter (fun t => String.eqb (tc_walletAddress t) w
                   && String.eqb (tc_taskType t) "daily_post"
                   && opt_string_eqb (tc_completionDate t) date
                   && is_active (tc_status t))
         (taskCompletions db).

(** The test of [hasCompletedTask] for a daily post of the day. *)
Definition done_today (today w : string) (t : TaskCompletion) : bool :=
  String.eqb (tc_walletAddress t) w
  && String.eqb (tc_taskType t) "daily_post"
  && (if truthy (Some today)
      then match tc_completionDate t with
           | Some d' => String.eqb d' today
           | None => false
           end
      else true)
  && is_active (tc_status t).

(** The completion that [completeDailyPost] records. *)
Definition posted_row (now : Date) (today w : string) (url : option string) (db : Store)
  : TaskCompletion :=
  {| tc_id := next_id (taskCompletions db);
     tc_walletAddress := w;
     tc_taskType := "daily_post";
     tc_pointsAwarded := 100;
     tc_completionDate := Some today;
     tc_metadata := url;
     tc_status := Active;
     tc_completedAt := now;
     tc_revokedAt := None |}.

Definition ids_ok (db : Store) : Prop :=
  ranked tc_id (taskCompletions db)
  /\ ranked ph_id (pointsHistory db)
  /\ ranked rf_id (referrals db).

(** The completions that a tweet sweep looks at: the two filters of
    [getActiveTweetCompletions]. *)
Definition swept (walletAddress : option string) (t : TaskCompletion) : bool :=
  (String.eqb (tc_taskType t) "daily_post"
   && is_active (tc_status t)
   && match tc_metadata t with Some _ => true | None => false end
   && (if truthy walletAddress
       then opt_string_eqb walletAddress (tc_walletAddress t)
       else true))
  && (truthy (tc_metadata t) && String.prefix "http" (or_else (tc_metadata t) "")).

(** What a tweet sweep does to the store at one completion. *)
Definition sweep_one (now : Date) (api : string -> FetchResult) (c : TaskCompletion)
    (s : Store) : Store :=
  if negb (truthy (tc_metadata c)) then s
  else if checkTweetExists api (or_else (tc_metadata c) "") then s
  else snd (revokeTweetPoints now (tc_id c) s).

(** The loop bodies of [checkAndRevokeDeletedTweets] and of
    [cronCheckAllTweets], named. *)
Definition wallet_body (now : Date) (api : string -> FetchResult)
    (completion : TaskCompletion) (acc : TweetCheck) : M TweetCheck :=
  if negb (truthy (tc_metadata completion)) then ret acc
  else
    let checked' := tk_checked acc + 1 in
    let exists_ := checkTweetExists api (or_else (tc_metadata completion) "") in
    if negb exists_
    then
      result <- revokeTweetPoints now (tc_id completion) ;;
      if success result
      then ret (mkTweetCheck checked' (tk_revoked acc + 1)
                  (revokedIds acc ++ [tc_id completion])%list)
      else ret (mkTweetCheck checked' (tk_revoked acc) (revokedIds acc))
    else ret (mkTweetCheck checked' (tk_revoked acc) (revokedIds acc)).

Definition cron_body (now : Date) (api : string -> FetchResult)
    (completion : TaskCompletion) (acc : CronCounts) : M CronCounts :=
  if negb (truthy (tc_metadata completion)) then ret acc
  else
    let totalChecked' := totalChecked acc + 1 in
    let exists_ := checkTweetExists api (or_else (tc_metadata completion) "") in
    if negb exists_
    then
      result <- revokeTweetPoints now (tc_id completion) ;;
      if success result
      then ret (mkCronCounts totalChecked' (totalRevoked acc + 1) (cron_errors acc))
      else ret (mkCronCounts totalChecked' (totalRevoked acc) (cron_errors acc))
    else ret (mkCronCounts totalChecked' (totalRevoked acc) (cron_errors acc)).

(** A change of the completions that only revokes. *)
Record revokes_only (G : TaskCompletion -> TaskCompletion) : Prop := {
  keeps_id : forall t, tc_id (G t) = tc_id t;
  keeps_active : forall t, is_active (tc_status (G t)) = true -> G t = t;
  keeps_revoked : forall t, tc_status t = Revoked -> tc_status (G t) = Revoked
}.

(** A change of the profile rows that only withdraws verifications. *)
Record unverifies_only (G : WalletProfile -> WalletProfile) : Prop := {
  same_address : forall p, wp_walletAddress (G p) = wp_walletAddress p;
  same_discordId : forall p, wp_discordId (G p) = wp_discordId p;
  still_unverified : forall p, wp_discordVerified p = false -> wp_discordVerified (G p) = false;
  verified_untouched : forall p, wp_discordVerified (G p) = true -> wp_discordVerified p = true
}.

End DbProps.

(** ** The in-memory store *)

Module MockProps.
Import Mock.

Definition succeeded (now : Date) (op : Op) (db : Store) : bool :=
  match op with
  | GetOrCreateWalletProfile _ _ => true
  | ClaimConnectBonus w => success (fst (claimConnectBonus now w db))
  | ConnectXAccount n w u => success (fst (connectXAccount now n w u db))
  | DisconnectXAccount w => success (fst (disconnectXAccount now w db))
  | ConnectDiscordAccount n w u => success (fst (connectDiscordAccount now n w u db))
  | DisconnectDiscordAccount w => success (fst (disconnectDiscordAccount now w db))
  | VerifyDiscordServer n w => success (fst (verifyDiscordServer now n w db))
  | CompleteDailyPost today w url => success (fst (completeDailyPost now today w url db))
  | RevokeTweetPoints id => success (fst (revokeTweetPoints now id db))
  | ApplyReferralCode w code => success (fst (applyReferralCode now w code db))
  | ClaimReferralBonus w => cr_success (fst (claimReferralBonus now w db))
  | AdjustUserPoints _ _ _ => true
  end.

(** What a refused call may still have done: registered the wallet. *)
Definition registered_at_most (now : Date) (db db' : Store) : Prop :=
  pointsHistory db' = pointsHistory db
  /\ taskCompletions db' = taskCompletions db
  /\ referrals db' = referrals db
  /\ (profiles db' = profiles db
      \/ exists w, profiles_get (normalize w) db = None
                   /\ profiles db'
                      = (profiles db ++ [(normalize w, new_profile w "evm" now)])%list).

Definition changes_of (w : string) (l : list PointsHistory) : Z :=
  fold_right (fun h acc => if String.eqb (normalize (ph_walletAddress h)) (normalize w)
                           then ph_pointsChange h + acc else acc) 0 l.

(** The array grows at its end: the older rows come first. *)
Definition running_balance (l : list PointsHistory) : Prop :=
  forall older h newer, l = (older ++ h :: newer)%list ->
    ph_balanceAfter h = changes_of (ph_walletAddress h) older + ph_pointsChange h.

(** The history rows of one wallet, oldest first. *)
Definition history_of (w : string) (db : Store) : list PointsHistory :=
  filter (fun h => String.eqb (normalize (ph_walletAddress h)) (normalize w))
         (pointsHistory db).

Definition points_held (db : Store) : Z :=
  fold_right (fun p sum => wp_totalPoints p + sum) 0 (profiles_values db).

Definition conserved (db : Store) : Prop :=
  points_held db = all_changes (pointsHistory db).

End MockProps.

(** ** The users table *)

Module UsersSpec.
Import Users.

(** One sign-in: the clock, the configured admin wallet, the address and
    the name handed to [upsertUserByWallet]. *)
Record SignIn : Type := mkSignIn {
  si_now : Date;
  si_adminWallet : option string;
  si_walletAddress : string;
  si_name : option string
}.

(** Sign-ins one after the other; a thrown error stops the sequence. *)
Fixpoint sign_ins (calls : list SignIn) (users : Table) : option Table :=
  match calls with
  | [] => Some users
  | c :: rest =>
      match upsertUserByWallet (si_now c) (si_adminWallet c) (si_walletAddress c)
                               (si_name c) users with
      | Some users' => sign_ins rest users'
      | None => None
      end
  end.

(** The test that decides the role of a new user. *)
Definition is_admin_wallet (adminWallet : option string) (walletAddress : string) : bool :=
  truthy adminWallet
  && String.eqb (toLowerCase walletAddress) (toLowerCase (or_else adminWallet "")).

End UsersSpec.

(** * Facts about the persistent store *)

Module DbFacts.
Import Db DbSpec.

Lemma keeps_address_updatedAt now f :
  keeps_address f -> keeps_address (fun p => set_updatedAt now (f p)).
Proof. intros H p. simpl. apply H. Qed.

Lemma keeps_total_updatedAt now f :
  keeps_total f -> keeps_total (fun p => set_updatedAt now (f p)).
Proof. intros H p. simpl. apply H. Qed.

Lemma find_update (w w' : string) f (l : list WalletProfile) :
  keeps_address f ->
  find (walletAddress_is w) (map (fun p => if walletAddress_is w' p then f p else p) l)
  = if String.eqb w w' then option_map f (find (walletAddress_is w) l)
    else find (walletAddress_is w) l.
Proof.
  intros Hf. induction l as [|a l IH]; simpl.
  - destruct (String.eqb w w'); reflexivity.
  - unfold walletAddress_is in *.
    destruct (String.eqb_spec (wp_walletAddress a) w') as [E'|E'].
    + rewrite (Hf a).
      destruct (String.eqb_spec (wp_walletAddress a) w) as [E|E].
      * subst w' w. rewrite String.eqb_refl. reflexivity.
      * rewrite IH. destruct (String.eqb_spec w w'); [congruence | reflexivity].
    + destruct (String.eqb_spec (wp_walletAddress a) w) as [E|E].
      * destruct (String.eqb_spec w w'); [congruence | reflexivity].
      * exact IH.
Qed.

Lemma select_update w w' f db :
  keeps_address f ->
  select_walletProfile w (snd (update_walletProfiles w' f db))
  = if String.eqb w w' then option_map f (select_walletProfile w db)
    else select_walletProfile w db.
Proof. intros Hf. unfold select_walletProfile. simpl. apply find_update, Hf. Qed.

Lemma select_address w db p :
  select_walletProfile w db = Some p -> wp_walletAddress p = w.
Proof.
  unfold select_walletProfile. intros H. apply find_some in H as [_ H].
  apply String.eqb_eq in H. exact H.
Qed.

Lemma balance_update w w' f db :
  keeps_address f -> keeps_total f ->
  balance w (snd (update_walletProfiles w' f db)) = balance w db.
Proof.
  intros Ha Ht. unfold balance. rewrite select_update by assumption.
  destruct (String.eqb w w'); [|reflexivity].
  destruct (select_walletProfile w db); simpl; [apply Ht | reflexivity].
Qed.

(** [addPoints], spelled out. *)
Lemma addPoints_unknown now w pts ty d db :
  select_walletProfile w db = None ->
  addPoints now w pts ty d db = (None, db).
Proof.
  intros H. unfold addPoints, getWalletProfile, bind, gets. rewrite H. reflexivity.
Qed.

Lemma addPoints_known now w pts ty d db p :
  select_walletProfile w db = Some p ->
  addPoints now w pts ty d db =
  (Some (wp_totalPoints p + pts),
   mkStore
     (map (fun q => if walletAddress_is w q
                    then set_updatedAt now (set_totalPoints (wp_totalPoints p + pts) q)
                    else q) (walletProfiles db))
     (taskCompletions db)
     ({| ph_id := next_id (pointsHistory db);
         ph_walletAddress := w;
         ph_transactionType := ty;
         ph_pointsChange := pts;
         ph_balanceAfter := wp_totalPoints p + pts;
         ph_description := d;
         ph_createdAt := now |} :: pointsHistory db)
     (referrals db)).
Proof.
  intros H. unfold addPoints, getWalletProfile, bind, gets. rewrite H. reflexivity.
Qed.

Lemma addPoints_select now w' pts ty d db w :
  select_walletProfile w (snd (addPoints now w' pts ty d db))
  = if String.eqb w w'
    then option_map (fun q => set_updatedAt now
                                (set_totalPoints (wp_totalPoints q + pts) q))
                    (select_walletProfile w db)
    else select_walletProfile w db.
Proof.
  destruct (select_walletProfile w' db) as [p|] eqn:E.
  - rewrite (addPoints_known _ _ _ _ _ _ _ E). unfold select_walletProfile at 1. simpl.
    rewrite find_update by (intro; reflexivity).
    destruct (String.eqb_spec w w') as [->|]; [|reflexivity].
    fold (select_walletProfile w' db). rewrite E. reflexivity.
  - rewrite (addPoints_unknown _ _ _ _ _ _ E). simpl.
    destruct (String.eqb_spec w w') as [->|]; [|reflexivity].
    rewrite E. reflexivity.
Qed.

Lemma addPoints_balance now w' pts ty d db w :
  balance w (snd (addPoints now w' pts ty d db))
  = match select_walletProfile w' db with
    | Some _ => if String.eqb w w' then balance w db + pts else balance w db
    | None => balance w db
    end.
Proof.
  unfold balance. rewrite addPoints_select.
  destruct (String.eqb_spec w w') as [->|].
  - destruct (select_walletProfile w' db); reflexivity.
  - destruct (select_walletProfile w' db); reflexivity.
Qed.

Lemma addPoints_history_sum now w' pts ty d db w :
  history_sum w (snd (addPoints now w' pts ty d db))
  = match select_walletProfile w' db with
    | Some _ => if String.eqb w w' then history_sum w db + pts else history_sum w db
    | None => history_sum w db
    end.
Proof.
  destruct (select_walletProfile w' db) as [p|] eqn:E.
  - rewrite (addPoints_known _ _ _ _ _ _ _ E). unfold history_sum. simpl.
    rewrite (String.eqb_sym w' w). destruct (String.eqb w w'); lia.
  - rewrite (addPoints_unknown _ _ _ _ _ _ E). reflexivity.
Qed.

Lemma addPoints_tasks now w pts ty d db :
  taskCompletions (snd (addPoints now w pts ty d db)) = taskCompletions db.
Proof.
  destruct (select_walletProfile w db) as [p|] eqn:E.
  - rewrite (addPoints_known _ _ _ _ _ _ _ E). reflexivity.
  - rewrite (addPoints_unknown _ _ _ _ _ _ E). reflexivity.
Qed.

Lemma addPoints_referrals now w pts ty d db :
  referrals (snd (addPoints now w pts ty d db)) = referrals db.
Proof.
  destruct (select_walletProfile w db) as [p|] eqn:E.
  - rewrite (addPoints_known _ _ _ _ _ _ _ E). reflexivity.
  - rewrite (addPoints_unknown _ _ _ _ _ _ E). reflexivity.
Qed.


(** *** The two invariants through the statements *)

Lemma ledger_update w f db :
  keeps_address f -> keeps_total f -> ledger_ok db ->
  ledger_ok (snd (update_walletProfiles w f db)).
Proof. intros Ha Ht HL w0. rewrite balance_update by assumption. apply HL. Qed.

Lemma ledger_addPoints now w pts ty d db :
  ledger_ok db -> ledger_ok (snd (addPoints now w pts ty d db)).
Proof.
  intros HL w0. rewrite addPoints_balance, addPoints_history_sum.
  destruct (select_walletProfile w db); [|apply HL].
  destruct (String.eqb w0 w); rewrite HL; reflexivity.
Qed.

Lemma ledger_insert_walletProfile p db :
  select_walletProfile (wp_walletAddress p) db = None ->
  wp_totalPoints p = 0 ->
  ledger_ok db -> ledger_ok (snd (insert_walletProfile p db)).
Proof.
  intros Hnone Hzero HL w. specialize (HL w).
  unfold balance, select_walletProfile in *. simpl.
  unfold walletAddress_is at 1.
  destruct (String.eqb_spec (wp_walletAddress p) w) as [E|E]; [|exact HL].
  subst w. rewrite Hnone in HL. unfold history_sum in *. simpl. lia.
Qed.

Lemma ledger_ext db db' :
  walletProfiles db' = walletProfiles db ->
  pointsHistory db' = pointsHistory db ->
  ledger_ok db -> ledger_ok db'.
Proof.
  intros Hp Hh HL w. unfold balance, history_sum, select_walletProfile.
  rewrite Hp, Hh. apply HL.
Qed.








(** *** Every operation maintains an invariant that the statements maintain *)

Lemma bind_snd {A B} (m : M A) (k : A -> M B) db :
  snd (bind m k db) = snd (k (fst (m db)) (snd (m db))).
Proof. unfold bind. destruct (m db). reflexivity. Qed.

Lemma bind_fst {A B} (m : M A) (k : A -> M B) db :
  fst (bind m k db) = fst (k (fst (m db)) (snd (m db))).
Proof. unfold bind. destruct (m db). reflexivity. Qed.

Section Preservation.
Variable I : Store -> Prop.

Hypothesis I_update : forall w f db,
  keeps_address f -> keeps_total f -> I db -> I (snd (update_walletProfiles w f db)).
Hypothesis I_addPoints : forall now w pts ty d db,
  I db -> I (snd (addPoints now w pts ty d db)).
Hypothesis I_insert_walletProfile : forall p db,
  select_walletProfile (wp_walletAddress p) db = None -> wp_totalPoints p = 0 ->
  I db -> I (snd (insert_walletProfile p db)).
Hypothesis I_insert_taskCompletion : forall row db,
  (forall id, select_walletProfile (tc_walletAddress (row id)) db <> None
              /\ 0 < tc_pointsAwarded (row id)) ->
  I db -> I (snd (insert_taskCompletion row db)).
Hypothesis I_revoke : forall id now db,
  I db -> I (snd (update_taskCompletions id (set_task_revoked now) db)).
Hypothesis I_referrals : forall db l,
  I db -> I (mkStore (walletProfiles db) (taskCompletions db) (pointsHistory db) l).

Lemma preserves_ret {A} (a : A) : preserves I (ret a).
Proof. intros db H. exact H. Qed.

Lemma preserves_gets {A} (f : Store -> A) : preserves I (gets f).
Proof. intros db H. exact H. Qed.

Lemma preserves_bind {A B} (m : M A) (k : A -> M B) :
  preserves I m -> (forall a, preserves I (k a)) -> preserves I (bind m k).
Proof.
  intros Hm Hk db H. rewrite bind_snd. apply Hk, Hm, H.
Qed.

Lemma preserves_for_each {A X} (xs : list X) (body : X -> A -> M A) :
  (forall x acc, preserves I (body x acc)) ->
  forall acc, preserves I (for_each xs body acc).
Proof.
  intros Hbody. induction xs as [|x xs IH]; intros acc; simpl.
  - apply preserves_ret.
  - apply preserves_bind; [apply Hbody | exact IH].
Qed.

Lemma preserves_run {A} (m : M A) db : preserves I m -> I db -> I (snd (m db)).
Proof. intros Hm H. apply Hm, H. Qed.

Lemma preserves_update w f :
  keeps_address f -> keeps_total f -> preserves I (update_walletProfiles w f).
Proof. intros Ha Ht db H. apply I_update; assumption. Qed.

Lemma preserves_addPoints now w pts ty d : preserves I (addPoints now w pts ty d).
Proof. intros db H. apply I_addPoints, H. Qed.

Lemma preserves_getWalletProfile w : preserves I (getWalletProfile w).
Proof. apply preserves_gets. Qed.

Lemma preserves_insert_referral row : preserves I (insert_referral row).
Proof. intros db H. apply I_referrals, H. Qed.

Lemma preserves_update_referrals id f : preserves I (update_referrals id f).
Proof. intros db H. apply I_referrals, H. Qed.

Lemma preserves_revoke_task id now :
  preserves I (update_taskCompletions id (set_task_revoked now)).
Proof. intros db H. apply I_revoke, H. Qed.

Lemma preserves_getOriginalBonusPoints w ty fb :
  preserves I (getOriginalBonusPoints w ty fb).
Proof.
  unfold getOriginalBonusPoints. apply preserves_bind; [apply preserves_gets|].
  intros [r|]; [destruct (Z.ltb 0 (ph_pointsChange r))|]; apply preserves_ret.
Qed.

Lemma preserves_hasCompletedTask w ty d : preserves I (hasCompletedTask w ty d).
Proof.
  unfold hasCompletedTask. apply preserves_bind; [apply preserves_gets|].
  intros a. apply preserves_ret.
Qed.

Lemma preserves_getActiveTweetCompletions w :
  preserves I (getActiveTweetCompletions w).
Proof.
  unfold getActiveTweetCompletions. apply preserves_bind; [apply preserves_gets|].
  intros a. apply preserves_ret.
Qed.

Ltac keeps := intro; reflexivity.

(** One step of a preservation proof, by the shape of the computation. *)
Ltac preserve_step :=
  first
    [ apply preserves_ret
    | apply preserves_gets
    | apply preserves_getWalletProfile
    | apply preserves_addPoints
    | apply preserves_getOriginalBonusPoints
    | apply preserves_hasCompletedTask
    | apply preserves_getActiveTweetCompletions
    | apply preserves_insert_referral
    | apply preserves_update_referrals
    | apply preserves_revoke_task
    | apply preserves_update; [keeps | keeps]
    | apply preserves_bind
    | apply preserves_for_each
    | match goal with
      | |- preserves _ (match ?x with _ => _ end) => destruct x
      | |- preserves _ (let _ := _ in _) => cbv zeta
      | |- preserves _ ((fun _ => _) _) => cbv beta
      | |- preserves _ ((fun _ _ => _) _ _) => cbv beta
      end
    | progress intros ].

Ltac preserve := repeat preserve_step.

Lemma preserves_claimReferralBonus now w : preserves I (claimReferralBonus now w).
Proof. unfold claimReferralBonus. preserve. Qed.

Lemma preserves_maybeClaimReferralBonus now w :
  preserves I (maybeClaimReferralBonus now w).
Proof. unfold maybeClaimReferralBonus. preserve; apply preserves_claimReferralBonus. Qed.

Lemma preserves_maybeGenerateReferralCode now n w :
  preserves I (maybeGenerateReferralCode now n w).
Proof. unfold maybeGenerateReferralCode. preserve. Qed.

Lemma preserves_getOrCreateWalletProfile now w c :
  preserves I (getOrCreateWalletProfile now w c).
Proof.
  intros db H. unfold getOrCreateWalletProfile. rewrite bind_snd. simpl.
  destruct (select_walletProfile w db) eqn:E; [exact H|].
  rewrite bind_snd. simpl.
  apply (I_insert_walletProfile (new_profile w c now)); [exact E | reflexivity | exact H].
Qed.

Lemma preserves_claimConnectBonus now w : preserves I (claimConnectBonus now w).
Proof. unfold claimConnectBonus. preserve. Qed.

Lemma preserves_connectXAccount now n w u : preserves I (connectXAccount now n w u).
Proof.
  unfold connectXAccount.
  preserve; first [apply preserves_maybeGenerateReferralCode
                  | apply preserves_maybeClaimReferralBonus].
Qed.

Lemma preserves_disconnectXAccount now w : preserves I (disconnectXAccount now w).
Proof. unfold disconnectXAccount. preserve. Qed.

Lemma preserves_connectDiscordAccount now n w u i :
  preserves I (connectDiscordAccount now n w u i).
Proof.
  unfold connectDiscordAccount.
  preserve; first [apply preserves_maybeGenerateReferralCode
                  | apply preserves_maybeClaimReferralBonus].
Qed.

Lemma preserves_disconnectDiscordAccount now w :
  preserves I (disconnectDiscordAccount now w).
Proof. unfold disconnectDiscordAccount. preserve. Qed.

Lemma preserves_verifyDiscordServer now n c api w :
  preserves I (verifyDiscordServer now n c api w).
Proof.
  unfold verifyDiscordServer.
  preserve; first [apply preserves_maybeGenerateReferralCode
                  | apply preserves_maybeClaimReferralBonus].
Qed.

Lemma preserves_completeDailyPost now today w url :
  preserves I (completeDailyPost now today w url).
Proof.
  intros db H. unfold completeDailyPost. rewrite bind_snd. simpl.
  destruct (select_walletProfile w db) as [p|] eqn:E; [|exact H].
  destruct (negb (wp_xConnected p)); [exact H|].
  rewrite bind_snd.
  change (snd (hasCompletedTask w "daily_post" (Some today) db)) with db.
  destruct (fst (hasCompletedTask w "daily_post" (Some today) db)); [exact H|].
  cbv zeta. rewrite bind_snd. cbv beta.
  apply preserves_run.
  - preserve; apply preserves_claimReferralBonus.
  - unfold completeTask. rewrite bind_snd. unfold ret. cbn [snd].
    apply I_insert_taskCompletion; [|exact H].
    intros id. simpl. split; [rewrite E; discriminate | lia].
Qed.

Lemma preserves_getOrCreateReferralCode now n w :
  preserves I (getOrCreateReferralCode now n w).
Proof. unfold getOrCreateReferralCode. preserve. Qed.

Lemma preserves_applyReferralCode now w code :
  preserves I (applyReferralCode now w code).
Proof. unfold applyReferralCode. preserve. Qed.

Lemma preserves_adjustUserPoints now w pts reason :
  preserves I (adjustUserPoints now w pts reason).
Proof. unfold adjustUserPoints. preserve. Qed.

Lemma preserves_revokeTweetPoints now id : preserves I (revokeTweetPoints now id).
Proof. unfold revokeTweetPoints. preserve. Qed.

Lemma preserves_checkUserDiscordMembership now c api w :
  preserves I (checkUserDiscordMembership now c api w).
Proof. unfold checkUserDiscordMembership. preserve. Qed.

Lemma preserves_checkDiscordServerMemberships now c api :
  preserves I (checkDiscordServerMemberships now c api).
Proof. unfold checkDiscordServerMemberships, membership_sweep_body. preserve. Qed.

Lemma preserves_checkAndRevokeDeletedTweets now api w :
  preserves I (checkAndRevokeDeletedTweets now api w).
Proof.
  unfold checkAndRevokeDeletedTweets. preserve; apply preserves_revokeTweetPoints.
Qed.

Lemma preserves_cronCheckAllTweets now api : preserves I (cronCheckAllTweets now api).
Proof.
  unfold cronCheckAllTweets. preserve; apply preserves_revokeTweetPoints.
Qed.

Lemma invariant_step now op db : I db -> I (step now op db).
Proof.
  intros H. destruct op; simpl; apply preserves_run; try exact H.
  - apply preserves_getOrCreateWalletProfile.
  - apply preserves_claimConnectBonus.
  - apply preserves_connectXAccount.
  - apply preserves_disconnectXAccount.
  - apply preserves_connectDiscordAccount.
  - apply preserves_disconnectDiscordAccount.
  - apply preserves_verifyDiscordServer.
  - apply preserves_completeDailyPost.
  - apply preserves_getOrCreateReferralCode.
  - apply preserves_applyReferralCode.
  - apply preserves_claimReferralBonus.
  - apply preserves_adjustUserPoints.
  - apply preserves_revokeTweetPoints.
  - apply preserves_checkUserDiscordMembership.
  - apply preserves_checkDiscordServerMemberships.
  - apply preserves_checkAndRevokeDeletedTweets.
  - apply preserves_cronCheckAllTweets.
Qed.

Lemma invariant_run ops : forall db, I db -> I (run ops db).
Proof.
  induction ops as [|[now op] ops IH]; intros db H; simpl.
  - exact H.
  - apply IH, invariant_step, H.
Qed.
End Preservation.

Lemma ledger_run ops db : ledger_ok db -> ledger_ok (run ops db).
Proof.
  apply invariant_run.
  - intros; apply ledger_update; assumption.
  - intros; apply ledger_addPoints; assumption.
  - intros; apply ledger_insert_walletProfile; assumption.
  - intros row db0 _ H. revert H. apply ledger_ext; reflexivity.
  - intros id now db0 H. revert H. apply ledger_ext; reflexivity.
  - intros db0 l H. revert H. apply ledger_ext; reflexivity.
Qed.


Lemma ledger_empty : ledger_ok empty.
Proof. intros w. reflexivity. Qed.


End DbFacts.

(** * Facts about the in-memory store *)

Module MockFacts.
Import Mock MockSpec.

Lemma mock_bind_snd {A B} (m : M A) (k : A -> M B) db :
  snd (bind m k db) = snd (k (fst (m db)) (snd (m db))).
Proof. unfold bind. destruct (m db). reflexivity. Qed.

Lemma mock_bind_fst {A B} (m : M A) (k : A -> M B) db :
  fst (bind m k db) = fst (k (fst (m db)) (snd (m db))).
Proof. unfold bind. destruct (m db). reflexivity. Qed.

Lemma entries_get_mutate key key' f l :
  entries_get key (mutate_first (fun e => String.eqb (fst e) key')
                                (fun e => (fst e, f (snd e))) l)
  = if String.eqb key key' then option_map f (entries_get key l) else entries_get key l.
Proof.
  unfold entries_get. induction l as [|[k p] l IH]; simpl.
  - destruct (String.eqb key key'); reflexivity.
  - destruct (String.eqb_spec k key') as [E'|E']; simpl.
    + destruct (String.eqb_spec k key) as [E|E].
      * subst. rewrite String.eqb_refl. reflexivity.
      * destruct (String.eqb_spec key key'); [congruence | reflexivity].
    + destruct (String.eqb_spec k key) as [E|E].
      * destruct (String.eqb_spec key key'); [congruence | reflexivity].
      * exact IH.
Qed.

Lemma entries_get_app key key' p l :
  entries_get key (l ++ [(key', p)])
  = match entries_get key l with
    | Some q => Some q
    | None => if String.eqb key key' then Some p else None
    end.
Proof.
  unfold entries_get. induction l as [|[k q] l IH]; simpl.
  - rewrite (String.eqb_sym key' key). destruct (String.eqb key key'); reflexivity.
  - destruct (String.eqb k key); [reflexivity | exact IH].
Qed.

Lemma get_mutate key key' f db :
  profiles_get key (snd (mutate_profile key' f db))
  = if String.eqb key key' then option_map f (profiles_get key db)
    else profiles_get key db.
Proof. apply entries_get_mutate. Qed.

Lemma ensure_fst now w c db :
  fst (ensureProfile now w c db)
  = match profiles_get (normalize w) db with
    | Some p => p
    | None => new_profile w c now
    end.
Proof.
  unfold ensureProfile. rewrite mock_bind_fst. simpl.
  destruct (profiles_get (normalize w) db); reflexivity.
Qed.

Lemma ensure_get now w c db key :
  profiles_get key (snd (ensureProfile now w c db))
  = if String.eqb key (normalize w) then Some (fst (ensureProfile now w c db))
    else profiles_get key db.
Proof.
  rewrite ensure_fst. unfold ensureProfile. rewrite mock_bind_snd. simpl.
  destruct (profiles_get (normalize w) db) as [p|] eqn:E; simpl.
  - destruct (String.eqb_spec key (normalize w)) as [->|]; [exact E | reflexivity].
  - unfold profiles_get in *. simpl. fold (entries_get key (profiles db ++ [(normalize w, new_profile w c now)])).
    rewrite entries_get_app. fold (entries_get key (profiles db)).
    destruct (String.eqb_spec key (normalize w)) as [->|].
    + fold (entries_get (normalize w) (profiles db)) in E. rewrite E. reflexivity.
    + destruct (entries_get key (profiles db)); reflexivity.
Qed.

Lemma ensure_history now w c db :
  pointsHistory (snd (ensureProfile now w c db)) = pointsHistory db.
Proof.
  unfold ensureProfile. rewrite mock_bind_snd. simpl.
  destruct (profiles_get (normalize w) db); reflexivity.
Qed.


Lemma ensure_referrals now w c db :
  referrals (snd (ensureProfile now w c db)) = referrals db.
Proof.
  unfold ensureProfile. rewrite mock_bind_snd. simpl.
  destruct (profiles_get (normalize w) db); reflexivity.
Qed.

Lemma ensure_address now w c db :
  keys_ok db ->
  normalize (wp_walletAddress (fst (ensureProfile now w c db))) = normalize w.
Proof.
  intros HK. rewrite ensure_fst.
  destruct (profiles_get (normalize w) db) as [p|] eqn:E; [apply HK, E | reflexivity].
Qed.

(** [addPoints], spelled out. *)
Lemma addPoints_run now w pts ty d db :
  let p := fst (ensureProfile now w "evm" db) in
  let db1 := snd (ensureProfile now w "evm" db) in
  let total := wp_totalPoints p + pts in
  addPoints now w pts ty d db =
  (total,
   mkStore
     (profiles (snd (touchProfile now (normalize w)
                  (snd (mutate_profile (normalize w) (set_totalPoints total) db1)))))
     (pointsHistory db1 ++
        [ {| ph_id := pointsId db1;
             ph_walletAddress := wp_walletAddress p;
             ph_transactionType := ty;
             ph_pointsChange := pts;
             ph_balanceAfter := total;
             ph_description := or_null d;
             ph_createdAt := now |} ])
     (taskCompletions db1) (referrals db1)
     (pointsId db1 + 1) (taskId db1) (referralId db1)).
Proof.
  intros p db1 total. unfold addPoints, bind. subst p db1 total.
  destruct (ensureProfile now w "evm" db) as [p db1]. reflexivity.
Qed.

Lemma addPoints_get now w pts ty d db key :
  profiles_get key (snd (addPoints now w pts ty d db))
  = if String.eqb key (normalize w)
    then let p := fst (ensureProfile now w "evm" db) in
         Some (set_updatedAt now (set_totalPoints (wp_totalPoints p + pts) p))
    else profiles_get key db.
Proof.
  rewrite addPoints_run. cbv zeta. unfold snd at 1.
  unfold profiles_get at 1. cbn [profiles].
  fold (profiles_get key (snd (touchProfile now (normalize w)
    (snd (mutate_profile (normalize w)
       (set_totalPoints (wp_totalPoints (fst (ensureProfile now w "evm" db)) + pts))
       (snd (ensureProfile now w "evm" db))))))).
  unfold touchProfile. rewrite !get_mutate, ensure_get.
  destruct (String.eqb key (normalize w)); reflexivity.
Qed.

Lemma addPoints_history now w pts ty d db :
  pointsHistory (snd (addPoints now w pts ty d db))
  = (pointsHistory db ++
      [ {| ph_id := pointsId db;
           ph_walletAddress := wp_walletAddress (fst (ensureProfile now w "evm" db));
           ph_transactionType := ty;
           ph_pointsChange := pts;
           ph_balanceAfter := wp_totalPoints (fst (ensureProfile now w "evm" db)) + pts;
           ph_description := or_null d;
           ph_createdAt := now |} ])%list.
Proof.
  rewrite addPoints_run. cbv zeta. cbn [snd pointsHistory].
  rewrite ensure_history. do 2 f_equal.
  unfold ensureProfile. rewrite mock_bind_snd. simpl.
  destruct (profiles_get (normalize w) db); reflexivity.
Qed.


Lemma mock_addPoints_referrals now w pts ty d db :
  referrals (snd (addPoints now w pts ty d db)) = referrals db.
Proof. rewrite addPoints_run. cbv zeta. cbn [snd referrals]. apply ensure_referrals. Qed.

Lemma sum_app w (l : list PointsHistory) h :
  fold_right (fun h acc => if String.eqb (normalize (ph_walletAddress h)) (normalize w)
                           then ph_pointsChange h + acc else acc) 0 (l ++ [h])
  = fold_right (fun h acc => if String.eqb (normalize (ph_walletAddress h)) (normalize w)
                             then ph_pointsChange h + acc else acc) 0 l
    + (if String.eqb (normalize (ph_walletAddress h)) (normalize w)
       then ph_pointsChange h else 0).
Proof.
  induction l as [|a l IH]; simpl.
  - destruct (String.eqb _ _); lia.
  - rewrite IH. destruct (String.eqb (normalize (ph_walletAddress a)) (normalize w)); lia.
Qed.


(** *** The invariants through the primitive steps *)

Lemma balance_mutate w key f db :
  keeps_total f -> balance w (snd (mutate_profile key f db)) = balance w db.
Proof.
  intros Ht. unfold balance. rewrite get_mutate.
  destruct (String.eqb (normalize w) key); [|reflexivity].
  destruct (profiles_get (normalize w) db); simpl; [apply Ht | reflexivity].
Qed.

Lemma wf_mutate key f db :
  keeps_address f -> keeps_total f -> wf db -> wf (snd (mutate_profile key f db)).
Proof.
  intros Ha Ht [HL HK]. split.
  - intros w. rewrite balance_mutate by assumption. apply HL.
  - intros k p. rewrite get_mutate.
    destruct (String.eqb k key); [|apply HK].
    destruct (profiles_get k db) as [q|] eqn:E; simpl; [|discriminate].
    intros [= <-]. rewrite Ha. apply HK, E.
Qed.

Lemma wf_ensureProfile now w c db : wf db -> wf (snd (ensureProfile now w c db)).
Proof.
  intros [HL HK]. split.
  - intros w0. specialize (HL w0). unfold balance, history_sum in *.
    rewrite ensure_get, ensure_history, ensure_fst.
    destruct (String.eqb_spec (normalize w0) (normalize w)) as [E|E]; [|exact HL].
    rewrite <- E. destruct (profiles_get (normalize w0) db); exact HL.
  - intros k p. rewrite ensure_get.
    destruct (String.eqb_spec k (normalize w)) as [->|]; [|apply HK].
    intros [= <-]. apply ensure_address, HK.
Qed.

Lemma wf_addPoints now w pts ty d db : wf db -> wf (snd (addPoints now w pts ty d db)).
Proof.
  intros H. pose proof (wf_ensureProfile now w "evm" db H) as [HL1 HK1].
  destruct H as [HL HK]. split.
  - intros w0. unfold balance, history_sum. rewrite addPoints_get, addPoints_history.
    rewrite sum_app. cbn [ph_walletAddress ph_pointsChange].
    rewrite (ensure_address _ _ _ _ HK).
    specialize (HL w0). unfold balance, history_sum in HL. rewrite <- HL.
    rewrite (String.eqb_sym (normalize w) (normalize w0)).
    destruct (String.eqb_spec (normalize w0) (normalize w)) as [E|E].
    + cbv zeta. simpl. rewrite ensure_fst. rewrite E.
      destruct (profiles_get (normalize w) db); simpl; lia.
    + lia.
  - intros k p. rewrite addPoints_get.
    destruct (String.eqb_spec k (normalize w)) as [->|]; [|apply HK].
    cbv zeta. intros [= <-]. simpl. apply ensure_address, HK.
Qed.

Lemma wf_ext db db' :
  profiles db' = profiles db -> pointsHistory db' = pointsHistory db ->
  wf db -> wf db'.
Proof.
  intros Hp Hh [HL HK]. split.
  - intros w. unfold balance, history_sum, profiles_get. rewrite Hp, Hh. apply HL.
  - intros k p. unfold profiles_get. rewrite Hp. apply HK.
Qed.




(** *** Every operation maintains an invariant that the primitive steps maintain *)

Section Preservation.
Variable I : Store -> Prop.

Hypothesis I_mutate : forall key f db,
  keeps_address f -> keeps_total f -> I db -> I (snd (mutate_profile key f db)).
Hypothesis I_ensure : forall now w c db, I db -> I (snd (ensureProfile now w c db)).
Hypothesis I_addPoints : forall now w pts ty d db,
  I db -> I (snd (addPoints now w pts ty d db)).
Hypothesis I_referrals : forall db rs rid,
  I db -> I (mkStore (profiles db) (pointsHistory db) (taskCompletions db) rs
                     (pointsId db) (taskId db) rid).
Hypothesis I_task_push : forall db t,
  0 < tc_pointsAwarded t -> I db ->
  I (mkStore (profiles db) (pointsHistory db) (taskCompletions db ++ [t])%list
             (referrals db) (pointsId db) (taskId db + 1) (referralId db)).
Hypothesis I_task_revoke : forall db id now,
  I db ->
  I (mkStore (profiles db) (pointsHistory db)
             (mutate_first (fun t => Z.eqb (tc_id t) id) (set_task_revoked now)
                           (taskCompletions db))
             (referrals db) (pointsId db) (taskId db) (referralId db)).

Lemma mock_preserves_ret {A} (a : A) : preserves I (ret a).
Proof. intros db H. exact H. Qed.

Lemma mock_preserves_gets {A} (f : Store -> A) : preserves I (gets f).
Proof. intros db H. exact H. Qed.

Lemma mock_preserves_bind {A B} (m : M A) (k : A -> M B) :
  preserves I m -> (forall a, preserves I (k a)) -> preserves I (bind m k).
Proof. intros Hm Hk db H. rewrite mock_bind_snd. apply Hk, Hm, H. Qed.

Lemma mock_preserves_run {A} (m : M A) db : preserves I m -> I db -> I (snd (m db)).
Proof. intros Hm H. apply Hm, H. Qed.

Lemma preserves_mutate key f :
  keeps_address f -> keeps_total f -> preserves I (mutate_profile key f).
Proof. intros Ha Ht db H. apply I_mutate; assumption. Qed.

Lemma preserves_touch now key : preserves I (touchProfile now key).
Proof. apply preserves_mutate; intro; reflexivity. Qed.

Lemma preserves_ensure now w c : preserves I (ensureProfile now w c).
Proof. intros db H. apply I_ensure, H. Qed.

Lemma mock_preserves_addPoints now w pts ty d : preserves I (addPoints now w pts ty d).
Proof. intros db H. apply I_addPoints, H. Qed.

Lemma preserves_mutate_referral w f : preserves I (mutate_referral w f).
Proof. intros db H. apply I_referrals, H. Qed.

Ltac keeps := intro; reflexivity.

Ltac preserve_step :=
  first
    [ apply mock_preserves_ret
    | apply mock_preserves_gets
    | apply preserves_ensure
    | apply mock_preserves_addPoints
    | apply preserves_touch
    | apply preserves_mutate_referral
    | apply preserves_mutate; [keeps | keeps]
    | apply mock_preserves_bind
    | match goal with
      | |- preserves _ (modify _) =>
          let db := fresh "db" in
          let H := fresh "H" in
          intros db H;
          first [ apply I_referrals, H
                | apply I_task_revoke, H
                | apply I_task_push; [reflexivity | exact H] ]
      | |- preserves _ (match ?x with _ => _ end) => destruct x
      | |- preserves _ (let _ := _ in _) => cbv zeta
      | |- preserves _ ((fun _ => _) _) => cbv beta
      end
    | progress intros ].

Ltac preserve := repeat preserve_step.

Lemma mock_preserves_maybeGenerateReferralCode now n key :
  preserves I (maybeGenerateReferralCode now n key).
Proof. unfold maybeGenerateReferralCode. preserve. Qed.

Lemma preserves_updateReferralStats now w : preserves I (updateReferralStats now w).
Proof. unfold updateReferralStats. preserve. Qed.

Lemma mock_preserves_maybeClaimReferralBonus now w :
  preserves I (maybeClaimReferralBonus now w).
Proof. unfold maybeClaimReferralBonus. preserve; apply preserves_updateReferralStats. Qed.

Ltac preserve_op :=
  preserve;
  first [ apply mock_preserves_maybeGenerateReferralCode
        | apply mock_preserves_maybeClaimReferralBonus
        | apply preserves_updateReferralStats ].

Lemma mock_preserves_claimConnectBonus now w : preserves I (claimConnectBonus now w).
Proof. unfold claimConnectBonus. preserve_op. Qed.

Lemma mock_preserves_connectXAccount now n w u : preserves I (connectXAccount now n w u).
Proof. unfold connectXAccount. preserve_op. Qed.

Lemma mock_preserves_disconnectXAccount now w : preserves I (disconnectXAccount now w).
Proof. unfold disconnectXAccount. preserve. Qed.

Lemma mock_preserves_connectDiscordAccount now n w u :
  preserves I (connectDiscordAccount now n w u).
Proof. unfold connectDiscordAccount. preserve_op. Qed.

Lemma mock_preserves_disconnectDiscordAccount now w :
  preserves I (disconnectDiscordAccount now w).
Proof. unfold disconnectDiscordAccount. preserve. Qed.

Lemma mock_preserves_verifyDiscordServer now n w : preserves I (verifyDiscordServer now n w).
Proof. unfold verifyDiscordServer. preserve_op. Qed.

Lemma mock_preserves_completeDailyPost now today w url :
  preserves I (completeDailyPost now today w url).
Proof. unfold completeDailyPost. preserve_op. Qed.

Lemma mock_preserves_revokeTweetPoints now id : preserves I (revokeTweetPoints now id).
Proof. unfold revokeTweetPoints. preserve. Qed.

Lemma mock_preserves_applyReferralCode now w code :
  preserves I (applyReferralCode now w code).
Proof. unfold applyReferralCode. preserve_op. Qed.

Lemma mock_preserves_claimReferralBonus now w : preserves I (claimReferralBonus now w).
Proof. unfold claimReferralBonus. preserve_op. Qed.

Lemma mock_preserves_adjustUserPoints now w pts reason :
  preserves I (adjustUserPoints now w pts reason).
Proof. unfold adjustUserPoints, getWalletProfile. preserve. Qed.

Lemma mock_invariant_step now op db : I db -> I (step now op db).
Proof.
  intros H. destruct op; simpl; apply mock_preserves_run; try exact H.
  - apply preserves_ensure.
  - apply mock_preserves_claimConnectBonus.
  - apply mock_preserves_connectXAccount.
  - apply mock_preserves_disconnectXAccount.
  - apply mock_preserves_connectDiscordAccount.
  - apply mock_preserves_disconnectDiscordAccount.
  - apply mock_preserves_verifyDiscordServer.
  - apply mock_preserves_completeDailyPost.
  - apply mock_preserves_revokeTweetPoints.
  - apply mock_preserves_applyReferralCode.
  - apply mock_preserves_claimReferralBonus.
  - apply mock_preserves_adjustUserPoints.
Qed.

Lemma mock_invariant_run ops : forall db, I db -> I (run ops db).
Proof.
  induction ops as [|[now op] ops IH]; intros db H; simpl.
  - exact H.
  - apply IH, mock_invariant_step, H.
Qed.
End Preservation.

Lemma wf_run ops db : wf db -> wf (run ops db).
Proof.
  apply mock_invariant_run.
  - intros; apply wf_mutate; assumption.
  - intros; apply wf_ensureProfile; assumption.
  - intros; apply wf_addPoints; assumption.
  - intros db0 rs rid H. revert H. apply wf_ext; reflexivity.
  - intros db0 t _ H. revert H. apply wf_ext; reflexivity.
  - intros db0 id now H. revert H. apply wf_ext; reflexivity.
Qed.


Lemma wf_empty : wf empty.
Proof. split; [intros w; reflexivity | intros k p; discriminate]. Qed.


End MockFacts.

(** * The ledger identity *)

(** C1. Ledger identity: in both stores, after any sequence of core
    operations started from a store in which the identity holds (the empty
    store is one), the total of every profile is the sum of the
    [pointsChange] of the history rows of its wallet, and a wallet without
    a profile has no history to sum. *)
Theorem ledger_identity :
  (forall db ops w,
     DbSpec.ledger_ok db ->
     match Db.select_walletProfile w (Db.run ops db) with
     | Some p => wp_totalPoints p = Db.history_sum w (Db.run ops db)
     | None => Db.history_sum w (Db.run ops db) = 0
     end)
  /\
  (forall db ops w,
     MockSpec.wf db ->
     match Mock.profiles_get (Mock.normalize w) (Mock.run ops db) with
     | Some p => wp_totalPoints p = Mock.history_sum w (Mock.run ops db)
     | None => Mock.history_sum w (Mock.run ops db) = 0
     end).
Proof.
  split.
  - intros db ops w H.
    pose proof (DbFacts.ledger_run ops db H w) as HL. unfold Db.balance in HL.
    destruct (Db.select_walletProfile w (Db.run ops db)); [exact HL | symmetry; exact HL].
  - intros db ops w H.
    destruct (MockFacts.wf_run ops db H) as [HL _]. specialize (HL w).
    unfold Mock.balance in HL.
    destruct (Mock.profiles_get (Mock.normalize w) (Mock.run ops db));
      [exact HL | symmetry; exact HL].
Qed.

Lemma ledger_identity_witness :
  DbSpec.ledger_ok Db.empty /\ MockSpec.wf Mock.empty /\
  match Db.select_walletProfile "0xb" (Db.run Scenario.db_happy_path Db.empty) with
  | Some p => wp_totalPoints p
              = Db.history_sum "0xb" (Db.run Scenario.db_happy_path Db.empty)
  | None => Db.history_sum "0xb" (Db.run Scenario.db_happy_path Db.empty) = 0
  end /\
  match Mock.profiles_get (Mock.normalize "0xA")
                          (Mock.run Scenario.mock_happy_path Mock.empty) with
  | Some p => wp_totalPoints p
              = Mock.history_sum "0xA" (Mock.run Scenario.mock_happy_path Mock.empty)
  | None => Mock.history_sum "0xA" (Mock.run Scenario.mock_happy_path Mock.empty) = 0
  end.
Proof.
  assert (Hdb : DbSpec.ledger_ok Db.empty) by (intros w; reflexivity).
  assert (Hmock : MockSpec.wf Mock.empty)
    by (split; [intros w; reflexivity | intros k p; discriminate]).
  split; [exact Hdb|]. split; [exact Hmock|]. split.
  - exact (proj1 ledger_identity Db.empty Scenario.db_happy_path "0xb" Hdb).
  - exact (proj2 ledger_identity Mock.empty Scenario.mock_happy_path "0xA" Hmock).
Defined.

Example db_happy_path_balances :
  let db := Db.run Scenario.db_happy_path Db.empty in
  (Db.balance "0xa" db, Db.history_sum "0xa" db,
   Db.balance "0xb" db, Db.history_sum "0xb" db) = (250, 250, 150, 150).
Proof. vm_compute. reflexivity. Qed.

Example mock_happy_path_balances :
  let db := Mock.run Scenario.mock_happy_path Mock.empty in
  (Mock.balance "0xA" db, Mock.history_sum "0xa" db,
   Mock.balance "0xb" db, Mock.history_sum "0xB" db) = (250, 250, 50, 50).
Proof. vm_compute. reflexivity. Qed.

(** * The refund of the X connect bonus *)

Module Refund.
Import Db DbSpec DbFacts.

Lemma getOriginalBonusPoints_run w ty fb db :
  getOriginalBonusPoints w ty fb db
  = (match newest_grant w ty db with
     | Some r => if Z.ltb 0 (ph_pointsChange r) then ph_pointsChange r else fb
     | None => fb
     end, db).
Proof.
  unfold getOriginalBonusPoints, bind, gets, newest_grant.
  destruct (find _ (pointsHistory db)) as [r|]; [|reflexivity].
  destruct (Z.ltb 0 (ph_pointsChange r)); reflexivity.
Qed.

(** The mechanism of the refund: whatever amount the newest [x_connect] row
    of the wallet records, when positive, is what the disconnect deducts. *)
Lemma disconnect_deducts_grant now w db p row :
  select_walletProfile w db = Some p -> wp_xConnected p = true ->
  newest_grant w "x_connect" db = Some row -> 0 < ph_pointsChange row ->
  success (fst (disconnectXAccount now w db)) = true
  /\ balance w (snd (disconnectXAccount now w db)) = balance w db - ph_pointsChange row.
Proof.
  intros Hsel Hx Hrow Hpos. unfold disconnectXAccount.
  rewrite bind_fst, bind_snd. cbn [getWalletProfile gets fst snd]. rewrite Hsel, Hx.
  cbn [negb].
  rewrite !bind_fst, !bind_snd.
  set (db1 := snd (update_walletProfiles w
                     (fun p0 => set_updatedAt now (set_x false None None p0)) db)).
  rewrite getOriginalBonusPoints_run. cbn [fst snd].
  change (newest_grant w "x_connect" db1) with (newest_grant w "x_connect" db).
  rewrite Hrow. apply Z.ltb_lt in Hpos. rewrite Hpos.
  unfold ret. cbn [fst snd success].
  split; [reflexivity|].
  rewrite addPoints_balance. subst db1.
  rewrite select_update by (intro; reflexivity). rewrite String.eqb_refl, Hsel.
  cbn [option_map]. rewrite balance_update by (intro; reflexivity). lia.
Qed.

Lemma maybeClaim_not_pending now w db :
  pending_referral w db = false -> maybeClaimReferralBonus now w db = (tt, db).
Proof.
  unfold pending_referral, maybeClaimReferralBonus, bind, getWalletProfile, gets.
  destruct (select_walletProfile w db) as [p|]; [|reflexivity].
  destruct (truthy (wp_referredBy p)); [|reflexivity]. cbn [negb andb].
  destruct (select_referral_by_referred w db) as [r|]; [|reflexivity].
  intros ->. reflexivity.
Qed.

Section View.
Variable w : string.
Variable c : option bool * option PointsHistory.

Let I : Store -> Prop := x_view_is w c.

Lemma view_update w' f :
  keeps_address f -> (forall p, wp_xConnected (f p) = wp_xConnected p) ->
  preserves I (update_walletProfiles w' f).
Proof.
  intros Ha Hx db H. unfold I, x_view_is, x_view in *. rewrite select_update by exact Ha.
  rewrite <- H. f_equal.
  destruct (String.eqb w w'); [|reflexivity].
  destruct (select_walletProfile w db); simpl; [rewrite Hx|]; reflexivity.
Qed.

Lemma view_addPoints now w' pts ty d :
  String.eqb ty "x_connect" = false -> preserves I (addPoints now w' pts ty d).
Proof.
  intros Hty db H. unfold I, x_view_is, x_view in *. rewrite addPoints_select. rewrite <- H.
  f_equal.
  - destruct (String.eqb w w'); [|reflexivity].
    destruct (select_walletProfile w db); reflexivity.
  - destruct (select_walletProfile w' db) as [p|] eqn:E.
    + rewrite (addPoints_known _ _ _ _ _ _ _ E). unfold newest_grant. simpl.
      rewrite Hty, andb_false_r. reflexivity.
    + rewrite (addPoints_unknown _ _ _ _ _ _ E). reflexivity.
Qed.

Lemma view_referrals (f : Store -> list Referral) :
  preserves I (modify (fun db => mkStore (walletProfiles db) (taskCompletions db)
                                         (pointsHistory db) (f db))).
Proof. intros db H. exact H. Qed.

Lemma view_claimReferralBonus now w' : preserves I (claimReferralBonus now w').
Proof.
  unfold claimReferralBonus.
  repeat first
    [ apply preserves_ret | apply preserves_gets
    | apply view_addPoints; reflexivity
    | apply view_update; [intro; reflexivity | intro; reflexivity]
    | apply view_referrals
    | apply preserves_bind
    | match goal with
      | |- preserves _ (match ?x with _ => _ end) => destruct x
      | |- preserves _ (let _ := _ in _) => cbv zeta
      end
    | progress intros ].
Qed.

Lemma view_maybeClaimReferralBonus now : preserves I (maybeClaimReferralBonus now w).
Proof.
  unfold maybeClaimReferralBonus.
  repeat first
    [ apply preserves_ret | apply preserves_gets
    | apply view_claimReferralBonus
    | apply preserves_bind
    | match goal with
      | |- preserves _ (match ?x with _ => _ end) => destruct x
      end
    | progress intros ].
Qed.

Lemma view_maybeGenerateReferralCode now n : preserves I (maybeGenerateReferralCode now n w).
Proof.
  unfold maybeGenerateReferralCode.
  repeat first
    [ apply preserves_ret | apply preserves_gets
    | apply view_update; [intro; reflexivity | intro; reflexivity]
    | apply preserves_bind
    | match goal with
      | |- preserves _ (match ?x with _ => _ end) => destruct x
      | |- preserves _ (let _ := _ in _) => cbv zeta
      end
    | progress intros ].
Qed.
End View.

(** [maybeGenerateReferralCode] touches neither the balance, nor the
    referred-by code, nor the referrals. *)
Lemma maybeGenerate_frame now n w db :
  let db' := snd (maybeGenerateReferralCode now n w db) in
  balance w db' = balance w db /\ pending_referral w db' = pending_referral w db.
Proof.
  unfold maybeGenerateReferralCode. rewrite bind_snd. cbn [getWalletProfile gets fst snd].
  destruct (select_walletProfile w db) as [p|] eqn:E; [|split; reflexivity].
  destruct (wp_xConnected p && wp_discordConnected p && wp_discordVerified p
            && negb (truthy (wp_referralCode p))); [|split; reflexivity].
  cbv zeta. split.
  - apply balance_update; intro; reflexivity.
  - unfold pending_referral. rewrite select_update by (intro; reflexivity).
    rewrite String.eqb_refl, E. reflexivity.
Qed.

End Refund.

(** C2, as stated, fails: a wallet that was referred and whose referral is
    still unclaimed gets the 50-point referral bonus during the connect, so
    the pair connect, disconnect leaves it 50 points above where it was. *)
Lemma x_refund_roundtrip_counterexample :
  let db := Db.run (firstn 6 Scenario.db_happy_path) Db.empty in
  let r1 := Db.connectXAccount 7 "zzzzzzzz" "0xb" "bob" db in
  let r2 := Db.disconnectXAccount 8 "0xb" (snd r1) in
  success (fst r1) = true /\ success (fst r2) = true
  /\ Db.balance "0xb" db = 0 /\ Db.balance "0xb" (snd r2) = 50.
Proof. vm_compute. repeat split; reflexivity. Qed.

(** C2, amended.  After a successful [connectXAccount], the newest
    [x_connect] row of the wallet records the 100 points of that connect; a
    [disconnectXAccount] that follows at once succeeds and deducts exactly
    that amount; the balance is back at its value before the connect
    whenever the connect did not pay a pending referral bonus to the wallet.
    The deduction is read from the history, not from a constant: in any
    store, a connected wallet whose newest [x_connect] row records a
    positive amount is deducted that amount. *)
Theorem x_refund_roundtrip :
  (forall db now now' nanoid w xUsername,
     let r1 := Db.connectXAccount now nanoid w xUsername db in
     let r2 := Db.disconnectXAccount now' w (snd r1) in
     success (fst r1) = true ->
     success (fst r2) = true
     /\ option_map ph_pointsChange (DbSpec.newest_grant w "x_connect" (snd r1))
        = Some 100
     /\ Db.balance w (snd r2) = Db.balance w (snd r1) - 100
     /\ (DbSpec.pending_referral w db = false ->
         Db.balance w (snd r2) = Db.balance w db))
  /\
  (forall db now w p row,
     Db.select_walletProfile w db = Some p -> wp_xConnected p = true ->
     DbSpec.newest_grant w "x_connect" db = Some row -> 0 < ph_pointsChange row ->
     let r := Db.disconnectXAccount now w db in
     success (fst r) = true
     /\ Db.balance w (snd r) = Db.balance w db - ph_pointsChange row).
Proof.
  split;
    [|intros db now w p row Hsel Hx Hrow Hpos r; subst r;
      exact (Refund.disconnect_deducts_grant now w db p row Hsel Hx Hrow Hpos)].
  intros db now now' nanoid w xUsername r1 r2 Hok.
  subst r2 r1. revert Hok. unfold Db.connectXAccount.
  rewrite DbFacts.bind_fst, DbFacts.bind_snd. cbn [Db.getWalletProfile gets fst snd].
  destruct (Db.select_walletProfile w db) as [p|] eqn:Hsel; [|discriminate].
  destruct (wp_xConnected p) eqn:Hx; [discriminate|]. intros _.
  cbv zeta. rewrite !DbFacts.bind_snd. unfold ret. cbn [snd].
  set (f1 := fun p0 => set_updatedAt now (set_x true (Some xUsername) (Some now) p0)).
  set (db1 := snd (Db.update_walletProfiles w f1 db)).
  set (d := Some ("Connected X account: @" ++ xUsername)).
  set (db2 := snd (Db.addPoints now w 100 "x_connect" d db1)).
  set (db3 := snd (Db.maybeGenerateReferralCode now nanoid w db2)).
  set (db4 := snd (Db.maybeClaimReferralBonus now w db3)).
  assert (H1 : Db.select_walletProfile w db1 = Some (f1 p)).
  { subst db1. rewrite DbFacts.select_update by (intro; reflexivity).
    rewrite String.eqb_refl, Hsel. reflexivity. }
  assert (Hv2 : DbSpec.x_view w db2
                = (Some true,
                   Some (mkPointsHistory (Db.next_id (Db.pointsHistory db1)) w "x_connect"
                           100 (wp_totalPoints (f1 p) + 100) d now))).
  { unfold DbSpec.x_view. subst db2. rewrite DbFacts.addPoints_select, String.eqb_refl, H1.
    rewrite (DbFacts.addPoints_known _ _ _ _ _ _ _ H1).
    unfold DbSpec.newest_grant. simpl. rewrite String.eqb_refl. reflexivity. }
  assert (Hv4 : DbSpec.x_view w db4
                = (Some true,
                   Some (mkPointsHistory (Db.next_id (Db.pointsHistory db1)) w "x_connect"
                           100 (wp_totalPoints (f1 p) + 100) d now))).
  { subst db4. apply Refund.view_maybeClaimReferralBonus.
    subst db3. apply Refund.view_maybeGenerateReferralCode. exact Hv2. }
  unfold DbSpec.x_view in Hv4. injection Hv4 as Hflag Hrow.
  destruct (Db.select_walletProfile w db4) as [p4|] eqn:H4; [|discriminate].
  injection Hflag as Hflag.
  destruct (Refund.disconnect_deducts_grant now' w db4 p4 _ H4 Hflag Hrow) as [Hs Hb];
    [simpl; lia|].
  split; [exact Hs|]. split; [rewrite Hrow; reflexivity|].
  split; [exact Hb|].
  intros Hpend. rewrite Hb. cbn [ph_pointsChange].
  assert (Hb2 : Db.balance w db2 = Db.balance w db + 100).
  { subst db2. rewrite DbFacts.addPoints_balance, H1, String.eqb_refl. subst db1.
    rewrite DbFacts.balance_update by (intro; reflexivity). reflexivity. }
  assert (Hp2 : DbSpec.pending_referral w db2 = DbSpec.pending_referral w db).
  { unfold DbSpec.pending_referral. subst db2.
    rewrite DbFacts.addPoints_select, String.eqb_refl, H1, Hsel. cbn [option_map].
    unfold Db.select_referral_by_referred. rewrite DbFacts.addPoints_referrals.
    reflexivity. }
  destruct (Refund.maybeGenerate_frame now nanoid w db2) as [Hb3 Hp3].
  fold db3 in Hb3, Hp3.
  assert (E4 : db4 = db3).
  { subst db4. rewrite Refund.maybeClaim_not_pending; [reflexivity|].
    rewrite Hp3, Hp2. exact Hpend. }
  rewrite E4, Hb3, Hb2. lia.
Qed.

Lemma x_refund_roundtrip_witness :
  (let db := Db.run (firstn 1 Scenario.db_happy_path) Db.empty in
   let r1 := Db.connectXAccount 2 "abcdefgh" "0xa" "alice" db in
   let r2 := Db.disconnectXAccount 3 "0xa" (snd r1) in
   success (fst r1) = true /\ DbSpec.pending_referral "0xa" db = false
   /\ success (fst r2) = true /\ Db.balance "0xa" (snd r2) = Db.balance "0xa" db)
  /\
  (let db := Scenario.db_x_grant_120 in
   DbSpec.newest_grant "0xa" "x_connect" db
   = Some (mkPointsHistory 1 "0xa" "x_connect" 120 120 None 1)
   /\ Db.balance "0xa" (snd (Db.disconnectXAccount 2 "0xa" db))
      = Db.balance "0xa" db - 120).
Proof.
  split.
  - cbv zeta.
    pose proof (proj1 x_refund_roundtrip
                  (Db.run (firstn 1 Scenario.db_happy_path) Db.empty)
                  2 3 "abcdefgh" "0xa" "alice") as H.
    cbv zeta in H. specialize (H eq_refl). destruct H as [Hs [_ [_ Hb]]].
    split; [reflexivity|]. split; [reflexivity|]. split; [exact Hs|].
    apply Hb. reflexivity.
  - cbv zeta. split; [reflexivity|].
    refine (proj2 (proj2 x_refund_roundtrip Scenario.db_x_grant_120 2 "0xa"
                     (set_x true (Some "alice") (Some 1)
                        (set_totalPoints 120 (new_profile "0xa" "evm" 1)))
                     (mkPointsHistory 1 "0xa" "x_connect" 120 120 None 1)
                     eq_refl eq_refl eq_refl _)).
    simpl. lia.
Defined.

(** The refund follows the history: a grant of 120 is refunded as 120. *)
Example legacy_grant_refunded :
  Db.balance "0xa" Scenario.db_x_grant_120 = 120
  /\ Db.balance "0xa" (snd (Db.disconnectXAccount 2 "0xa" Scenario.db_x_grant_120)) = 0.
Proof. vm_compute. split; reflexivity. Qed.

(** * Revocation of a completion *)

Module Revocation.




Lemma find_mutate_first {A} (test : A -> bool) f (l : list A) :
  (forall x, test x = true -> test (f x) = true) ->
  find test (Mock.mutate_first test f l) = option_map f (find test l).
Proof.
  intros Hf. induction l as [|a l IH]; simpl; [reflexivity|].
  destruct (test a) eqn:E; simpl.
  - rewrite (Hf a E). reflexivity.
  - rewrite E. exact IH.
Qed.



End Revocation.



(** * Disconnecting Discord after verification *)

Module DiscordDisconnect.
Import Db DbSpec DbFacts.

(** On the persistent store the claim of C4 holds: both bonuses, as the
    history records them, are deducted in the one call, and every Discord
    field is reset. *)
Lemma db_disconnect_after_verify now w db p :
  select_walletProfile w db = Some p ->
  wp_discordConnected p = true -> wp_discordVerified p = true ->
  let gc := fst (getOriginalBonusPoints w "discord_connect" 50 db) in
  let gv := fst (getOriginalBonusPoints w "discord_verify" 50 db) in
  let r := disconnectDiscordAccount now w db in
  success (fst r) = true
  /\ (exists p', select_walletProfile w (snd r) = Some p'
        /\ wp_discordConnected p' = false /\ wp_discordUsername p' = None
        /\ wp_discordId p' = None /\ wp_discordConnectedAt p' = None
        /\ wp_discordVerified p' = false /\ wp_discordVerifiedAt p' = None)
  /\ (exists row1 row2,
        pointsHistory (snd r) = row2 :: row1 :: pointsHistory db
        /\ ph_transactionType row1 = "discord_disconnect" /\ ph_pointsChange row1 = - gc
        /\ ph_transactionType row2 = "discord_verify_revoked"
        /\ ph_pointsChange row2 = - gv)
  /\ balance w (snd r) = balance w db - gc - gv.
Proof.
  intros Hsel Hc Hv gc gv r.
  assert (Egc : gc = match newest_grant w "discord_connect" db with
                     | Some r => if Z.ltb 0 (ph_pointsChange r) then ph_pointsChange r
                                 else 50
                     | None => 50
                     end)
    by (subst gc; rewrite Refund.getOriginalBonusPoints_run; reflexivity).
  assert (Egv : gv = match newest_grant w "discord_verify" db with
                     | Some r => if Z.ltb 0 (ph_pointsChange r) then ph_pointsChange r
                                 else 50
                     | None => 50
                     end)
    by (subst gv; rewrite Refund.getOriginalBonusPoints_run; reflexivity).
  clearbody gc gv. subst r. unfold disconnectDiscordAccount.
  rewrite bind_fst, bind_snd. cbn [getWalletProfile gets fst snd]. rewrite Hsel, Hc.
  cbn [negb]. cbv zeta. rewrite Hv.
  set (f1 := fun p0 => set_updatedAt now
               (set_discordVerified false None
                  (set_discordId None (set_discordConnected false None None p0)))).
  rewrite ?bind_fst, ?bind_snd. unfold ret. cbn [fst snd success].
  rewrite ?bind_fst, ?bind_snd. cbn [fst snd].
  rewrite !Refund.getOriginalBonusPoints_run. cbn [fst snd].
  set (db1 := snd (update_walletProfiles w f1 db)).
  assert (H1 : select_walletProfile w db1 = Some (f1 p)).
  { subst db1. rewrite select_update by (intro; reflexivity).
    rewrite String.eqb_refl, Hsel. reflexivity. }
  change (newest_grant w "discord_connect" db1)
    with (newest_grant w "discord_connect" db).
  rewrite <- Egc.
  set (d1 := Some ("Disconnected Discord account (-" ++ show_Z gc ++ "pt)")).
  set (db2 := snd (addPoints now w (- gc) "discord_disconnect" d1 db1)).
  assert (Hg : newest_grant w "discord_verify" db2 = newest_grant w "discord_verify" db).
  { subst db2. rewrite (addPoints_known _ _ _ _ _ _ _ H1). unfold newest_grant. simpl.
    rewrite andb_false_r. reflexivity. }
  rewrite Hg, <- Egv.
  assert (H2 : select_walletProfile w db2
               = Some (set_updatedAt now
                         (set_totalPoints (wp_totalPoints (f1 p) + - gc) (f1 p)))).
  { subst db2. rewrite addPoints_select, String.eqb_refl, H1. reflexivity. }
  split; [reflexivity|]. split; [|split].
  - rewrite addPoints_select, String.eqb_refl, H2. cbn [option_map].
    eexists. split; [reflexivity|]. cbn. repeat split; reflexivity.
  - rewrite (addPoints_known _ _ _ _ _ _ _ H2). cbn [snd pointsHistory].
    subst db2. rewrite (addPoints_known _ _ _ _ _ _ _ H1). cbn [snd pointsHistory].
    do 2 eexists. split; [reflexivity|]. cbn. repeat split; reflexivity.
  - rewrite addPoints_balance, H2, String.eqb_refl.
    subst db2. rewrite addPoints_balance, H1, String.eqb_refl.
    subst db1. rewrite balance_update by (intro; reflexivity). lia.
Qed.

End DiscordDisconnect.

(** The scenario of C4 on the persistent store: +50, +50, then both back. *)
Example db_disconnect_after_verify_scenario :
  let db := Db.run [ (1, Db.GetOrCreateWalletProfile "0xa" "evm");
                     (2, Db.ConnectDiscordAccount "abcdefgh" "0xa" "alice#1" (Some "d1"));
                     (3, Db.VerifyDiscordServer "abcdefgh" true (Scenario.always 200) "0xa") ]
                   Db.empty in
  Db.balance "0xa" db = 100
  /\ Db.balance "0xa" (snd (Db.disconnectDiscordAccount 4 "0xa" db)) = 0.
Proof. vm_compute. split; reflexivity. Qed.

(** C4 on the in-memory store: the same three calls leave 50 points behind.
    The disconnect resets [discordVerified] but appends the single
    [discord_disconnect] row of -50; no verify reversal is written. *)
Theorem mock_disconnect_keeps_verify_bonus :
  let db := Mock.run [ (1, Mock.ConnectDiscordAccount "abcdefgh" "0xa" "alice#1");
                       (2, Mock.VerifyDiscordServer "abcdefgh" "0xa") ]
                     Mock.empty in
  let r := Mock.disconnectDiscordAccount 3 "0xa" db in
  option_map (fun p => (wp_discordConnected p, wp_discordVerified p))
             (Mock.profiles_get "0xa" db) = Some (true, true)
  /\ Mock.balance "0xa" db = 100
  /\ success (fst r) = true
  /\ option_map (fun p => (wp_discordConnected p, wp_discordVerified p))
                (Mock.profiles_get "0xa" (snd r)) = Some (false, false)
  /\ map (fun h => (ph_transactionType h, ph_pointsChange h)) (Mock.pointsHistory (snd r))
     = [ ("discord_connect", 50); ("discord_verify", 50); ("discord_disconnect", -50) ]
  /\ Mock.balance "0xa" (snd r) = 50.
Proof. vm_compute. repeat split; reflexivity. Qed.

(** * Claiming the referral bonus *)

Module ReferralClaim.

Lemma db_find_claimed now w r (l : list Referral) :
  find (fun r0 => String.eqb (rf_referredWallet r0) w) l = Some r ->
  find (fun r0 => String.eqb (rf_referredWallet r0) w)
       (map (fun r0 => if Z.eqb (rf_id r0) (rf_id r)
                       then Db.set_referral_claimed now 50 50 r0 else r0) l)
  = Some (Db.set_referral_claimed now 50 50 r).
Proof.
  induction l as [|a l IH]; simpl; [discriminate|].
  destruct (String.eqb (rf_referredWallet a) w) eqn:E.
  - intros [= ->]. rewrite Z.eqb_refl. simpl. rewrite E. reflexivity.
  - intros H. destruct (Z.eqb (rf_id a) (rf_id r)); simpl; rewrite E; apply IH, H.
Qed.

Lemma db_claim now w db r pr pw :
  Db.select_referral_by_referred w db = Some r ->
  rf_referrerClaimed r = false ->
  Db.select_walletProfile (rf_referrerWallet r) db = Some pr ->
  Db.select_walletProfile w db = Some pw ->
  rf_referrerWallet r <> w ->
  let res := Db.claimReferralBonus now w db in
  fst res = Db.mkClaimResult true "Referral bonus claimed!" (Some 50) (Some 50)
  /\ Db.balance (rf_referrerWallet r) (snd res) = Db.balance (rf_referrerWallet r) db + 50
  /\ Db.balance w (snd res) = Db.balance w db + 50
  /\ Db.select_referral_by_referred w (snd res)
     = Some (Db.set_referral_claimed now 50 50 r)
  /\ option_map (fun p => (wp_referralCount p, wp_referralPointsEarned p))
                (Db.select_walletProfile (rf_referrerWallet r) (snd res))
     = Some (wp_referralCount pr + 1, wp_referralPointsEarned pr + 50).
Proof.
  intros Href Hcl Hpr Hpw Hne res. subst res. unfold Db.claimReferralBonus.
  rewrite DbFacts.bind_fst, DbFacts.bind_snd. cbn [gets fst snd]. rewrite Href, Hcl.
  cbv zeta.
  set (d1 := Some ("Referral bonus for inviting " ++ substring 0 8 w ++ "...")).
  set (d2 := Some "Welcome bonus for using referral code").
  rewrite ?DbFacts.bind_fst, ?DbFacts.bind_snd.
  set (db1 := snd (Db.addPoints now (rf_referrerWallet r) 50 "referral_bonus" d1 db)).
  set (db2 := snd (Db.addPoints now w 50 "referral_bonus" d2 db1)).
  assert (Hw1 : Db.select_walletProfile w db1 = Some pw).
  { subst db1. rewrite DbFacts.addPoints_select.
    destruct (String.eqb_spec w (rf_referrerWallet r)); [congruence | exact Hpw]. }
  assert (Hr2 : Db.select_walletProfile (rf_referrerWallet r) db2
                = Some (set_updatedAt now (set_totalPoints (wp_totalPoints pr + 50) pr))).
  { subst db2. rewrite DbFacts.addPoints_select.
    destruct (String.eqb_spec (rf_referrerWallet r) w); [contradiction|].
    subst db1. rewrite DbFacts.addPoints_select, String.eqb_refl, Hpr. reflexivity. }
  cbn [Db.getWalletProfile gets fst snd]. rewrite Hr2.
  unfold ret. cbn [fst snd].
  set (f3 := fun p => set_updatedAt now (set_referralStats _ _ p)).
  set (db3 := snd (Db.update_walletProfiles (rf_referrerWallet r) f3 db2)).
  assert (Hb2r : Db.balance (rf_referrerWallet r) db2
                 = Db.balance (rf_referrerWallet r) db + 50).
  { subst db2. rewrite DbFacts.addPoints_balance, Hw1.
    destruct (String.eqb_spec (rf_referrerWallet r) w); [contradiction|].
    subst db1. rewrite DbFacts.addPoints_balance, Hpr, String.eqb_refl. reflexivity. }
  assert (Hb2w : Db.balance w db2 = Db.balance w db + 50).
  { subst db2. rewrite DbFacts.addPoints_balance, Hw1, String.eqb_refl.
    subst db1. rewrite DbFacts.addPoints_balance, Hpr.
    destruct (String.eqb_spec w (rf_referrerWallet r)); [congruence | reflexivity]. }
  split; [reflexivity|]. split; [|split; [|split]].
  - change (Db.balance (rf_referrerWallet r) db3
            = Db.balance (rf_referrerWallet r) db + 50).
    subst db3. rewrite DbFacts.balance_update by (intro; reflexivity). exact Hb2r.
  - change (Db.balance w db3 = Db.balance w db + 50).
    subst db3. rewrite DbFacts.balance_update by (intro; reflexivity). exact Hb2w.
  - unfold Db.select_referral_by_referred. cbn [Db.update_referrals modify snd Db.referrals].
    replace (Db.referrals db3) with (Db.referrals db).
    + apply db_find_claimed. exact Href.
    + subst db3 db2 db1. cbn [Db.update_walletProfiles modify snd Db.referrals].
      rewrite !DbFacts.addPoints_referrals. reflexivity.
  - change (option_map (fun p => (wp_referralCount p, wp_referralPointsEarned p))
              (Db.select_walletProfile (rf_referrerWallet r) db3)
            = Some (wp_referralCount pr + 1, wp_referralPointsEarned pr + 50)).
    subst db3. rewrite DbFacts.select_update by (intro; reflexivity).
    rewrite String.eqb_refl, Hr2. reflexivity.
Qed.

Lemma mock_balance_addPoints now w pts ty d db w0 :
  Mock.balance w0 (snd (Mock.addPoints now w pts ty d db))
  = if String.eqb (Mock.normalize w0) (Mock.normalize w)
    then Mock.balance w0 db + pts else Mock.balance w0 db.
Proof.
  unfold Mock.balance. rewrite MockFacts.addPoints_get.
  destruct (String.eqb_spec (Mock.normalize w0) (Mock.normalize w)) as [E|E];
    [|reflexivity].
  cbv zeta. rewrite MockFacts.ensure_fst, E.
  destruct (Mock.profiles_get (Mock.normalize w) db); reflexivity.
Qed.

Lemma mock_claim now w db r :
  find (Mock.referred_is w) (Mock.referrals db) = Some r ->
  mr_referrerClaimed r = false ->
  Mock.normalize (mr_referrerWallet r) <> Mock.normalize w ->
  let res := Mock.claimReferralBonus now w db in
  let mine := filter (fun r0 => String.eqb (Mock.normalize (mr_referrerWallet r0))
                                           (Mock.normalize (mr_referrerWallet r)))
                     (Mock.referrals (snd res)) in
  fst res = Mock.mkClaimResult true "Referral bonus claimed!" (Some 50) (Some 50)
  /\ Mock.balance (mr_referrerWallet r) (snd res)
     = Mock.balance (mr_referrerWallet r) db + 50
  /\ Mock.balance w (snd res) = Mock.balance w db + 50
  /\ find (Mock.referred_is w) (Mock.referrals (snd res))
     = Some (Mock.set_referral_claimed 50 50 r)
  /\ option_map (fun p => (wp_referralCount p, wp_referralPointsEarned p))
                (Mock.profiles_get (Mock.normalize (mr_referrerWallet r)) (snd res))
     = Some (Z.of_nat (List.length mine),
             fold_left (fun sum r0 => sum + mr_referrerPoints r0) mine 0).
Proof.
  intros Href Hcl Hne res mine. subst mine res. unfold Mock.claimReferralBonus.
  rewrite MockFacts.mock_bind_fst, MockFacts.mock_bind_snd. cbn [gets fst snd]. rewrite Href, Hcl.
  rewrite ?MockFacts.mock_bind_fst, ?MockFacts.mock_bind_snd. unfold ret. cbn [fst snd].
  set (db0 := snd (Mock.mutate_referral w (Mock.set_referral_claimed 50 50) db)).
  set (db1 := snd (Mock.addPoints now (mr_referrerWallet r) 50 "referral_bonus"
                     (Some "Referral bonus") db0)).
  set (db2 := snd (Mock.addPoints now w 50 "referral_bonus" (Some "Referral bonus") db1)).
  assert (Hrefs : Mock.referrals db2
                  = Mock.mutate_first (Mock.referred_is w)
                      (Mock.set_referral_claimed 50 50) (Mock.referrals db)).
  { subst db2 db1. rewrite !MockFacts.mock_addPoints_referrals. reflexivity. }
  assert (Hget : exists pr,
             Mock.profiles_get (Mock.normalize (mr_referrerWallet r)) db2 = Some pr).
  { subst db2. rewrite MockFacts.addPoints_get.
    destruct (String.eqb_spec (Mock.normalize (mr_referrerWallet r)) (Mock.normalize w));
      [contradiction|].
    subst db1. rewrite MockFacts.addPoints_get, String.eqb_refl. eexists. reflexivity. }
  destruct Hget as [pr Hpr].
  assert (Hstats : snd (Mock.updateReferralStats now (mr_referrerWallet r) db2)
          = snd (Mock.touchProfile now (Mock.normalize (mr_referrerWallet r))
              (snd (Mock.mutate_profile (Mock.normalize (mr_referrerWallet r))
                 (set_referralStats
                    (Z.of_nat (List.length
                       (filter (fun r0 => String.eqb (Mock.normalize (mr_referrerWallet r0))
                                            (Mock.normalize (mr_referrerWallet r)))
                               (Mock.referrals db2))))
                    (fold_left (fun sum r0 => sum + mr_referrerPoints r0)
                       (filter (fun r0 => String.eqb (Mock.normalize (mr_referrerWallet r0))
                                            (Mock.normalize (mr_referrerWallet r)))
                               (Mock.referrals db2)) 0))
                 db2)))).
  { unfold Mock.updateReferralStats. cbv zeta.
    rewrite MockFacts.mock_bind_snd. cbn [gets fst snd]. rewrite Hpr.
    rewrite ?MockFacts.mock_bind_snd. reflexivity. }
  rewrite Hstats. clear Hstats.
  set (db3 := snd (Mock.touchProfile _ _ _)).
  assert (Hrefs3 : Mock.referrals db3 = Mock.referrals db2) by reflexivity.
  split; [reflexivity|]. split; [|split; [|split]].
  - subst db3. unfold Mock.touchProfile.
    rewrite !MockFacts.balance_mutate by (intro; reflexivity).
    subst db2. rewrite mock_balance_addPoints.
    destruct (String.eqb_spec (Mock.normalize (mr_referrerWallet r)) (Mock.normalize w));
      [contradiction|].
    subst db1. rewrite mock_balance_addPoints, String.eqb_refl. reflexivity.
  - subst db3. unfold Mock.touchProfile.
    rewrite !MockFacts.balance_mutate by (intro; reflexivity).
    subst db2. rewrite mock_balance_addPoints, String.eqb_refl.
    subst db1. rewrite mock_balance_addPoints.
    destruct (String.eqb_spec (Mock.normalize w) (Mock.normalize (mr_referrerWallet r)));
      [congruence | reflexivity].
  - rewrite Hrefs3, Hrefs.
    rewrite Revocation.find_mutate_first by (intros x Hx; exact Hx).
    rewrite Href. reflexivity.
  - subst db3. unfold Mock.touchProfile. rewrite !MockFacts.get_mutate, String.eqb_refl.
    rewrite Hpr. reflexivity.
Qed.

End ReferralClaim.

(** C5. The persistent store does not recompute the referrer's statistics
    at a claim, it adds 1 and 50 to the stored ones.  A refers B and C, and
    B claims: the claim succeeds, pays 50 and 50 and marks B's row claimed
    on both sides with the claim time, but A's [referralCount] becomes 1
    while A has two referral rows; the in-memory store, on the same calls,
    stores 2, the number of A's rows.  Nor is a stale count repaired: a
    stored 7 becomes 8 while the referrer has one row. *)
Theorem db_claim_increments_referral_stats :
  (let db := Db.run Scenario.db_two_referred Db.empty in
   let r := Db.claimReferralBonus 9 "0xb" db in
   let rows_of_a := filter (fun x => String.eqb (rf_referrerWallet x) "0xa")
                           (Db.referrals (snd r)) in
   fst r = Db.mkClaimResult true "Referral bonus claimed!" (Some 50) (Some 50)
   /\ Db.balance "0xa" (snd r) = Db.balance "0xa" db + 50
   /\ Db.balance "0xb" (snd r) = Db.balance "0xb" db + 50
   /\ Db.select_referral_by_referred "0xb" (snd r)
      = Some (mkReferral 1 "0xa" "0xb" "ABCDEFGH" 50 50 true true 7 (Some 9))
   /\ option_map wp_referralCount (Db.select_walletProfile "0xa" db) = Some 0
   /\ option_map (fun p => (wp_referralCount p, wp_referralPointsEarned p))
                 (Db.select_walletProfile "0xa" (snd r)) = Some (1, 50)
   /\ List.length rows_of_a = 2%nat
   /\ fold_left (fun sum x => sum + rf_referrerPoints x) rows_of_a 0 = 50)
  /\
  (let db := Mock.run Scenario.mock_two_referred Mock.empty in
   let r := Mock.claimReferralBonus 9 "0xb" db in
   Mock.cr_success (fst r) = true
   /\ option_map (fun p => (wp_referralCount p, wp_referralPointsEarned p))
                 (Mock.profiles_get "0xa" (snd r)) = Some (2, 50))
  /\
  (let db := Db.mkStore
               [ new_profile "0xb" "evm" 2;
                 set_referralStats 7 0 (new_profile "0xa" "evm" 1) ]
               [] []
               [ mkReferral 1 "0xa" "0xb" "ABCDEFGH" 0 0 false false 3 None ] in
   option_map wp_referralCount
              (Db.select_walletProfile "0xa" (snd (Db.claimReferralBonus 4 "0xb" db)))
   = Some 8).
Proof. vm_compute. repeat split; reflexivity. Qed.

(** * Applying a referral code *)

Module ReferralGate.
Import DbFacts.

(** What a successful [applyReferralCode] on the persistent store implies:
    the referrer found by the code is another address, is eligible at that
    moment, exactly one unclaimed referral row is added and [referredBy] is
    set on the profile of the wallet. *)
Lemma db_apply_success now w code db :
  success (fst (Db.applyReferralCode now w code db)) = true ->
  exists profile referrer,
    Db.select_walletProfile w db = Some profile
    /\ truthy (wp_referredBy profile) = false
    /\ Db.select_walletProfile_by_code (toUpperCase code) db = Some referrer
    /\ wp_walletAddress referrer <> w
    /\ wp_xConnected referrer = true
    /\ wp_discordConnected referrer = true
    /\ wp_discordVerified referrer = true
    /\ Db.referrals (snd (Db.applyReferralCode now w code db))
       = mkReferral (Db.next_id (Db.referrals db)) (wp_walletAddress referrer) w
                    (toUpperCase code) 0 0 false false now None
         :: Db.referrals db
    /\ Db.select_walletProfile w (snd (Db.applyReferralCode now w code db))
       = Some (set_updatedAt now (set_referredBy (Some (toUpperCase code)) profile)).
Proof.
  unfold Db.applyReferralCode.
  rewrite bind_fst, bind_snd. cbn [Db.getWalletProfile gets fst snd].
  destruct (Db.select_walletProfile w db) as [profile|] eqn:Hsel; [|discriminate].
  destruct (truthy (wp_referredBy profile)) eqn:Href; [discriminate|].
  rewrite bind_fst, bind_snd. cbn [gets fst snd].
  destruct (Db.select_walletProfile_by_code (toUpperCase code) db) as [referrer|] eqn:Hcode;
    [|discriminate].
  destruct (String.eqb_spec (wp_walletAddress referrer) w) as [|Hne]; [discriminate|].
  destruct (wp_xConnected referrer) eqn:Hx; [|discriminate].
  destruct (wp_discordConnected referrer) eqn:Hd; [|discriminate].
  destruct (wp_discordVerified referrer) eqn:Hv; [|discriminate].
  cbn [negb orb]. intros _. exists profile, referrer.
  rewrite ?bind_snd. unfold ret. cbn [fst snd].
  repeat split; try reflexivity; try assumption.
  rewrite select_update by (intro; reflexivity).
  rewrite String.eqb_refl. cbn [Db.insert_referral modify snd].
  unfold Db.select_walletProfile in *. cbn [Db.walletProfiles]. rewrite Hsel. reflexivity.
Qed.

(** On the in-memory store a successful application at least never names
    the applying wallet itself, whatever the spelling of the address. *)
Lemma mock_apply_success now w code db :
  success (fst (Mock.applyReferralCode now w code db)) = true ->
  exists referrer,
    find (fun p => opt_string_eqb (wp_referralCode p) (toUpperCase code))
         (map snd (Mock.profiles (snd (Mock.ensureProfile now w "evm" db))))
    = Some referrer
    /\ Mock.normalize (wp_walletAddress referrer) <> Mock.normalize w.
Proof.
  unfold Mock.applyReferralCode.
  rewrite MockFacts.mock_bind_fst. cbv zeta.
  destruct (truthy (wp_referredBy (fst (Mock.ensureProfile now w "evm" db))));
    [discriminate|].
  rewrite MockFacts.mock_bind_fst. cbn [gets fst snd].
  destruct (find _ _) as [referrer|]; [|discriminate].
  destruct (String.eqb_spec (Mock.normalize (wp_walletAddress referrer))
                            (Mock.normalize w)) as [|Hne]; [discriminate|].
  intros _. exists referrer. split; [reflexivity | exact Hne].
Qed.

End ReferralGate.

(** C6 on the in-memory store: A earns a code, then disconnects X; the code
    is still applied for B, and the unclaimed referral row is written,
    although the owner of the code is not eligible at that moment. *)
Theorem mock_apply_ignores_eligibility :
  let db := Mock.run [ (1, Mock.ConnectXAccount "abcdefgh" "0xa" "@alice");
                       (2, Mock.ConnectDiscordAccount "abcdefgh" "0xa" "alice#1");
                       (3, Mock.VerifyDiscordServer "abcdefgh" "0xa");
                       (4, Mock.DisconnectXAccount "0xa") ]
                     Mock.empty in
  let r := Mock.applyReferralCode 5 "0xb" "ABCDEFGH" db in
  option_map (fun p => (wp_referralCode p, wp_xConnected p))
             (Mock.profiles_get "0xa" db) = Some (Some "ABCDEFGH", false)
  /\ success (fst r) = true
  /\ Mock.referrals (snd r) = [ mkMockReferral 1 "0xa" "0xb" false 0 0 5 ]
  /\ option_map wp_referredBy (Mock.profiles_get "0xb" (snd r)) = Some (Some "0xa").
Proof. vm_compute. repeat split; reflexivity. Qed.

(** The same calls on the persistent store are refused. *)
Example db_apply_checks_eligibility :
  let db := Db.run [ (1, Db.GetOrCreateWalletProfile "0xa" "evm");
                     (2, Db.ConnectXAccount "abcdefgh" "0xa" "alice");
                     (3, Db.ConnectDiscordAccount "abcdefgh" "0xa" "alice#1" (Some "d1"));
                     (4, Db.VerifyDiscordServer "abcdefgh" true (Scenario.always 200) "0xa");
                     (5, Db.DisconnectXAccount "0xa");
                     (6, Db.GetOrCreateWalletProfile "0xb" "evm") ]
                   Db.empty in
  Db.applyReferralCode 7 "0xb" "ABCDEFGH" db
  = (failure "This referral code is currently inactive", db).
Proof. vm_compute. reflexivity. Qed.

(** C9 on the persistent store: the owner of the code, under another
    spelling of the same address, applies the code to itself; the comparison
    of the two addresses is exact, so the call goes through. *)
Theorem db_self_referral_by_case :
  let db := Db.run [ (1, Db.GetOrCreateWalletProfile "0xabc" "evm");
                     (2, Db.ConnectXAccount "abcdefgh" "0xabc" "alice");
                     (3, Db.ConnectDiscordAccount "abcdefgh" "0xabc" "alice#1" (Some "d1"));
                     (4, Db.VerifyDiscordServer "abcdefgh" true (Scenario.always 200) "0xabc");
                     (5, Db.GetOrCreateWalletProfile "0xABC" "evm") ]
                   Db.empty in
  let r := Db.applyReferralCode 6 "0xABC" "ABCDEFGH" db in
  option_map wp_referralCode (Db.select_walletProfile "0xabc" db) = Some (Some "ABCDEFGH")
  /\ toLowerCase "0xABC" = toLowerCase "0xabc"
  /\ success (fst r) = true
  /\ Db.referrals (snd r)
     = [ mkReferral 1 "0xabc" "0xABC" "ABCDEFGH" 0 0 false false 6 None ]
  /\ success (fst (Db.applyReferralCode 6 "0xabc" "ABCDEFGH" db)) = false.
Proof. vm_compute. repeat split; reflexivity. Qed.

(** The in-memory store refuses the same call. *)
Example mock_self_referral_by_case :
  let db := Mock.run [ (1, Mock.ConnectXAccount "abcdefgh" "0xabc" "alice");
                       (2, Mock.ConnectDiscordAccount "abcdefgh" "0xabc" "alice#1");
                       (3, Mock.VerifyDiscordServer "abcdefgh" "0xabc") ]
                     Mock.empty in
  Mock.applyReferralCode 4 "0xABC" "ABCDEFGH" db
  = (failure "You cannot refer yourself", db).
Proof. vm_compute. reflexivity. Qed.

(** * Membership reconciliation *)

Module Membership.
Import Db DbSpec DbFacts.

(** The single-wallet path deducts what the history records. *)
Lemma db_single_check_deducts_grant now api w db p :
  select_walletProfile w db = Some p ->
  wp_discordVerified p = true -> truthy (wp_discordId p) = true ->
  api (or_else (wp_discordId p) "") = Response 404 ->
  let g := fst (getOriginalBonusPoints w "discord_verify" 50 db) in
  let r := checkUserDiscordMembership now true api w db in
  fst r = mkMembershipCheck false true
  /\ option_map wp_discordVerified (select_walletProfile w (snd r)) = Some false
  /\ balance w (snd r) = balance w db - g.
Proof.
  intros Hsel Hv Hid Hapi g r.
  assert (Eg : g = match newest_grant w "discord_verify" db with
                   | Some r => if Z.ltb 0 (ph_pointsChange r) then ph_pointsChange r
                               else 50
                   | None => 50
                   end)
    by (subst g; rewrite Refund.getOriginalBonusPoints_run; reflexivity).
  clearbody g. subst r. unfold checkUserDiscordMembership.
  rewrite bind_fst, bind_snd. cbn [gets fst snd]. rewrite Hsel, Hv, Hid.
  cbn [negb orb]. rewrite Hapi. cbn [Z.eqb Pos.eqb].
  rewrite ?bind_fst, ?bind_snd. unfold ret. cbn [fst snd].
  rewrite !Refund.getOriginalBonusPoints_run. cbn [fst snd].
  set (f1 := fun p0 => set_updatedAt now (set_discordVerified false None p0)).
  set (db1 := snd (update_walletProfiles w f1 db)).
  change (newest_grant w "discord_verify" db1) with (newest_grant w "discord_verify" db).
  rewrite <- Eg.
  assert (H1 : select_walletProfile w db1 = Some (f1 p)).
  { subst db1. rewrite select_update by (intro; reflexivity).
    rewrite String.eqb_refl, Hsel. reflexivity. }
  split; [reflexivity|]. split.
  - rewrite addPoints_select, String.eqb_refl, H1. reflexivity.
  - rewrite addPoints_balance, H1, String.eqb_refl. subst db1.
    rewrite balance_update by (intro; reflexivity). lia.
Qed.

End Membership.


(** C7 on the batch sweep: on a store whose history records a verify bonus
    of 75, the single-wallet check deducts the 75 that were granted, the
    batch sweep deducts 50. *)
Theorem batch_sweep_deducts_constant :
  let db := Scenario.db_verify_75 in
  let one := Db.checkUserDiscordMembership 3 true (Scenario.always 404) "0xa" db in
  let all := Db.checkDiscordServerMemberships 3 true (Scenario.always 404) db in
  DbSpec.ledger_ok db
  /\ fst (Db.getOriginalBonusPoints "0xa" "discord_verify" 50 db) = 75
  /\ fst one = Db.mkMembershipCheck false true
  /\ Db.balance "0xa" (snd one) = 125 - 75
  /\ fst all = Db.mkSweepCounts 1 1 0
  /\ option_map wp_discordVerified (Db.select_walletProfile "0xa" (snd all)) = Some false
  /\ option_map ph_pointsChange (hd_error (Db.pointsHistory (snd all))) = Some (-50)
  /\ Db.balance "0xa" (snd all) = 125 - 50.
Proof.
  split.
  - intros w. unfold Db.balance, Db.history_sum, Db.select_walletProfile.
    cbn -[String.eqb]. unfold Db.walletAddress_is. cbn -[String.eqb].
    destruct (String.eqb "0xa" w); reflexivity.
  - vm_compute. repeat split; reflexivity.
Qed.

(** * Failing open *)

Module FailOpen.
Import Db DbSpec DbFacts.

Lemma checkTweetExists_false api url :
  checkTweetExists api url = false <-> api url = Response 404 \/ api url = Response 403.
Proof.
  unfold checkTweetExists. destruct (api url) as [status|].
  - destruct (response_ok status) eqn:Hok.
    + split; [discriminate|]. intros [[= ->]|[= ->]]; discriminate.
    + destruct (Z.eqb_spec status 404) as [->|H404]; simpl.
      * split; auto.
      * destruct (Z.eqb_spec status 403) as [->|H403]; simpl.
        -- split; auto.
        -- split; [discriminate|]. intros [[= ?]|[= ?]]; contradiction.
  - split; [discriminate|]. intros [?|?]; discriminate.
Qed.

Lemma history_of_addPoints now w' pts ty d db w :
  w <> w' -> history_of w (snd (addPoints now w' pts ty d db)) = history_of w db.
Proof.
  intros Hne. destruct (select_walletProfile w' db) as [p|] eqn:E.
  - rewrite (addPoints_known _ _ _ _ _ _ _ E). unfold history_of. simpl.
    destruct (String.eqb_spec w' w); [congruence | reflexivity].
  - rewrite (addPoints_unknown _ _ _ _ _ _ E). reflexivity.
Qed.

Lemma membership_body_frame now api w u acc db :
  (wp_walletAddress u = w -> api (or_else (wp_discordId u) "") <> Response 404) ->
  let db' := snd (membership_sweep_body now api u acc db) in
  select_walletProfile w db' = select_walletProfile w db
  /\ history_of w db' = history_of w db.
Proof.
  intros Hu. unfold membership_sweep_body.
  destruct (negb (truthy (wp_discordId u))); [split; reflexivity|].
  destruct (api (or_else (wp_discordId u) "")) as [status|] eqn:Hapi;
    [|split; reflexivity].
  destruct (Z.eqb_spec status 404) as [->|H404].
  - assert (Hne : w <> wp_walletAddress u) by (intros E; apply Hu; auto).
    cbv zeta. rewrite !bind_snd. unfold ret. cbn [snd]. split.
    + rewrite addPoints_select, select_update by (intro; reflexivity).
      destruct (String.eqb_spec w (wp_walletAddress u)); [contradiction | reflexivity].
    + rewrite history_of_addPoints by exact Hne. reflexivity.
  - cbv zeta. destruct (negb (response_ok status)); split; reflexivity.
Qed.

Lemma membership_loop_frame now api w us :
  (forall u, In u us -> wp_walletAddress u = w ->
             api (or_else (wp_discordId u) "") <> Response 404) ->
  forall acc db,
  let db' := snd (for_each us (membership_sweep_body now api) acc db) in
  select_walletProfile w db' = select_walletProfile w db
  /\ history_of w db' = history_of w db.
Proof.
  induction us as [|u us IH]; intros Hus acc db; simpl.
  - split; reflexivity.
  - rewrite bind_snd.
    destruct (IH (fun u' Hin => Hus u' (or_intror Hin))
                 (fst (membership_sweep_body now api u acc db))
                 (snd (membership_sweep_body now api u acc db))) as [H1 H2].
    destruct (membership_body_frame now api w u acc db (Hus u (or_introl eq_refl)))
      as [H3 H4].
    cbv zeta in *. split; congruence.
Qed.

End FailOpen.

(** C8. Fail-open verification.  [checkTweetExists] answers false exactly on
    a 404 or 403 response, and true on success, on every other status and
    on a thrown error.  The single-wallet membership check leaves the store
    as it is unless the answer for that wallet is a 404; in the batch sweep
    a wallet whose answer is not a 404 keeps its profile and its history,
    whatever happens to the other wallets; and a tweet sweep in which no
    answer is a 404 or 403 changes nothing. *)
Theorem fail_open_verification :
  (forall api url,
     Db.checkTweetExists api url = false
     <-> api url = Response 404 \/ api url = Response 403)
  /\
  (forall now configured api w db,
     (forall p, Db.select_walletProfile w db = Some p ->
                api (or_else (wp_discordId p) "") <> Response 404) ->
     Db.checkUserDiscordMembership now configured api w db
     = (Db.mkMembershipCheck true false, db))
  /\
  (forall now configured api w db,
     (forall u, In u (Db.walletProfiles db) -> wp_walletAddress u = w ->
                api (or_else (wp_discordId u) "") <> Response 404) ->
     let db' := snd (Db.checkDiscordServerMemberships now configured api db) in
     Db.select_walletProfile w db' = Db.select_walletProfile w db
     /\ DbSpec.history_of w db' = DbSpec.history_of w db)
  /\
  (forall now api w db,
     (forall url, api url <> Response 404 /\ api url <> Response 403) ->
     snd (Db.checkAndRevokeDeletedTweets now api w db) = db
     /\ snd (Db.cronCheckAllTweets now api db) = db).
Proof.
  split; [exact FailOpen.checkTweetExists_false|]. split; [|split].
  - intros now configured api w db H. unfold Db.checkUserDiscordMembership.
    unfold bind, gets.
    destruct (Db.select_walletProfile w db) as [p|] eqn:E; [|reflexivity].
    destruct (negb (wp_discordVerified p) || negb (truthy (wp_discordId p)));
      [reflexivity|].
    destruct (negb configured); [reflexivity|].
    specialize (H p eq_refl).
    destruct (api (or_else (wp_discordId p) "")) as [status|]; [|reflexivity].
    destruct (Z.eqb_spec status 404) as [->|]; [contradiction|].
    destruct (response_ok status); reflexivity.
  - intros now configured api w db H. unfold Db.checkDiscordServerMemberships.
    destruct (negb configured); [split; reflexivity|].
    rewrite DbFacts.bind_snd. unfold gets. cbn [fst snd].
    apply FailOpen.membership_loop_frame.
    intros u Hin. apply filter_In in Hin as [Hin _]. apply H, Hin.
  - intros now api w db H.
    assert (Hexists : forall url, Db.checkTweetExists api url = true).
    { intros url. destruct (Db.checkTweetExists api url) eqn:E; [reflexivity|].
      apply FailOpen.checkTweetExists_false in E. destruct (H url). tauto. }
    split.
    + unfold Db.checkAndRevokeDeletedTweets. rewrite DbFacts.bind_snd.
      change (snd (Db.getActiveTweetCompletions (Some w) db)) with db.
      generalize (fst (Db.getActiveTweetCompletions (Some w) db)) as cs.
      generalize (Db.mkTweetCheck 0 0 []) as acc.
      intros acc cs. revert acc. induction cs as [|c cs IH]; intros acc; simpl.
      * reflexivity.
      * rewrite DbFacts.bind_snd.
        destruct (negb (truthy (tc_metadata c))); [apply IH|].
        cbv zeta. rewrite Hexists. apply IH.
    + unfold Db.cronCheckAllTweets. rewrite DbFacts.bind_snd.
      change (snd (Db.getActiveTweetCompletions None db)) with db.
      generalize (fst (Db.getActiveTweetCompletions None db)) as cs.
      generalize (Db.mkCronCounts 0 0 0) as acc.
      intros acc cs. revert acc. induction cs as [|c cs IH]; intros acc; simpl.
      * reflexivity.
      * rewrite DbFacts.bind_snd.
        destruct (negb (truthy (tc_metadata c))); [apply IH|].
        cbv zeta. rewrite Hexists. apply IH.
Qed.

Lemma fail_open_verification_witness :
  let db := Db.run (firstn 4 Scenario.db_happy_path) Db.empty in
  Db.checkUserDiscordMembership 10 true (Scenario.always 500) "0xa" db
  = (Db.mkMembershipCheck true false, db)
  /\ (let db' := snd (Db.checkDiscordServerMemberships 10 true (Scenario.always 429) db) in
      Db.select_walletProfile "0xa" db' = Db.select_walletProfile "0xa" db
      /\ DbSpec.history_of "0xa" db' = DbSpec.history_of "0xa" db)
  /\ snd (Db.checkAndRevokeDeletedTweets 10 (Scenario.always 503) "0xb"
            (Db.run (firstn 8 Scenario.db_happy_path) Db.empty))
     = Db.run (firstn 8 Scenario.db_happy_path) Db.empty.
Proof.
  destruct fail_open_verification as [_ [Hone [Hall Htweets]]].
  split; [|split].
  - refine (Hone 10 true (Scenario.always 500) "0xa" _ _). intros p _. discriminate.
  - refine (Hall 10 true (Scenario.always 429) "0xa" _ _). intros u _ _. discriminate.
  - refine (proj1 (Htweets 10 (Scenario.always 503) "0xb"
                     (Db.run (firstn 8 Scenario.db_happy_path) Db.empty) _)).
    intros url. split; discriminate.
Defined.

(** A 404 does revoke: the single check on the same store. *)
Example membership_404_revokes :
  let db := Db.run (firstn 4 Scenario.db_happy_path) Db.empty in
  let r := Db.checkUserDiscordMembership 10 true (Scenario.always 404) "0xa" db in
  fst r = Db.mkMembershipCheck false true
  /\ Db.balance "0xa" db = 200 /\ Db.balance "0xa" (snd r) = 150.
Proof. vm_compute. repeat split; reflexivity. Qed.

(** * Points for a wallet without a profile *)

(** C10, as stated, fails on the persistent store: [addPoints] for a wallet
    without a profile answers null and writes nothing. *)
Lemma addPoints_unknown_wallet_counterexample :
  Db.select_walletProfile "0xnew" Db.empty = None
  /\ Db.addPoints 1 "0xnew" 10 "admin_adjustment" (Some "gift") Db.empty
     = (None, Db.empty).
Proof. split; reflexivity. Qed.

(** C10, amended.  The in-memory store's [addPoints] on a wallet without a
    profile creates the zero-balance profile, applies the delta and appends
    the history row.  The persistent store's [addPoints] answers null and
    leaves the store as it is for such a wallet; there the profile is
    created by [getOrCreateWalletProfile], with zero balance, after which
    [addPoints] applies the delta and prepends the history row. *)
Theorem addPoints_lookup_or_create :
  (forall now w pts ty d db,
     Mock.profiles_get (Mock.normalize w) db = None ->
     let r := Mock.addPoints now w pts ty d db in
     fst r = pts
     /\ Mock.profiles_get (Mock.normalize w) (snd r)
        = Some (set_updatedAt now (set_totalPoints pts (new_profile w "evm" now)))
     /\ Mock.pointsHistory (snd r)
        = (Mock.pointsHistory db ++
             [ mkPointsHistory (Mock.pointsId db) w ty pts pts (or_null d) now ])%list)
  /\
  (forall now w pts ty d db,
     Db.select_walletProfile w db = None ->
     Db.addPoints now w pts ty d db = (None, db))
  /\
  (forall now now' w chain pts ty d db,
     Db.select_walletProfile w db = None ->
     let db1 := snd (Db.getOrCreateWalletProfile now w chain db) in
     let r := Db.addPoints now' w pts ty d db1 in
     Db.select_walletProfile w db1 = Some (new_profile w chain now)
     /\ fst r = Some pts
     /\ Db.select_walletProfile w (snd r)
        = Some (set_updatedAt now' (set_totalPoints pts (new_profile w chain now)))
     /\ Db.pointsHistory (snd r)
        = mkPointsHistory (Db.next_id (Db.pointsHistory db)) w ty pts pts d now'
          :: Db.pointsHistory db).
Proof.
  split; [|split].
  - intros now w pts ty d db Hnone r. subst r.
    assert (Hp : fst (Mock.ensureProfile now w "evm" db) = new_profile w "evm" now)
      by (rewrite MockFacts.ensure_fst, Hnone; reflexivity).
    split; [|split].
    + rewrite MockFacts.addPoints_run. cbv zeta. cbn [fst]. rewrite Hp. reflexivity.
    + rewrite MockFacts.addPoints_get, String.eqb_refl. cbv zeta. rewrite Hp.
      reflexivity.
    + rewrite MockFacts.addPoints_history, Hp. reflexivity.
  - intros now w pts ty d db Hnone. apply DbFacts.addPoints_unknown, Hnone.
  - intros now now' w chain pts ty d db Hnone db1 r.
    assert (H1 : Db.select_walletProfile w db1 = Some (new_profile w chain now)).
    { subst db1. unfold Db.getOrCreateWalletProfile. rewrite DbFacts.bind_snd.
      cbn [gets fst snd]. rewrite Hnone. rewrite DbFacts.bind_snd.
      unfold Db.select_walletProfile. simpl. unfold Db.walletAddress_is. simpl.
      rewrite String.eqb_refl. reflexivity. }
    assert (Hh : Db.pointsHistory db1 = Db.pointsHistory db).
    { subst db1. unfold Db.getOrCreateWalletProfile. rewrite DbFacts.bind_snd.
      cbn [gets fst snd]. rewrite Hnone. rewrite DbFacts.bind_snd. reflexivity. }
    split; [exact H1|]. subst r.
    rewrite (DbFacts.addPoints_known _ _ _ _ _ _ _ H1). cbn [fst snd].
    split; [reflexivity|]. split.
    + unfold Db.select_walletProfile at 1. cbn [Db.walletProfiles].
      rewrite DbFacts.find_update by (intro; reflexivity).
      rewrite String.eqb_refl. fold (Db.select_walletProfile w db1). rewrite H1.
      reflexivity.
    + cbn [Db.pointsHistory]. rewrite Hh. reflexivity.
Qed.

Lemma addPoints_lookup_or_create_witness :
  Mock.profiles_get (Mock.normalize "0xNew") Mock.empty = None
  /\ Db.select_walletProfile "0xnew" Db.empty = None
  /\ fst (Mock.addPoints 1 "0xNew" 10 "admin_adjustment" None Mock.empty) = 10
  /\ Db.addPoints 1 "0xnew" 10 "admin_adjustment" None Db.empty = (None, Db.empty)
  /\ fst (Db.addPoints 2 "0xnew" 10 "admin_adjustment" None
            (snd (Db.getOrCreateWalletProfile 1 "0xnew" "evm" Db.empty))) = Some 10.
Proof.
  destruct addPoints_lookup_or_create as [Hmock [Hdb Hcreate]].
  split; [reflexivity|]. split; [reflexivity|]. split; [|split].
  - apply (Hmock 1 "0xNew" 10 "admin_adjustment" None Mock.empty). reflexivity.
  - apply Hdb. reflexivity.
  - apply (Hcreate 1 2 "0xnew" "evm" 10 "admin_adjustment" None Db.empty). reflexivity.
Defined.

(** * Further properties *)

(** ** A refused call *)

Module Atomicity.
Import Db DbSpec DbFacts.

(** A guard that answers without writing, or the path to the success
    answer. *)
Ltac atomic_step :=
  first
    [ solve [intros _; reflexivity]
    | solve [rewrite ?bind_fst; cbn; discriminate]
    | progress (rewrite ?bind_fst, ?bind_snd; cbn [gets fst snd ret])
    | match goal with
      | |- context [match ?x with _ => _ end] => destruct x eqn:?
      end ].

Ltac atomic := repeat atomic_step.

End Atomicity.

Module MockAtomicity.
Import Mock MockSpec MockFacts MockProps.

Lemma registered_refl now db : registered_at_most now db db.
Proof. repeat split; auto. Qed.

Lemma registered_ensure now w db :
  registered_at_most now db (snd (ensureProfile now w "evm" db)).
Proof.
  unfold ensureProfile. rewrite mock_bind_snd. cbn [gets fst snd].
  destruct (profiles_get (normalize w) db) eqn:E; cbn.
  - apply registered_refl.
  - repeat split; auto. right. exists w. split; [exact E | reflexivity].
Qed.

Ltac mock_atomic_step :=
  first
    [ solve [intros _; apply registered_ensure]
    | solve [intros _; apply registered_refl]
    | solve [rewrite ?mock_bind_fst; cbn; discriminate]
    | progress (rewrite ?mock_bind_fst, ?mock_bind_snd; cbn [gets fst snd ret])
    | match goal with
      | |- context [match ?x with _ => _ end] => destruct x eqn:?
      end ].

Ltac mock_atomic := repeat mock_atomic_step.

End MockAtomicity.

(** X1. On the persistent store, an operation that reports failure has
    written nothing: the store after the call is the store before it. *)
Theorem db_failed_operation_writes_nothing (now : Date) (op : Db.Op) (db : Db.Store) :
  DbProps.succeeded now op db = false -> Db.step now op db = db.
Proof.
  destruct op; cbn [DbProps.succeeded Db.step]; try discriminate.
  - unfold Db.claimConnectBonus, Db.getWalletProfile. Atomicity.atomic.
  - unfold Db.connectXAccount, Db.getWalletProfile. Atomicity.atomic.
  - unfold Db.disconnectXAccount, Db.getWalletProfile. Atomicity.atomic.
  - unfold Db.connectDiscordAccount, Db.getWalletProfile. Atomicity.atomic.
  - unfold Db.disconnectDiscordAccount, Db.getWalletProfile. Atomicity.atomic.
  - unfold Db.verifyDiscordServer, Db.getWalletProfile. Atomicity.atomic.
  - unfold Db.completeDailyPost, Db.getWalletProfile, Db.hasCompletedTask. Atomicity.atomic.
  - unfold Db.getOrCreateReferralCode, Db.getWalletProfile. Atomicity.atomic.
  - unfold Db.applyReferralCode, Db.getWalletProfile. Atomicity.atomic.
  - unfold Db.claimReferralBonus. Atomicity.atomic.
  - unfold Db.adjustUserPoints, Db.getWalletProfile. Atomicity.atomic.
  - unfold Db.revokeTweetPoints. Atomicity.atomic.
Qed.

Lemma db_failed_operation_writes_nothing_witness :
  DbProps.succeeded 5 (Db.ApplyReferralCode "0xb" "NOSUCHCODE")
    (Db.run Scenario.db_happy_path Db.empty) = false
  /\ Db.step 5 (Db.ApplyReferralCode "0xb" "NOSUCHCODE")
       (Db.run Scenario.db_happy_path Db.empty)
     = Db.run Scenario.db_happy_path Db.empty.
Proof.
  assert (H : DbProps.succeeded 5 (Db.ApplyReferralCode "0xb" "NOSUCHCODE")
                (Db.run Scenario.db_happy_path Db.empty) = false)
    by (vm_compute; reflexivity).
  split; [exact H|].
  exact (db_failed_operation_writes_nothing 5 (Db.ApplyReferralCode "0xb" "NOSUCHCODE")
           (Db.run Scenario.db_happy_path Db.empty) H).
Defined.

(** X2. On the in-memory store, an operation that reports failure leaves
    the history, the completions, the referrals and every stored profile
    as they were; the only thing it may have done is to register the
    calling wallet with a fresh zero profile. *)
Theorem mock_failed_operation_registers_at_most (now : Date) (op : Mock.Op)
    (db : Mock.Store) :
  MockProps.succeeded now op db = false ->
  MockProps.registered_at_most now db (Mock.step now op db).
Proof.
  destruct op; cbn [MockProps.succeeded Mock.step]; try discriminate.
  - unfold Mock.claimConnectBonus. MockAtomicity.mock_atomic.
  - unfold Mock.connectXAccount. MockAtomicity.mock_atomic.
  - unfold Mock.disconnectXAccount. MockAtomicity.mock_atomic.
  - unfold Mock.connectDiscordAccount. MockAtomicity.mock_atomic.
  - unfold Mock.disconnectDiscordAccount. MockAtomicity.mock_atomic.
  - unfold Mock.verifyDiscordServer. MockAtomicity.mock_atomic.
  - unfold Mock.completeDailyPost. MockAtomicity.mock_atomic.
  - unfold Mock.revokeTweetPoints. MockAtomicity.mock_atomic.
  - unfold Mock.applyReferralCode. MockAtomicity.mock_atomic.
  - unfold Mock.claimReferralBonus. MockAtomicity.mock_atomic.
Qed.

Lemma mock_failed_operation_registers_at_most_witness :
  MockProps.succeeded 5 (Mock.DisconnectXAccount "0xNEW") Mock.empty = false
  /\ MockProps.registered_at_most 5 Mock.empty
       (Mock.step 5 (Mock.DisconnectXAccount "0xNEW") Mock.empty).
Proof.
  split; [reflexivity|].
  exact (mock_failed_operation_registers_at_most 5 (Mock.DisconnectXAccount "0xNEW")
           Mock.empty eq_refl).
Defined.

(** ** The running balance *)

Module Running.

Lemma db_running_cons h l :
  ph_balanceAfter h = DbProps.changes_of (ph_walletAddress h) l + ph_pointsChange h ->
  DbProps.running_balance l -> DbProps.running_balance (h :: l).
Proof.
  intros Hh Hl newer h0 older E. destruct newer as [|x newer]; simpl in E.
  - injection E as <- <-. exact Hh.
  - injection E as _ E. apply (Hl newer h0 older E).
Qed.

Lemma db_running_addPoints now w pts ty d db :
  DbSpec.ledger_ok db -> DbProps.running_balance (Db.pointsHistory db) ->
  DbProps.running_balance (Db.pointsHistory (snd (Db.addPoints now w pts ty d db))).
Proof.
  intros HL HR. destruct (Db.select_walletProfile w db) as [p|] eqn:E.
  - rewrite (DbFacts.addPoints_known _ _ _ _ _ _ _ E). cbn [snd Db.pointsHistory].
    apply db_running_cons; [|exact HR]. cbn.
    specialize (HL w). unfold Db.balance in HL. rewrite E in HL. rewrite HL. reflexivity.
  - rewrite (DbFacts.addPoints_unknown _ _ _ _ _ _ E). exact HR.
Qed.

Lemma db_running_run ops :
  DbSpec.ledger_ok (Db.run ops Db.empty)
  /\ DbProps.running_balance (Db.pointsHistory (Db.run ops Db.empty)).
Proof.
  apply (DbFacts.invariant_run
           (fun db => DbSpec.ledger_ok db /\ DbProps.running_balance (Db.pointsHistory db))).
  - intros w f db Ha Ht [HL HR]. split; [apply DbFacts.ledger_update; assumption | exact HR].
  - intros now w pts ty d db [HL HR].
    split; [apply DbFacts.ledger_addPoints, HL | apply db_running_addPoints; assumption].
  - intros p db Hn Hz [HL HR].
    split; [apply DbFacts.ledger_insert_walletProfile; assumption | exact HR].
  - intros row db _ [HL HR]. split; [revert HL; apply DbFacts.ledger_ext; reflexivity | exact HR].
  - intros id now db [HL HR]. split; [revert HL; apply DbFacts.ledger_ext; reflexivity | exact HR].
  - intros db l [HL HR]. split; [revert HL; apply DbFacts.ledger_ext; reflexivity | exact HR].
  - split; [apply DbFacts.ledger_empty | intros [|] ? ? E; discriminate E].
Qed.

Lemma mock_running_snoc h l :
  ph_balanceAfter h = MockProps.changes_of (ph_walletAddress h) l + ph_pointsChange h ->
  MockProps.running_balance l -> MockProps.running_balance (l ++ [h]).
Proof.
  intros Hh Hl older h0 newer E.
  destruct (exists_last (l := h0 :: newer)) as [front [x Ex]]; [discriminate|].
  rewrite Ex in E. rewrite app_assoc in E. apply app_inj_tail in E as [E <-].
  destruct front as [|y front]; simpl in Ex.
  - injection Ex as -> _. rewrite app_nil_r in E. subst l. exact Hh.
  - injection Ex as <- _. apply (Hl older h0 front). rewrite E. reflexivity.
Qed.

Lemma mock_running_addPoints now w pts ty d db :
  MockSpec.wf db -> MockProps.running_balance (Mock.pointsHistory db) ->
  MockProps.running_balance (Mock.pointsHistory (snd (Mock.addPoints now w pts ty d db))).
Proof.
  intros [HL HK] HR. rewrite MockFacts.addPoints_history.
  apply mock_running_snoc; [|exact HR].
  cbn [ph_balanceAfter ph_walletAddress ph_pointsChange].
  f_equal. rewrite MockFacts.ensure_fst.
  destruct (Mock.profiles_get (Mock.normalize w) db) as [p|] eqn:E.
  - specialize (HL (wp_walletAddress p)). unfold Mock.balance in HL.
    rewrite (HK _ _ E), E in HL. exact HL.
  - specialize (HL w). unfold Mock.balance in HL. rewrite E in HL. exact HL.
Qed.

Lemma mock_running_run ops :
  MockSpec.wf (Mock.run ops Mock.empty)
  /\ MockProps.running_balance (Mock.pointsHistory (Mock.run ops Mock.empty)).
Proof.
  apply (MockFacts.mock_invariant_run
           (fun db => MockSpec.wf db /\ MockProps.running_balance (Mock.pointsHistory db))).
  - intros key f db Ha Ht [HW HR]. split; [apply MockFacts.wf_mutate; assumption | exact HR].
  - intros now w c db [HW HR]. split; [apply MockFacts.wf_ensureProfile, HW|].
    rewrite MockFacts.ensure_history. exact HR.
  - intros now w pts ty d db [HW HR].
    split; [apply MockFacts.wf_addPoints, HW | apply mock_running_addPoints; assumption].
  - intros db rs rid [HW HR]. split; [revert HW; apply MockFacts.wf_ext; reflexivity | exact HR].
  - intros db t _ [HW HR]. split; [revert HW; apply MockFacts.wf_ext; reflexivity | exact HR].
  - intros db id now [HW HR]. split; [revert HW; apply MockFacts.wf_ext; reflexivity | exact HR].
  - split; [apply MockFacts.wf_empty | intros [|] ? ? E; discriminate E].
Qed.

End Running.

(** X3. In every store reached from the empty one, each history row records
    as [balanceAfter] the sum of the changes of its wallet up to and
    including that row. *)
Theorem running_balance_kept (db_ops : list (Date * Db.Op)) (mock_ops : list (Date * Mock.Op)) :
  DbProps.running_balance (Db.pointsHistory (Db.run db_ops Db.empty))
  /\ MockProps.running_balance (Mock.pointsHistory (Mock.run mock_ops Mock.empty)).
Proof.
  split; [apply Running.db_running_run | apply Running.mock_running_run].
Qed.

(** ** Listings and pages *)

Module Listing.

Lemma firstn_plus {A} (a b : nat) (l : list A) :
  firstn (a + b) l = (firstn a l ++ firstn b (skipn a l))%list.
Proof.
  revert l. induction a as [|a IH]; intros l; simpl; [reflexivity|].
  destruct l as [|x l]; simpl.
  - rewrite firstn_nil. reflexivity.
  - rewrite IH. reflexivity.
Qed.

Lemma windows_tile {A} (k : nat) (l : list A) (n : nat) :
  List.concat (map (fun i => firstn k (skipn ((i - 1) * k) l)) (seq 1 n)) = firstn (n * k) l.
Proof.
  induction n as [|n IH].
  - reflexivity.
  - rewrite seq_S, map_app, concat_app, IH. simpl.
    rewrite app_nil_r, Nat.sub_0_r.
    replace (k + n * k)%nat with (n * k + k)%nat by lia.
    rewrite firstn_plus. reflexivity.
Qed.

Lemma pages_upto_ext {A} (f g : Z -> list A) n :
  (forall i, (1 <= i <= n)%nat -> f (Z.of_nat i) = g (Z.of_nat i)) ->
  pages_upto f n = pages_upto g n.
Proof.
  intros H. unfold pages_upto. f_equal. apply map_ext_in.
  intros i Hi. apply in_seq in Hi. apply H. lia.
Qed.

Lemma slice_window {A} (page pageSize : Z) (l : list A) :
  1 <= page -> 0 <= pageSize ->
  slice ((page - 1) * pageSize) ((page - 1) * pageSize + pageSize) l
  = firstn (Z.to_nat pageSize) (skipn (Z.to_nat ((page - 1) * pageSize)) l).
Proof.
  intros Hp Hs. unfold slice.
  set (len := Z.of_nat (List.length l)).
  set (off := (page - 1) * pageSize).
  assert (0 <= off) by (subst off; nia).
  destruct (Z.ltb_spec off 0); [lia|].
  destruct (Z.ltb_spec (off + pageSize) 0); [lia|].
  destruct (Z.le_gt_cases len off) as [Hle|Hgt].
  - rewrite (Z.min_r off len), (Z.min_r (off + pageSize) len) by lia.
    rewrite Z.sub_diag. simpl.
    rewrite (skipn_all2 l) by (subst len; lia).
    rewrite firstn_nil. reflexivity.
  - rewrite (Z.min_l off len) by lia.
    destruct (Z.le_gt_cases (off + pageSize) len).
    + rewrite Z.min_l by lia. f_equal. lia.
    + rewrite Z.min_r by lia.
      assert (Hlen : List.length (skipn (Z.to_nat off) l) = Z.to_nat (len - off)).
      { rewrite length_skipn. subst len. lia. }
      rewrite !firstn_all2; [reflexivity| |]; rewrite Hlen; lia.
Qed.

Lemma slice_pages_tile {A} (pageSize : Z) (l : list A) n :
  0 < pageSize ->
  pages_upto (fun page => slice ((page - 1) * pageSize) ((page - 1) * pageSize + pageSize) l) n
  = firstn (n * Z.to_nat pageSize) l.
Proof.
  intros Hs. rewrite <- windows_tile.
  unfold pages_upto. f_equal. apply map_ext_in. intros i Hi. apply in_seq in Hi.
  rewrite slice_window by lia. do 2 f_equal. nia.
Qed.

Lemma limit_offset_window {A} (page pageSize : Z) (l : list A) :
  1 <= page -> 0 <= pageSize ->
  limit_offset pageSize ((page - 1) * pageSize) l
  = Some (firstn (Z.to_nat pageSize) (skipn (Z.to_nat ((page - 1) * pageSize)) l)).
Proof.
  intros Hp Hs. unfold limit_offset.
  destruct (Z.ltb_spec pageSize 0); [lia|].
  destruct (Z.ltb_spec ((page - 1) * pageSize) 0); [nia|]. reflexivity.
Qed.

(** *** The stable sort *)

Lemma insert_by_perm {A} (c : A -> A -> Z) x l : Permutation (insert_by c x l) (x :: l).
Proof.
  induction l as [|y l IH]; simpl; [reflexivity|].
  destruct (Z.leb (c x y) 0); [reflexivity|].
  rewrite IH. apply perm_swap.
Qed.

Lemma sort_perm {A} (c : A -> A -> Z) l : Permutation (sort_by c l) l.
Proof.
  induction l as [|x l IH]; simpl; [reflexivity|].
  rewrite insert_by_perm. constructor. exact IH.
Qed.

Lemma sort_length {A} (c : A -> A -> Z) l : List.length (sort_by c l) = List.length l.
Proof. apply Permutation_length, sort_perm. Qed.

Section Descending.
Context {A : Type} (key : A -> Z).

Lemma insert_by_sorted x l :
  descending key l -> descending key (insert_by (fun a b => key b - key a) x l).
Proof.
  unfold descending. induction 1 as [|y l Hl IH Hy]; simpl.
  - repeat constructor.
  - destruct (Z.leb_spec (key y - key x) 0) as [Hc|Hc].
    + constructor; [constructor; assumption|].
      constructor; [lia|].
      eapply Forall_impl; [|exact Hy]. cbv beta. intros; lia.
    + constructor; [exact IH|].
      eapply Permutation_Forall; [symmetry; apply insert_by_perm|].
      constructor; [lia | exact Hy].
Qed.

Lemma sort_sorted l : descending key (sort_by (fun a b => key b - key a) l).
Proof.
  induction l as [|x l IH]; simpl; [constructor | apply insert_by_sorted, IH].
Qed.
End Descending.



End Listing.

Module Listing2.
Import Listing.

Lemma db_history_filter w db :
  filter (fun h => opt_string_eqb (Some w) (ph_walletAddress h)) (Db.pointsHistory db)
  = DbSpec.history_of w db.
Proof.
  unfold DbSpec.history_of. apply filter_ext. intros h. simpl. apply String.eqb_sym.
Qed.

Lemma truthy_some w : w <> "" -> truthy (Some w) = true.
Proof. intros H. simpl. destruct (String.eqb_spec w ""); [contradiction | reflexivity]. Qed.

Lemma db_getPointsHistory_run orderBy w page pageSize db :
  w <> "" -> 1 <= page -> 0 <= pageSize ->
  Db.getPointsHistory orderBy (Some w) page pageSize db
  = (Some (mkPage (firstn (Z.to_nat pageSize)
                     (skipn (Z.to_nat ((page - 1) * pageSize))
                            (orderBy (DbSpec.history_of w db))))
                  (Z.of_nat (List.length (DbSpec.history_of w db)))), db).
Proof.
  intros Hw Hp Hs. unfold Db.getPointsHistory. rewrite (truthy_some w Hw).
  cbv zeta. unfold bind, gets, ret. rewrite db_history_filter.
  rewrite limit_offset_window by assumption. cbv beta iota.
  rewrite db_history_filter. reflexivity.
Qed.

(** With pairwise distinct keys there is one newest-first arrangement. *)
Lemma descending_unique {A} (key : A -> Z) (l1 : list A) : forall l2,
  Permutation l1 l2 -> descending key l1 -> descending key l2 ->
  NoDup (map key l2) -> l1 = l2.
Proof.
  unfold descending. induction l1 as [|a l1 IH]; intros l2 Hp H1 H2 Hnd.
  - apply Permutation_nil in Hp. symmetry. exact Hp.
  - destruct l2 as [|b l2]; [apply Permutation_sym, Permutation_nil in Hp; discriminate|].
    inversion H1 as [|? ? Hs1 Hf1]; subst. inversion H2 as [|? ? Hs2 Hf2]; subst.
    assert (Hab : a = b).
    { assert (Ha : In a (b :: l2)) by (apply (Permutation_in _ Hp); left; reflexivity).
      assert (Hb : In b (a :: l1))
        by (apply (Permutation_in _ (Permutation_sym Hp)); left; reflexivity).
      destruct Ha as [Ha|Ha]; [symmetry; exact Ha|].
      destruct Hb as [Hb|Hb]; [exact Hb|].
      pose proof (proj1 (Forall_forall _ _) Hf1 b Hb) as K1.
      pose proof (proj1 (Forall_forall _ _) Hf2 a Ha) as K2.
      cbv beta in K1, K2. assert (Hk : key a = key b) by lia.
      inversion Hnd as [|? ? Hnotin _]; subst. exfalso. apply Hnotin.
      rewrite <- Hk. apply in_map. exact Ha. }
    subst b. f_equal. apply IH.
    + apply (Permutation_cons_inv Hp).
    + exact Hs1.
    + exact Hs2.
    + inversion Hnd; assumption.
Qed.

Lemma window_length {A} (n k : nat) (l : list A) :
  (List.length (firstn n (skipn k l)) <= n)%nat.
Proof. rewrite length_firstn. apply Nat.le_min_l. Qed.

End Listing2.

(** X4. [getPointsHistory] of the persistent store, for a wallet and a
    page size of at least one, whatever arrangement of equal-time rows the
    engine's ORDER BY picks for each query.  Every page from 1 on is
    answered without a write: it is the window of [pageSize] rows, from
    rank (page - 1) * pageSize on, of an arrangement of exactly the
    wallet's history rows by [createdAt], newest first, and reports the
    wallet's row count as total.  When the wallet's rows have pairwise
    distinct times, or the engine arranges them the same way for every
    page, the pages 1 .. n, one after the other, are the first
    n * pageSize rows of one such arrangement: none skipped, none repeated. *)
Theorem db_history_pages (orderBy : Z -> list PointsHistory -> list PointsHistory)
    (w : string) (pageSize : Z) (n : nat) (db : Db.Store) :
  (forall page, DbProps.orders_desc ph_createdAt (orderBy page)) ->
  w <> "" -> 0 < pageSize ->
  let hist := DbSpec.history_of w db in
  let query := fun page => Db.getPointsHistory (orderBy page) (Some w) page pageSize db in
  (forall page, 1 <= page ->
     exists ordered,
       Permutation ordered hist
       /\ descending ph_createdAt ordered
       /\ query page
          = (Some (mkPage (firstn (Z.to_nat pageSize)
                             (skipn (Z.to_nat ((page - 1) * pageSize)) ordered))
                          (Z.of_nat (List.length hist))), db)
       /\ Z.of_nat (List.length (page_rows (fst (query page)))) <= pageSize)
  /\ (NoDup (map ph_createdAt hist) \/ (forall page, orderBy page hist = orderBy 1 hist) ->
      exists ordered,
        Permutation ordered hist
        /\ descending ph_createdAt ordered
        /\ pages_upto (fun page => page_rows (fst (query page))) n
           = firstn (n * Z.to_nat pageSize) ordered).
Proof.
  intros Ho Hw Hs hist query. split.
  - intros page Hp. exists (orderBy page hist).
    split; [apply Ho|]. split; [apply Ho|].
    assert (E : query page
                = (Some (mkPage (firstn (Z.to_nat pageSize)
                                   (skipn (Z.to_nat ((page - 1) * pageSize))
                                          (orderBy page hist)))
                                (Z.of_nat (List.length hist))), db))
      by (apply Listing2.db_getPointsHistory_run; [exact Hw | lia | lia]).
    split; [exact E|]. rewrite E. cbn [fst page_rows rows].
    pose proof (Listing2.window_length (Z.to_nat pageSize)
                  (Z.to_nat ((page - 1) * pageSize)) (orderBy page hist)). lia.
  - intros Hsame.
    assert (Hall : forall page, orderBy page hist = orderBy 1 hist).
    { destruct Hsame as [Hnd|Hsame]; [|exact Hsame].
      intros page. apply (Listing2.descending_unique ph_createdAt).
      - eapply Permutation_trans; [apply Ho | apply Permutation_sym, Ho].
      - apply Ho.
      - apply Ho.
      - revert Hnd. apply Permutation_NoDup, Permutation_map, Permutation_sym, Ho. }
    exists (orderBy 1 hist). split; [apply Ho|]. split; [apply Ho|].
    rewrite <- Listing.windows_tile. unfold pages_upto. f_equal.
    apply map_ext_in. intros i Hi. apply in_seq in Hi. subst query. cbv beta.
    rewrite Listing2.db_getPointsHistory_run; [|exact Hw | lia | lia].
    cbn [fst page_rows rows]. fold hist. rewrite Hall.
    do 2 f_equal. nia.
Qed.

Lemma db_history_pages_witness :
  let db := Db.run Scenario.db_happy_path Db.empty in
  let newest_first := sort_by (fun a b : PointsHistory => ph_createdAt b - ph_createdAt a) in
  exists ordered,
    Permutation ordered (DbSpec.history_of "0xb" db)
    /\ descending ph_createdAt ordered
    /\ pages_upto (fun page => page_rows (fst (Db.getPointsHistory newest_first
                                                 (Some "0xb") page 2 db))) 2
       = firstn 4 ordered.
Proof.
  intros db newest_first.
  refine (proj2 (db_history_pages (fun _ => newest_first) "0xb" 2 2 db _ _ _) _).
  - intros page l. split; [apply Listing.sort_perm | apply Listing.sort_sorted].
  - discriminate.
  - lia.
  - right. intros page. reflexivity.
Defined.

(** X5. The [rewards.getHistory] procedure of routers.ts hands its [limit]
    to [getPointsHistory] as the page number: whatever the limit, it
    answers at most 20 rows, those from rank 20 * (limit - 1) on of the
    wallet's history as the engine arranges it by [createdAt], newest
    first, and none at all for a wallet with at most 20 * (limit - 1) rows
    (980 for the default limit 50). *)
Theorem router_getHistory_window (orderBy : list PointsHistory -> list PointsHistory)
    (w : string) (limit : Z) (db : Db.Store) :
  DbProps.orders_desc ph_createdAt orderBy -> w <> "" -> 1 <= limit ->
  exists pg ordered,
    Routers.getHistory orderBy w limit db = (Some pg, db)
    /\ Permutation ordered (DbSpec.history_of w db)
    /\ descending ph_createdAt ordered
    /\ total pg = Z.of_nat (List.length (DbSpec.history_of w db))
    /\ rows pg = firstn 20 (skipn (20 * Z.to_nat (limit - 1)) ordered)
    /\ Z.of_nat (List.length (rows pg)) <= 20
    /\ (total pg <= 20 * (limit - 1) -> rows pg = []).
Proof.
  intros Ho Hw Hl. eexists. exists (orderBy (DbSpec.history_of w db)). split.
  { unfold Routers.getHistory. apply Listing2.db_getPointsHistory_run; [exact Hw | lia | lia]. }
  split; [apply Ho|]. split; [apply Ho|].
  cbn [rows total]. split; [reflexivity|].
  replace (Z.to_nat ((limit - 1) * 20)) with (20 * Z.to_nat (limit - 1))%nat by lia.
  split; [reflexivity|]. split.
  - pose proof (Listing2.window_length 20 (20 * Z.to_nat (limit - 1))
                  (orderBy (DbSpec.history_of w db))). 
    change (Z.to_nat 20) with 20%nat. lia.
  - intros Ht. rewrite skipn_all2; [reflexivity|].
    rewrite (Permutation_length (proj1 (Ho (DbSpec.history_of w db)))). lia.
Qed.

Lemma router_getHistory_window_witness :
  let db := Db.run Scenario.db_happy_path Db.empty in
  let newest_first := sort_by (fun a b : PointsHistory => ph_createdAt b - ph_createdAt a) in
  exists pg,
    Routers.getHistory newest_first "0xb" 50 db = (Some pg, db)
    /\ total pg = 4 /\ rows pg = [].
Proof.
  intros db newest_first.
  destruct (router_getHistory_window newest_first "0xb" 50 db
              ltac:(intros l; split; [apply Listing.sort_perm | apply Listing.sort_sorted])
              ltac:(discriminate) ltac:(lia))
    as [pg [ordered [E [_ [_ [Ht [_ [_ Hempty]]]]]]]].
  exists pg. split; [exact E|].
  assert (Ht' : total pg = 4) by (rewrite Ht; vm_compute; reflexivity).
  split; [exact Ht' | apply Hempty; rewrite Ht'; lia].
Defined.

Module Listing3.
Import Listing Listing2.

Lemma sorted_app_inv {A} (R : A -> A -> Prop) (l1 l2 : list A) :
  StronglySorted R (l1 ++ l2) -> forall x y, In x l1 -> In y l2 -> R x y.
Proof.
  induction l1 as [|a l1 IH]; simpl; intros H x y Hx Hy; [contradiction|].
  inversion H as [|? ? Hs Hf]; subst. destruct Hx as [<-|Hx].
  - apply (proj1 (Forall_forall _ _) Hf). apply in_or_app. right. exact Hy.
  - apply IH; assumption.
Qed.

Lemma sorted_app_l {A} (R : A -> A -> Prop) (l1 l2 : list A) :
  StronglySorted R (l1 ++ l2) -> StronglySorted R l1.
Proof.
  induction l1 as [|a l1 IH]; simpl; intros H; [constructor|].
  inversion H as [|? ? Hs Hf]; subst. constructor; [apply IH, Hs|].
  apply Forall_app in Hf. apply Hf.
Qed.

Lemma slice_prefix {A} (limit : Z) (l : list A) :
  0 <= limit -> slice 0 limit l = firstn (Z.to_nat limit) l.
Proof.
  intros H. replace (slice 0 limit l)
    with (slice ((1 - 1) * limit) ((1 - 1) * limit + limit) l) by (f_equal; lia).
  rewrite slice_window by lia. replace (Z.to_nat ((1 - 1) * limit)) with 0%nat by lia.
  reflexivity.
Qed.

Lemma map_index_length {A B} (f : A -> Z -> B) i l :
  List.length (map_index f i l) = List.length l.
Proof. revert i. induction l; intros i; simpl; [reflexivity | rewrite IHl; reflexivity]. Qed.

Lemma map_index_map {A B C} (f : A -> Z -> B) (g : B -> C) (h : A -> C) i l :
  (forall a k, g (f a k) = h a) -> map g (map_index f i l) = map h l.
Proof.
  intros H. revert i. induction l; intros i; simpl; [reflexivity|].
  rewrite H, IHl. reflexivity.
Qed.

Lemma map_index_rank {A B} (f : A -> Z -> B) (g : B -> Z) (i : nat) l :
  (forall a k, g (f a k) = k + 1) ->
  map g (map_index f (Z.of_nat i) l) = map Z.of_nat (seq (S i) (List.length l)).
Proof.
  intros H. revert i. induction l; intros i; simpl; [reflexivity|].
  rewrite H. f_equal; [lia|].
  replace (Z.of_nat i + 1) with (Z.of_nat (S i)) by lia. apply IHl.
Qed.

Lemma descending_map {A B} (f : A -> B) (kb : B -> Z) (ka : A -> Z) l :
  (forall a, kb (f a) = ka a) -> descending ka l -> descending kb (map f l).
Proof.
  intros H. unfold descending. induction 1 as [|x l Hl IH Hx]; simpl; constructor.
  - exact IH.
  - apply Forall_map. eapply Forall_impl; [|exact Hx]. intros a Ha. rewrite !H. exact Ha.
Qed.

End Listing3.

(** X6. [getPointsHistory] of the in-memory store, for a wallet: the pages
    are cut out of one arrangement of exactly the wallet's rows (addresses
    compared without case), ordered by [createdAt], newest first; page
    [page] holds the rows from rank (page - 1) * pageSize on, and the pages
    1 .. n together are the first n * pageSize rows of that arrangement. *)
Theorem mock_history_listing (w : string) (pageSize : Z) (db : Mock.Store) :
  w <> "" -> 0 < pageSize ->
  exists ordered,
    Permutation ordered (MockProps.history_of w db)
    /\ descending ph_createdAt ordered
    /\ (forall page, 1 <= page ->
          Mock.getPointsHistory (Some w) page pageSize db
          = (mkPage (firstn (Z.to_nat pageSize)
                       (skipn (Z.to_nat ((page - 1) * pageSize)) ordered))
                    (Z.of_nat (List.length (MockProps.history_of w db))), db))
    /\ (forall n,
          pages_upto (fun page => rows (fst (Mock.getPointsHistory (Some w) page pageSize db))) n
          = firstn (n * Z.to_nat pageSize) ordered).
Proof.
  intros Hw Hs.
  exists (sort_by (fun a b => ph_createdAt b - ph_createdAt a) (MockProps.history_of w db)).
  split; [apply Listing.sort_perm|].
  split; [apply Listing.sort_sorted|].
  assert (Hrun : forall page,
    Mock.getPointsHistory (Some w) page pageSize db
    = (mkPage (slice ((page - 1) * pageSize) ((page - 1) * pageSize + pageSize)
                 (sort_by (fun a b => ph_createdAt b - ph_createdAt a)
                    (MockProps.history_of w db)))
              (Z.of_nat (List.length (MockProps.history_of w db))), db)).
  { intros page. unfold Mock.getPointsHistory. cbv zeta. unfold bind, gets, ret.
    rewrite (Listing2.truthy_some w Hw). unfold or_else.
    rewrite (Listing2.truthy_some w Hw). rewrite Listing.sort_length. reflexivity. }
  split.
  - intros page Hp. rewrite Hrun, Listing.slice_window by lia. reflexivity.
  - intros n. rewrite <- Listing.slice_pages_tile by exact Hs.
    apply Listing.pages_upto_ext. intros i Hi. rewrite Hrun. reflexivity.
Qed.

Lemma mock_history_listing_witness :
  let db := Mock.run Scenario.mock_happy_path Mock.empty in
  exists ordered,
    Permutation ordered (MockProps.history_of "0xB" db)
    /\ descending ph_createdAt ordered
    /\ rows (fst (Mock.getPointsHistory (Some "0xB") 1 2 db)) = firstn 2 ordered.
Proof.
  intros db.
  destruct (mock_history_listing "0xB" 2 db ltac:(discriminate) ltac:(lia))
    as [ordered [Hp [Hd [Hpage _]]]].
  exists ordered. split; [exact Hp|]. split; [exact Hd|].
  rewrite (Hpage 1 ltac:(lia)). reflexivity.
Defined.

(** X7. The two admin listings of the in-memory store: the pages 1 .. n of
    [getAllReferrals] are the first n * pageSize referrals in insertion
    order; those of [getAllWalletProfiles] are the first n * pageSize
    profiles of the arrangement by [createdAt], newest first; both report
    the full count as total on every page. *)
Theorem mock_listings_tile (pageSize : Z) (n : nat) (db : Mock.Store) :
  0 < pageSize ->
  pages_upto (fun page => rows (fst (Mock.getAllReferrals page pageSize db))) n
  = firstn (n * Z.to_nat pageSize) (Mock.referrals db)
  /\ (exists ordered,
        Permutation ordered (Mock.profiles_values db)
        /\ descending wp_createdAt ordered
        /\ pages_upto (fun page => rows (fst (Mock.getAllWalletProfiles page pageSize db))) n
           = firstn (n * Z.to_nat pageSize) ordered)
  /\ (forall page,
        total (fst (Mock.getAllReferrals page pageSize db))
        = Z.of_nat (List.length (Mock.referrals db))
        /\ total (fst (Mock.getAllWalletProfiles page pageSize db))
           = Z.of_nat (List.length (Mock.profiles db))).
Proof.
  intros Hs. split; [|split].
  - rewrite <- Listing.slice_pages_tile by exact Hs. reflexivity.
  - exists (sort_by (fun a b => wp_createdAt b - wp_createdAt a) (Mock.profiles_values db)).
    split; [apply Listing.sort_perm|]. split; [apply Listing.sort_sorted|].
    rewrite <- Listing.slice_pages_tile by exact Hs. reflexivity.
  - intros page. split; [reflexivity|].
    unfold Mock.getAllWalletProfiles. cbv zeta. unfold bind, gets, ret. cbn [fst total].
    rewrite Listing.sort_length. unfold Mock.profiles_values. rewrite length_map. reflexivity.
Qed.

Lemma mock_listings_tile_witness :
  let db := Mock.run Scenario.mock_two_referred Mock.empty in
  pages_upto (fun page => rows (fst (Mock.getAllReferrals page 1 db))) 2
  = firstn 2 (Mock.referrals db).
Proof.
  intros db. exact (proj1 (mock_listings_tile 1 2 db ltac:(lia))).
Defined.

(** X8. [getReferralLeaderboard] of the in-memory store, for a limit of at
    least zero: the board lists, in order, the [limit] profiles with the
    most referrals among those with at least one (fewer if there are
    fewer): no profile left out has more referrals than a listed one;
    ranks count from 1 without gaps, the counts never increase down the
    board, and every entry carries the tier of its count. *)
Theorem mock_leaderboard (limit : Z) (db : Mock.Store) :
  0 <= limit ->
  let board := fst (Mock.getReferralLeaderboard limit db) in
  exists listed rest,
    Permutation (listed ++ rest)
      (filter (fun p => Z.ltb 0 (wp_referralCount p)) (Mock.profiles_values db))
    /\ (forall p r, In p listed -> In r rest -> wp_referralCount r <= wp_referralCount p)
    /\ List.length listed = Nat.min (Z.to_nat limit) (List.length (listed ++ rest))
    /\ map Mock.lb_walletAddress board = map wp_walletAddress listed
    /\ map Mock.lb_referralCount board = map wp_referralCount listed
    /\ map Mock.rank board = map Z.of_nat (seq 1 (List.length listed))
    /\ descending Mock.lb_referralCount board
    /\ Forall (fun e => 1 <= Mock.lb_referralCount e
                        /\ Mock.lb_tier e = Db.getReferralTier (Mock.lb_referralCount e))
              board.
Proof.
  intros Hl board.
  set (positive := filter (fun p => Z.ltb 0 (wp_referralCount p)) (Mock.profiles_values db)).
  set (sorted := sort_by (fun a b => wp_referralCount b - wp_referralCount a) positive).
  assert (Hboard : board = map_index
    (fun entry index =>
       {| Mock.lb_walletAddress := wp_walletAddress entry;
          Mock.lb_referralCount := wp_referralCount entry;
          Mock.lb_referralPointsEarned := wp_referralPointsEarned entry;
          Mock.rank := index + 1;
          Mock.lb_tier := Db.getReferralTier (wp_referralCount entry) |})
    0 (firstn (Z.to_nat limit) sorted)).
  { subst board sorted positive. unfold Mock.getReferralLeaderboard, gets. cbn [fst].
    rewrite Listing3.slice_prefix by exact Hl. reflexivity. }
  assert (Hsorted : StronglySorted (fun a b => wp_referralCount b <= wp_referralCount a) sorted)
    by apply (Listing.sort_sorted wp_referralCount).
  exists (firstn (Z.to_nat limit) sorted), (skipn (Z.to_nat limit) sorted).
  rewrite firstn_skipn.
  split; [apply Listing.sort_perm|].
  split.
  { intros p r Hp Hr. rewrite <- (firstn_skipn (Z.to_nat limit) sorted) in Hsorted.
    apply (Listing3.sorted_app_inv _ _ _ Hsorted p r Hp Hr). }
  split; [apply length_firstn|].
  rewrite Hboard.
  split; [apply Listing3.map_index_map; reflexivity|].
  split; [apply Listing3.map_index_map; reflexivity|].
  split; [apply (Listing3.map_index_rank _ _ 0); reflexivity|].
  assert (Hfirst : StronglySorted (fun a b => wp_referralCount b <= wp_referralCount a)
                     (firstn (Z.to_nat limit) sorted)).
  { rewrite <- (firstn_skipn (Z.to_nat limit) sorted) in Hsorted.
    apply (Listing3.sorted_app_l _ _ _ Hsorted). }
  assert (Hpos : Forall (fun p => 1 <= wp_referralCount p) (firstn (Z.to_nat limit) sorted)).
  { apply Forall_forall. intros p Hp.
    assert (Hin : In p positive).
    { apply (Permutation_in _ (Listing.sort_perm
               (fun a b => wp_referralCount b - wp_referralCount a) positive)).
      fold sorted.
      rewrite <- (firstn_skipn (Z.to_nat limit) sorted). apply in_or_app. left. exact Hp. }
    apply filter_In in Hin as [_ Hin]. apply Z.ltb_lt in Hin. lia. }
  clear Hboard. revert Hfirst Hpos. generalize (firstn (Z.to_nat limit) sorted). 
  intros l. generalize 0. induction l as [|p l IH]; intros i Hs Hp; simpl.
  - split; constructor.
  - inversion Hs as [|? ? Hs' Hf]; subst. inversion Hp as [|? ? Hp1 Hp']; subst.
    destruct (IH (i + 1) Hs' Hp') as [IH1 IH2]. split.
    + constructor; [exact IH1|].
      apply Forall_forall. intros e He.
      assert (Hc : In (Mock.lb_referralCount e) (map wp_referralCount l)).
      { erewrite <- (Listing3.map_index_map _ Mock.lb_referralCount wp_referralCount);
          [apply in_map, He | reflexivity]. }
      apply in_map_iff in Hc as [q [Hq Hin]]. cbn [Mock.lb_referralCount]. rewrite <- Hq.
      apply (proj1 (Forall_forall _ _) Hf q Hin).
    + constructor; [|exact IH2]. cbn. split; [exact Hp1 | reflexivity].
Qed.

Lemma mock_leaderboard_witness :
  map Mock.rank
    (fst (Mock.getReferralLeaderboard 10 (Mock.run Scenario.mock_two_referred Mock.empty)))
  = [1]
  /\ descending Mock.lb_referralCount
       (fst (Mock.getReferralLeaderboard 10
               (Mock.run Scenario.mock_two_referred Mock.empty))).
Proof.
  destruct (mock_leaderboard 10 (Mock.run Scenario.mock_two_referred Mock.empty)
              ltac:(lia))
    as [listed [rest [_ [_ [_ [_ [_ [_ [Hd _]]]]]]]]].
  split; [vm_compute; reflexivity | exact Hd].
Defined.

(** ** Points in circulation *)

Module Conservation.

Lemma map_address_update w f (l : list WalletProfile) :
  keeps_address f ->
  map wp_walletAddress (map (fun p => if Db.walletAddress_is w p then f p else p) l)
  = map wp_walletAddress l.
Proof.
  intros Ha. rewrite map_map. apply map_ext. intros p.
  destruct (Db.walletAddress_is w p); [apply Ha | reflexivity].
Qed.

Lemma sum_update w f (l : list WalletProfile) :
  keeps_total f ->
  fold_right (fun p sum => wp_totalPoints p + sum) 0
    (map (fun p => if Db.walletAddress_is w p then f p else p) l)
  = fold_right (fun p sum => wp_totalPoints p + sum) 0 l.
Proof.
  intros Ht. induction l as [|p l IH]; simpl; [reflexivity|].
  rewrite IH. destruct (Db.walletAddress_is w p); [rewrite Ht|]; reflexivity.
Qed.

Lemma find_none_not_in w (l : list WalletProfile) :
  find (Db.walletAddress_is w) l = None -> ~ In w (map wp_walletAddress l).
Proof.
  intros H Hin. apply in_map_iff in Hin as [p [Hp Hin]].
  apply (find_none _ _ H) in Hin. unfold Db.walletAddress_is in Hin.
  rewrite Hp, String.eqb_refl in Hin. discriminate.
Qed.

Lemma sum_set_total w v (l : list WalletProfile) p now :
  NoDup (map wp_walletAddress l) ->
  find (Db.walletAddress_is w) l = Some p ->
  fold_right (fun p sum => wp_totalPoints p + sum) 0
    (map (fun q => if Db.walletAddress_is w q
                   then set_updatedAt now (set_totalPoints v q) else q) l)
  = fold_right (fun p sum => wp_totalPoints p + sum) 0 l - wp_totalPoints p + v.
Proof.
  induction l as [|a l IH]; simpl; [discriminate|].
  intros Hnd Hf. inversion Hnd as [|? ? Hnotin Hnd']; subst.
  destruct (Db.walletAddress_is w a) eqn:E.
  - injection Hf as ->. cbn [wp_totalPoints set_updatedAt set_totalPoints].
    assert (Hrest : map (fun q => if Db.walletAddress_is w q
                                  then set_updatedAt now (set_totalPoints v q) else q) l = l).
    { rewrite <- (map_id l) at 2. apply map_ext_in. intros q Hq.
      destruct (Db.walletAddress_is w q) eqn:Eq; [|reflexivity].
      exfalso. apply Hnotin. unfold Db.walletAddress_is in *.
      apply String.eqb_eq in E, Eq. rewrite E, <- Eq. apply in_map, Hq. }
    rewrite Hrest. lia.
  - rewrite (IH Hnd' Hf). lia.
Qed.

Lemma db_conserved_run ops : DbProps.conserved (Db.run ops Db.empty).
Proof.
  apply DbFacts.invariant_run.
  - intros w f db Ha Ht [Hu Hs]. split.
    + unfold DbProps.unique_wallets. cbn. rewrite map_address_update by exact Ha. exact Hu.
    + unfold DbProps.points_held. cbn. rewrite sum_update by exact Ht. exact Hs.
  - intros now w pts ty d db [Hu Hs].
    destruct (Db.select_walletProfile w db) as [p|] eqn:E.
    + rewrite (DbFacts.addPoints_known _ _ _ _ _ _ _ E). split.
      * unfold DbProps.unique_wallets. cbn.
        rewrite map_address_update by (intro; reflexivity). exact Hu.
      * unfold DbProps.points_held. cbn [snd Db.walletProfiles Db.pointsHistory].
        rewrite (sum_set_total _ _ _ p) by assumption.
        unfold DbProps.points_held in Hs. rewrite Hs. unfold all_changes. cbn. lia.
    + rewrite (DbFacts.addPoints_unknown _ _ _ _ _ _ E). split; assumption.
  - intros p db Hn Hz [Hu Hs]. split.
    + unfold DbProps.unique_wallets. cbn. constructor; [|exact Hu].
      apply find_none_not_in, Hn.
    + unfold DbProps.points_held in *. cbn. rewrite Hs, Hz. reflexivity.
  - intros row db _ H. exact H.
  - intros id now db H. exact H.
  - intros db l H. exact H.
  - split; [constructor | reflexivity].
Qed.

(** In-memory store *)

Lemma sum_mutate_first key f (l : list (string * WalletProfile)) :
  fold_right (fun p sum => wp_totalPoints p + sum) 0
    (map snd (Mock.mutate_first (fun e => String.eqb (fst e) key)
                                (fun e => (fst e, f (snd e))) l))
  = fold_right (fun p sum => wp_totalPoints p + sum) 0 (map snd l)
    + match Mock.entries_get key l with
      | Some p => wp_totalPoints (f p) - wp_totalPoints p
      | None => 0
      end.
Proof.
  unfold Mock.entries_get. induction l as [|[k q] l IH]; simpl; [reflexivity|].
  destruct (String.eqb k key); simpl; [lia|]. rewrite IH. lia.
Qed.

Lemma held_mutate key f db :
  MockProps.points_held (snd (Mock.mutate_profile key f db))
  = MockProps.points_held db
    + match Mock.profiles_get key db with
      | Some p => wp_totalPoints (f p) - wp_totalPoints p
      | None => 0
      end.
Proof. apply sum_mutate_first. Qed.

Lemma all_changes_app l h : all_changes (l ++ [h]) = all_changes l + ph_pointsChange h.
Proof. unfold all_changes. induction l; simpl; lia. Qed.

Lemma held_ensure now w c db :
  MockProps.points_held (snd (Mock.ensureProfile now w c db)) = MockProps.points_held db.
Proof.
  unfold Mock.ensureProfile. rewrite MockFacts.mock_bind_snd. cbn [gets fst snd].
  destruct (Mock.profiles_get (Mock.normalize w) db); [reflexivity|].
  unfold MockProps.points_held, Mock.profiles_values. cbn.
  rewrite map_app, fold_right_app. cbn.
  generalize (map snd (Mock.profiles db)). intros l. induction l; simpl; lia.
Qed.

Lemma mock_conserved_run ops : MockProps.conserved (Mock.run ops Mock.empty).
Proof.
  apply MockFacts.mock_invariant_run.
  - intros key f db Ha Ht H. unfold MockProps.conserved in *. rewrite held_mutate.
    cbn [snd Mock.mutate_profile modify Mock.pointsHistory].
    destruct (Mock.profiles_get key db); [rewrite Ht|]; rewrite H; lia.
  - intros now w c db H. unfold MockProps.conserved in *.
    rewrite held_ensure, MockFacts.ensure_history. exact H.
  - intros now w pts ty d db H. unfold MockProps.conserved in *.
    rewrite MockFacts.addPoints_history, all_changes_app. cbn [ph_pointsChange].
    rewrite MockFacts.addPoints_run. cbv zeta. 
    unfold MockProps.points_held, Mock.profiles_values. cbn [snd Mock.profiles].
    fold (Mock.profiles_values (snd (Mock.touchProfile now (Mock.normalize w)
      (snd (Mock.mutate_profile (Mock.normalize w)
         (set_totalPoints (wp_totalPoints (fst (Mock.ensureProfile now w "evm" db)) + pts))
         (snd (Mock.ensureProfile now w "evm" db))))))).
    fold (MockProps.points_held (snd (Mock.touchProfile now (Mock.normalize w)
      (snd (Mock.mutate_profile (Mock.normalize w)
         (set_totalPoints (wp_totalPoints (fst (Mock.ensureProfile now w "evm" db)) + pts))
         (snd (Mock.ensureProfile now w "evm" db))))))).
    unfold Mock.touchProfile. rewrite !held_mutate, MockFacts.get_mutate, String.eqb_refl.
    rewrite held_ensure, MockFacts.ensure_get, String.eqb_refl. cbn. rewrite H. lia.
  - intros db rs rid H. exact H.
  - intros db t _ H. exact H.
  - intros db id now H. exact H.
  - reflexivity.
Qed.

Lemma fold_left_sum (l : list WalletProfile) (a : Z) :
  fold_left (fun sum p => sum + wp_totalPoints p) l a
  = a + fold_right (fun p sum => wp_totalPoints p + sum) 0 l.
Proof. revert a. induction l as [|p l IH]; intros a; simpl; [lia | rewrite IH; lia]. Qed.

End Conservation.

(** X9. In every store reached from the empty one, the
    [totalPointsDistributed] of [getAdminStats] (the sum of the stored
    balances) equals the sum of the [pointsChange] of all history rows:
    no operation creates or destroys points outside the ledger. *)
Theorem admin_total_is_ledger_total (db_ops : list (Date * Db.Op))
    (mock_ops : list (Date * Mock.Op)) (today : string) :
  Db.totalPointsDistributed (fst (Db.getAdminStats today (Db.run db_ops Db.empty)))
  = all_changes (Db.pointsHistory (Db.run db_ops Db.empty))
  /\ Db.totalPointsDistributed (fst (Mock.getAdminStats today (Mock.run mock_ops Mock.empty)))
     = all_changes (Mock.pointsHistory (Mock.run mock_ops Mock.empty)).
Proof.
  split.
  - apply (proj2 (Conservation.db_conserved_run db_ops)).
  - unfold Mock.getAdminStats, gets. cbn [fst Db.totalPointsDistributed].
    rewrite Conservation.fold_left_sum. rewrite Z.add_0_l.
    apply (Conservation.mock_conserved_run mock_ops).
Qed.

(** ** The users table *)

Module UsersFacts.
Import Users UsersSpec.

Lemma select_user_map w w' (f : User -> User) (users : Table) :
  (forall u, u_walletAddress (f u) = u_walletAddress u) ->
  select_user w (map (fun u => if String.eqb (u_walletAddress u) w' then f u else u) users)
  = if String.eqb w w' then option_map f (select_user w users) else select_user w users.
Proof.
  intros Hf. unfold select_user. induction users as [|a l IH]; simpl.
  - destruct (String.eqb w w'); reflexivity.
  - destruct (String.eqb_spec (u_walletAddress a) w') as [E'|E'].
    + rewrite Hf. destruct (String.eqb_spec (u_walletAddress a) w) as [E|E].
      * subst. rewrite String.eqb_refl. reflexivity.
      * rewrite IH. destruct (String.eqb_spec w w'); [congruence | reflexivity].
    + destruct (String.eqb_spec (u_walletAddress a) w) as [E|E].
      * destruct (String.eqb_spec w w'); [congruence | reflexivity].
      * exact IH.
Qed.

Lemma upsert_lookup now admin w name users w0 :
  w <> "" ->
  exists users',
    upsertUserByWallet now admin w name users = Some users'
    /\ getUserByWallet w0 users'
       = if String.eqb w0 w
         then match getUserByWallet w users with
              | Some old =>
                  Some (mkUser (u_id old) (u_walletAddress old)
                          (if truthy name then name else u_name old)
                          (u_role old) (u_createdAt old) now now)
              | None =>
                  Some (mkUser (Db.next_id users) w (or_null name)
                          (if is_admin_wallet admin w then "admin" else "user")
                          now now now)
              end
         else getUserByWallet w0 users.
Proof.
  intros Hw. unfold upsertUserByWallet, getUserByWallet.
  destruct (String.eqb_spec w ""); [contradiction|].
  destruct (select_user w users) as [old|] eqn:E.
  - eexists. split; [reflexivity|].
    rewrite select_user_map by reflexivity.
    destruct (String.eqb_spec w0 w) as [->|]; [|reflexivity]. rewrite E. reflexivity.
  - eexists. split; [reflexivity|]. unfold select_user at 1. cbn [find u_walletAddress].
    rewrite (String.eqb_sym w w0).
    destruct (String.eqb_spec w0 w) as [->|]; reflexivity.
Qed.

End UsersFacts.

(** X10. [upsertUserByWallet] with a non-empty address always leaves a
    user that [getUserByWallet] finds under that address, signed in at the
    call time; a known user keeps its role and takes the new name only if
    one is given, a new user is an admin exactly when the address equals
    the configured admin wallet without regard to case; no other user is
    touched. *)
Theorem upsert_then_lookup (now : Date) (admin : option string) (w : string)
    (name : option string) (users : Users.Table) :
  w <> "" ->
  exists users' u,
    Users.upsertUserByWallet now admin w name users = Some users'
    /\ Users.getUserByWallet w users' = Some u
    /\ Users.u_walletAddress u = w
    /\ Users.u_lastSignedIn u = now
    /\ Users.u_name u = (if truthy name then name
                         else match Users.getUserByWallet w users with
                              | Some old => Users.u_name old
                              | None => None
                              end)
    /\ Users.u_role u = match Users.getUserByWallet w users with
                        | Some old => Users.u_role old
                        | None => if UsersSpec.is_admin_wallet admin w then "admin" else "user"
                        end
    /\ (forall w', w' <> w ->
          Users.getUserByWallet w' users' = Users.getUserByWallet w' users).
Proof.
  intros Hw.
  destruct (UsersFacts.upsert_lookup now admin w name users w Hw) as [users' [E Hget]].
  rewrite String.eqb_refl in Hget.
  exists users'.
  destruct (Users.getUserByWallet w users) as [old|] eqn:Eold.
  - eexists. split; [exact E|]. split; [exact Hget|]. cbn.
    split. { unfold Users.getUserByWallet, Users.select_user in Eold.
             apply find_some in Eold as [_ Eold]. apply String.eqb_eq, Eold. }
    split; [reflexivity|]. split; [reflexivity|]. split; [reflexivity|].
    intros w' Hne.
    destruct (UsersFacts.upsert_lookup now admin w name users w' Hw) as [users2 [E2 Hget2]].
    rewrite E in E2. injection E2 as <-. rewrite Hget2.
    destruct (String.eqb_spec w' w); [contradiction | reflexivity].
  - eexists. split; [exact E|]. split; [exact Hget|]. cbn.
    split; [reflexivity|]. split; [reflexivity|].
    split. { unfold or_null. destruct (truthy name); reflexivity. }
    split; [reflexivity|].
    intros w' Hne.
    destruct (UsersFacts.upsert_lookup now admin w name users w' Hw) as [users2 [E2 Hget2]].
    rewrite E in E2. injection E2 as <-. rewrite Hget2.
    destruct (String.eqb_spec w' w); [contradiction | reflexivity].
Qed.

(** X11. A user's role, id and creation time are fixed at the first
    sign-in: no later sequence of sign-ins, of whatever wallets and under
    whatever configured admin wallet, changes them. *)
Theorem role_fixed_at_first_sign_in (calls : list UsersSpec.SignIn)
    (users users' : Users.Table) (w : string) (u : Users.User) :
  Users.getUserByWallet w users = Some u ->
  UsersSpec.sign_ins calls users = Some users' ->
  exists u', Users.getUserByWallet w users' = Some u'
             /\ Users.u_role u' = Users.u_role u
             /\ Users.u_id u' = Users.u_id u
             /\ Users.u_createdAt u' = Users.u_createdAt u.
Proof.
  revert users u. induction calls as [|c calls IH]; intros users u Hu Hrun; simpl in Hrun.
  - injection Hrun as <-. exists u. auto.
  - destruct (Users.upsertUserByWallet (UsersSpec.si_now c) (UsersSpec.si_adminWallet c)
                (UsersSpec.si_walletAddress c) (UsersSpec.si_name c) users)
      as [users1|] eqn:E; [|discriminate].
    assert (Hw : UsersSpec.si_walletAddress c <> "").
    { intros Hempty. unfold Users.upsertUserByWallet in E. rewrite Hempty in E.
      discriminate. }
    destruct (UsersFacts.upsert_lookup (UsersSpec.si_now c) (UsersSpec.si_adminWallet c)
                (UsersSpec.si_walletAddress c) (UsersSpec.si_name c) users w Hw)
      as [users2 [E2 Hget]].
    rewrite E in E2. injection E2 as <-.
    destruct (String.eqb_spec w (UsersSpec.si_walletAddress c)) as [Heq|Hne].
    + rewrite <- Heq, Hu in Hget.
      destruct (IH users1 _ Hget Hrun) as [u' [H1 [H2 [H3 H4]]]].
      exists u'. cbn in *. auto.
    + rewrite Hu in Hget. apply (IH users1 u Hget Hrun).
Qed.

Lemma role_fixed_at_first_sign_in_witness :
  exists users' u',
    UsersSpec.sign_ins
      [ UsersSpec.mkSignIn 2 (Some "0xABC") "0xabc" (Some "carol") ]
      [ Users.mkUser 1 "0xabc" None "user" 1 1 1 ] = Some users'
    /\ Users.getUserByWallet "0xabc" users' = Some u'
    /\ Users.u_role u' = "user".
Proof.
  eexists. 
  destruct (role_fixed_at_first_sign_in
              [ UsersSpec.mkSignIn 2 (Some "0xABC") "0xabc" (Some "carol") ]
              [ Users.mkUser 1 "0xabc" None "user" 1 1 1 ] _ "0xabc"
              (Users.mkUser 1 "0xabc" None "user" 1 1 1) eq_refl eq_refl)
    as [u' [H1 [H2 _]]].
  exists u'. split; [reflexivity|]. split; [exact H1 | exact H2].
Defined.

Lemma upsert_then_lookup_witness :
  exists users' u,
    Users.upsertUserByWallet 5 (Some "0xABC") "0xabc" None [] = Some users'
    /\ Users.getUserByWallet "0xabc" users' = Some u
    /\ Users.u_role u = "admin".
Proof.
  destruct (upsert_then_lookup 5 (Some "0xABC") "0xabc" None [] ltac:(discriminate))
    as [users' [u [H1 [H2 [_ [_ [_ [H3 _]]]]]]]].
  exists users', u. split; [exact H1|]. split; [exact H2 | exact H3].
Defined.

(** ** Walking the operations of the persistent store *)

Module Walk.
Import Db DbSpec DbFacts.

(** Walking a computation of the persistent store, [prim] settling the
    statements and the functions for which a fact is at hand. *)
Ltac walk prim :=
  repeat match goal with
    | |- preserves _ (ret _) => apply preserves_ret
    | |- preserves _ (gets _) => apply preserves_gets
    | |- preserves _ (getOriginalBonusPoints _ _ _) => apply preserves_getOriginalBonusPoints
    | |- preserves _ (hasCompletedTask _ _ _) => apply preserves_hasCompletedTask
    | |- preserves _ (getActiveTweetCompletions _) => apply preserves_getActiveTweetCompletions
    | |- preserves _ (match ?x with _ => _ end) => destruct x
    | |- preserves _ (let _ := _ in _) => cbv zeta
    | |- preserves _ ((fun _ => _) _) => cbv beta
    | |- preserves _ ((fun _ _ => _) _ _) => cbv beta
    | |- forall _, _ => intro
    | |- preserves _ _ => prim
    | |- preserves _ (bind _ _) => apply preserves_bind
    | |- preserves _ (for_each _ _ _) => apply preserves_for_each
    | |- preserves _ _ =>
        progress unfold getWalletProfile, claimReferralBonus, maybeClaimReferralBonus,
          maybeGenerateReferralCode, revokeTweetPoints, membership_sweep_body
    end.

Ltac keeps := intro; reflexivity.

Section Column.
Context {T : Type} (proj : WalletProfile -> T).
Hypothesis kept_total : forall v p, proj (set_totalPoints v p) = proj p.
Hypothesis kept_updatedAt : forall v p, proj (set_updatedAt v p) = proj p.
Variable w : string.
Variable c : option T.

Let I : Store -> Prop := fun db => DbProps.column proj w db = c.

Lemma column_update w' f :
  keeps_address f -> (forall p, proj (f p) = proj p) ->
  preserves I (update_walletProfiles w' f).
Proof.
  intros Ha Hk db H. unfold I, DbProps.column in *. rewrite select_update by exact Ha.
  rewrite <- H. destruct (String.eqb w w'); [|reflexivity].
  destruct (select_walletProfile w db); simpl; [rewrite Hk|]; reflexivity.
Qed.

Lemma column_update_other w' f :
  w <> w' -> keeps_address f -> preserves I (update_walletProfiles w' f).
Proof.
  intros Hne Ha db H. unfold I, DbProps.column in *. rewrite select_update by exact Ha.
  destruct (String.eqb_spec w w'); [contradiction | exact H].
Qed.

Lemma column_addPoints now w' pts ty d : preserves I (addPoints now w' pts ty d).
Proof.
  intros db H. unfold I, DbProps.column in *. rewrite addPoints_select, <- H.
  destruct (String.eqb w w'); [|reflexivity].
  destruct (select_walletProfile w db); simpl; [|reflexivity].
  rewrite kept_updatedAt, kept_total. reflexivity.
Qed.

Lemma column_tasks (f : Store -> list TaskCompletion) :
  preserves I (modify (fun db => mkStore (walletProfiles db) (f db)
                                         (pointsHistory db) (referrals db))).
Proof. intros db H. exact H. Qed.

Lemma column_referrals (f : Store -> list Referral) :
  preserves I (modify (fun db => mkStore (walletProfiles db) (taskCompletions db)
                                         (pointsHistory db) (f db))).
Proof. intros db H. exact H. Qed.

Lemma column_completeTask now w' ty pts meta date :
  preserves I (completeTask now w' ty pts meta date).
Proof.
  unfold completeTask. apply preserves_bind; [apply column_tasks | intros; apply preserves_ret].
Qed.

Lemma column_insert_other p :
  wp_walletAddress p <> w -> preserves I (insert_walletProfile p).
Proof.
  intros Hne db H. unfold I, DbProps.column, select_walletProfile in *. cbn.
  unfold walletAddress_is at 1.
  destruct (String.eqb_spec (wp_walletAddress p) w); [contradiction | exact H].
Qed.
End Column.

(** The statements that a column that [set] does not write lives through. *)
Ltac column_prim kt ku :=
  idtac;
  match goal with
  | |- preserves _ (addPoints _ _ _ _ _) => apply (column_addPoints _ kt ku)
  | |- preserves _ (update_walletProfiles _ _) => apply column_update; [keeps | keeps]
  | |- preserves _ (update_taskCompletions _ _) => apply column_tasks
  | |- preserves _ (completeTask _ _ _ _ _ _) => apply column_completeTask
  | |- preserves _ (insert_referral _) => apply column_referrals
  | |- preserves _ (update_referrals _ _) => apply column_referrals
  end.

End Walk.


(** ** Discord through the router *)

Module RouterFacts.
Import Db DbSpec DbFacts Walk.

Lemma discordId_after_connect now n w u db :
  success (fst (Routers.connectDiscord now n w u db)) = true ->
  DbProps.column wp_discordId w (snd (Routers.connectDiscord now n w u db)) = Some None.
Proof.
  unfold Routers.connectDiscord, connectDiscordAccount, getWalletProfile.
  rewrite bind_fst, bind_snd. cbn [gets fst snd].
  destruct (select_walletProfile w db) as [p|] eqn:E; [|discriminate].
  destruct (wp_discordConnected p); [discriminate|]. intros _.
  cbv zeta. rewrite bind_snd.
  apply (preserves_run (fun db => DbProps.column wp_discordId w db = Some None)).
  - walk ltac:(column_prim (fun (v : Z) (p : WalletProfile) => eq_refl (wp_discordId p))
                           (fun (v : Date) (p : WalletProfile) => eq_refl (wp_discordId p))).
  - unfold DbProps.column. rewrite select_update by keeps.
    rewrite String.eqb_refl, E. reflexivity.
Qed.

End RouterFacts.

(** X12. A Discord account connected through the [rewards.connectDiscord]
    procedure of routers.ts is stored without a Discord id, and
    [verifyDiscordServer] on that wallet then fails and writes nothing,
    whatever the Discord API would answer. *)
Theorem router_connect_cannot_verify (now : Date) (n w u : string) (db : Db.Store)
    (now' : Date) (n' : string) (configured : bool) (api : string -> FetchResult) :
  success (fst (Routers.connectDiscord now n w u db)) = true ->
  let db1 := snd (Routers.connectDiscord now n w u db) in
  DbProps.column wp_discordId w db1 = Some None
  /\ Db.vr_success (fst (Db.verifyDiscordServer now' n' configured api w db1)) = false
  /\ snd (Db.verifyDiscordServer now' n' configured api w db1) = db1.
Proof.
  intros Hs db1. pose proof (RouterFacts.discordId_after_connect now n w u db Hs) as Hid.
  fold db1 in Hid. split; [exact Hid|].
  unfold DbProps.column in Hid.
  unfold Db.verifyDiscordServer, Db.getWalletProfile.
  destruct configured; cbn [negb]; [|split; reflexivity].
  rewrite DbFacts.bind_fst, DbFacts.bind_snd. cbn [gets fst snd].
  destruct (Db.select_walletProfile w db1) as [p|]; [|split; reflexivity].
  injection Hid as Hid.
  destruct (wp_discordConnected p); cbn [negb]; [|split; reflexivity].
  destruct (wp_discordVerified p); [split; reflexivity|].
  rewrite Hid. cbn. split; reflexivity.
Qed.

Lemma router_connect_cannot_verify_witness :
  let db := Db.run [(1, Db.GetOrCreateWalletProfile "0xa" "evm")] Db.empty in
  let db1 := snd (Routers.connectDiscord 2 "abcdefgh" "0xa" "alice#1" db) in
  success (fst (Routers.connectDiscord 2 "abcdefgh" "0xa" "alice#1" db)) = true
  /\ Db.vr_success (fst (Db.verifyDiscordServer 3 "abcdefgh" true (Scenario.always 200) "0xa" db1))
     = false.
Proof.
  intros db db1. split; [reflexivity|].
  exact (proj1 (proj2 (router_connect_cannot_verify 2 "abcdefgh" "0xa" "alice#1" db
                         3 "abcdefgh" true (Scenario.always 200) eq_refl))).
Defined.

(** ** The daily post *)

Module DailyPost.
Import Db DbSpec DbFacts Walk DbProps.

Lemma tasks_kept_claim L now w :
  preserves (fun db => taskCompletions db = L) (claimReferralBonus now w).
Proof.
  apply preserves_claimReferralBonus.
  - intros w0 f db _ _ H. exact H.
  - intros now0 w0 pts ty d db H. rewrite addPoints_tasks. exact H.
  - intros db l H. exact H.
Qed.

Lemma completeDailyPost_success now today w url db :
  success (fst (completeDailyPost now today w url db)) = true ->
  let db1 := snd (completeDailyPost now today w url db) in
  fst (hasCompletedTask w "daily_post" (Some today) db) = false
  /\ taskCompletions db1 = posted_row now today w url db :: taskCompletions db
  /\ DbProps.column wp_xConnected w db1 = Some true
  /\ (exists p, select_walletProfile w db = Some p /\ wp_xConnected p = true).
Proof.
  unfold completeDailyPost, getWalletProfile.
  rewrite bind_fst, bind_snd. cbn [gets fst snd].
  destruct (select_walletProfile w db) as [p|] eqn:E; [|discriminate].
  destruct (wp_xConnected p) eqn:Hx; [|discriminate]. cbn [negb].
  rewrite bind_fst, bind_snd.
  change (snd (hasCompletedTask w "daily_post" (Some today) db)) with db.
  destruct (fst (hasCompletedTask w "daily_post" (Some today) db)) eqn:Hdone; [discriminate|].
  intros _. cbv zeta. split; [reflexivity|].
  rewrite bind_snd.
  set (db0 := snd (completeTask now w "daily_post" 100 url (Some today) db)).
  assert (Htasks0 : taskCompletions db0 = posted_row now today w url db :: taskCompletions db)
    by reflexivity.
  assert (Hx0 : DbProps.column wp_xConnected w db0 = Some true).
  { unfold DbProps.column. change (select_walletProfile w db0) with (select_walletProfile w db).
    rewrite E. cbn. rewrite Hx. reflexivity. }
  split; [|split; [|exists p; auto]].
  - apply (preserves_run (fun s => taskCompletions s = posted_row now today w url db :: taskCompletions db));
      [|exact Htasks0].
    apply preserves_bind.
    { intros s H. rewrite addPoints_tasks. exact H. }
    intros _. apply preserves_bind; [|intros; apply preserves_ret].
    destruct (truthy (wp_referredBy p)); [|apply preserves_ret].
    apply preserves_bind; [apply preserves_gets|]. intros [r|]; [|apply preserves_ret].
    destruct (negb (rf_referrerClaimed r)); [|apply preserves_ret].
    apply preserves_bind; [apply tasks_kept_claim | intros; apply preserves_ret].
  - apply (preserves_run (fun s => DbProps.column wp_xConnected w s = Some true)); [|exact Hx0].
    walk ltac:(column_prim (fun (v : Z) (p : WalletProfile) => eq_refl (wp_xConnected p))
                           (fun (v : Date) (p : WalletProfile) => eq_refl (wp_xConnected p))).
Qed.

Lemma hasCompletedTask_run w ty date db :
  hasCompletedTask w ty date db
  = (match find (fun t =>
            String.eqb (tc_walletAddress t) w
            && String.eqb (tc_taskType t) ty
            && (if truthy date
                then match date, tc_completionDate t with
                     | Some d, Some d' => String.eqb d' d
                     | _, _ => false
                     end
                else true)
            && is_active (tc_status t)) (taskCompletions db) with
     | Some _ => true | None => false end, db).
Proof. reflexivity. Qed.

End DailyPost.

(** X13. After a successful [completeDailyPost], [isDailyPostCompleted]
    answers true for that wallet and day, and a second [completeDailyPost]
    for the same day is refused and writes nothing. *)
Theorem daily_post_once_a_day (now : Date) (today w : string) (url : option string)
    (db : Db.Store) (now2 : Date) (url2 : option string) :
  success (fst (Db.completeDailyPost now today w url db)) = true ->
  let db1 := snd (Db.completeDailyPost now today w url db) in
  fst (Db.isDailyPostCompleted today w db1) = true
  /\ Db.completeDailyPost now2 today w url2 db1
     = (failure "Daily post already completed today. Try again tomorrow!", db1).
Proof.
  intros Hs db1.
  destruct (DailyPost.completeDailyPost_success now today w url db Hs)
    as [_ [Htasks [Hx _]]]. fold db1 in Htasks, Hx.
  assert (Hdone : Db.hasCompletedTask w "daily_post" (Some today) db1 = (true, db1)).
  { rewrite DailyPost.hasCompletedTask_run, Htasks. cbn [find DbProps.posted_row
      tc_walletAddress tc_taskType tc_completionDate tc_status is_active].
    rewrite !String.eqb_refl. cbn [andb truthy].
    destruct (String.eqb today ""); reflexivity. }
  split.
  - unfold Db.isDailyPostCompleted. rewrite Hdone. reflexivity.
  - unfold Db.completeDailyPost, Db.getWalletProfile. unfold bind at 1. cbn [gets].
    unfold DbProps.column in Hx.
    destruct (Db.select_walletProfile w db1) as [p1|]; [|discriminate].
    injection Hx as ->. cbn [negb]. unfold bind at 1. rewrite Hdone. reflexivity.
Qed.

Module DailyPost2.
Import Db DbSpec DbFacts Walk DbProps DailyPost.

Lemma find_revoked today w id now (l : list TaskCompletion) :
  find (done_today today w) l = None ->
  find (done_today today w)
       (map (fun t => if Z.eqb (tc_id t) id then set_task_revoked now t else t) l) = None.
Proof.
  induction l as [|t l IH]; simpl; [reflexivity|].
  destruct (done_today today w t) eqn:E; [discriminate|]. intros H.
  destruct (Z.eqb (tc_id t) id).
  - unfold done_today. cbn [set_task_revoked tc_status is_active].
    rewrite andb_false_r. apply IH, H.
  - rewrite E. apply IH, H.
Qed.

End DailyPost2.

(** X14. Revoking the completion that a successful [completeDailyPost]
    recorded succeeds, deducts its 100 points, makes [isDailyPostCompleted]
    answer false again, and a new [completeDailyPost] for the same day then
    succeeds: a revoked post does not block the day. *)
Theorem daily_post_reopened_by_revocation (now : Date) (today w : string)
    (url : option string) (db : Db.Store) (now2 now3 : Date) (url3 : option string) :
  success (fst (Db.completeDailyPost now today w url db)) = true ->
  let db1 := snd (Db.completeDailyPost now today w url db) in
  let id := Db.next_id (Db.taskCompletions db) in
  let db2 := snd (Db.revokeTweetPoints now2 id db1) in
  success (fst (Db.revokeTweetPoints now2 id db1)) = true
  /\ Db.balance w db2 = Db.balance w db1 - 100
  /\ fst (Db.isDailyPostCompleted today w db2) = false
  /\ success (fst (Db.completeDailyPost now3 today w url3 db2)) = true.
Proof.
  intros Hs db1 id db2.
  destruct (DailyPost.completeDailyPost_success now today w url db Hs)
    as [Hnot [Htasks [Hx _]]]. fold db1 in Htasks, Hx.
  assert (Hsel : Db.select_taskCompletion id db1
                 = Some (DbProps.posted_row now today w url db)).
  { unfold Db.select_taskCompletion. rewrite Htasks. cbn [find DbProps.posted_row tc_id].
    fold id. rewrite Z.eqb_refl. reflexivity. }
  assert (Hrun : Db.revokeTweetPoints now2 id db1
                 = (mkResult true ("Revoked " ++ show_Z 100 ++ " points from " ++ w) None,
                    snd (Db.addPoints now2 w (-100) "tweet_revoked"
                           (Some ("Points revoked for deleted tweet (completion #"
                                  ++ show_Z id ++ ")"))
                           (snd (Db.update_taskCompletions id (set_task_revoked now2) db1))))).
  { unfold Db.revokeTweetPoints. unfold bind at 1. cbn [gets]. rewrite Hsel.
    cbn [tc_status DbProps.posted_row tc_pointsAwarded tc_walletAddress].
    unfold bind. cbn [Db.update_taskCompletions modify].
    destruct (Db.addPoints _ _ _ _ _ _). reflexivity. }
  assert (Hx2 : DbProps.column wp_xConnected w db2 = Some true).
  { subst db2. rewrite Hrun. cbn [snd].
    apply (Walk.column_addPoints wp_xConnected
             (fun v p => eq_refl) (fun v p => eq_refl) w (Some true)).
    exact Hx. }
  assert (Hfind2 : find (DbProps.done_today today w) (Db.taskCompletions db2) = None).
  { subst db2. rewrite Hrun. cbn [snd]. rewrite DbFacts.addPoints_tasks.
    cbn [Db.update_taskCompletions modify snd Db.taskCompletions].
    rewrite Htasks. cbn [map find DbProps.posted_row tc_id]. fold id.
    rewrite Z.eqb_refl. unfold DbProps.done_today at 1.
    cbn [set_task_revoked tc_status is_active]. rewrite andb_false_r.
    apply DailyPost2.find_revoked.
    rewrite DailyPost.hasCompletedTask_run in Hnot. cbn [fst] in Hnot.
    fold (DbProps.done_today today w) in Hnot.
    destruct (find (DbProps.done_today today w) (Db.taskCompletions db));
      [discriminate | reflexivity]. }
  assert (Hdone2 : Db.hasCompletedTask w "daily_post" (Some today) db2 = (false, db2)).
  { rewrite DailyPost.hasCompletedTask_run. fold (DbProps.done_today today w).
    rewrite Hfind2. reflexivity. }
  split; [rewrite Hrun; reflexivity|].
  split.
  { subst db2. rewrite Hrun. cbn [snd]. rewrite DbFacts.addPoints_balance.
    change (Db.select_walletProfile w (snd (Db.update_taskCompletions id (set_task_revoked now2) db1)))
      with (Db.select_walletProfile w db1).
    change (Db.balance w (snd (Db.update_taskCompletions id (set_task_revoked now2) db1)))
      with (Db.balance w db1).
    unfold DbProps.column in Hx.
    destruct (Db.select_walletProfile w db1); [|discriminate].
    rewrite String.eqb_refl. lia. }
  split.
  { unfold Db.isDailyPostCompleted. rewrite Hdone2. reflexivity. }
  unfold Db.completeDailyPost, Db.getWalletProfile.
  rewrite DbFacts.bind_fst. cbn [gets fst snd].
  unfold DbProps.column in Hx2.
  destruct (Db.select_walletProfile w db2) as [p2|]; [|discriminate].
  injection Hx2 as ->. cbn [negb].
  rewrite DbFacts.bind_fst, Hdone2. cbn [fst snd].
  rewrite ?DbFacts.bind_fst. reflexivity.
Qed.

Lemma daily_post_once_a_day_witness :
  let db := Db.run [ (1, Db.GetOrCreateWalletProfile "0xa" "evm");
                     (2, Db.ConnectXAccount "abcdefgh" "0xa" "alice") ] Db.empty in
  let db1 := snd (Db.completeDailyPost 3 "2026-01-01" "0xa" None db) in
  success (fst (Db.completeDailyPost 3 "2026-01-01" "0xa" None db)) = true
  /\ fst (Db.isDailyPostCompleted "2026-01-01" "0xa" db1) = true
  /\ Db.completeDailyPost 4 "2026-01-01" "0xa" (Some "https://x.com/a/status/2") db1
     = (failure "Daily post already completed today. Try again tomorrow!", db1).
Proof.
  intros db db1. split; [reflexivity|].
  exact (daily_post_once_a_day 3 "2026-01-01" "0xa" None db 4
           (Some "https://x.com/a/status/2") eq_refl).
Defined.

Lemma daily_post_reopened_by_revocation_witness :
  let db := Db.run [ (1, Db.GetOrCreateWalletProfile "0xa" "evm");
                     (2, Db.ConnectXAccount "abcdefgh" "0xa" "alice") ] Db.empty in
  let db1 := snd (Db.completeDailyPost 3 "2026-01-01" "0xa" None db) in
  let db2 := snd (Db.revokeTweetPoints 4 1 db1) in
  success (fst (Db.completeDailyPost 3 "2026-01-01" "0xa" None db)) = true
  /\ success (fst (Db.revokeTweetPoints 4 1 db1)) = true
  /\ Db.balance "0xa" db2 = Db.balance "0xa" db1 - 100
  /\ fst (Db.isDailyPostCompleted "2026-01-01" "0xa" db2) = false
  /\ success (fst (Db.completeDailyPost 5 "2026-01-01" "0xa" None db2)) = true.
Proof.
  intros db db1 db2. split; [reflexivity|].
  exact (daily_post_reopened_by_revocation 3 "2026-01-01" "0xa" None db 4 5 None eq_refl).
Defined.

(** ** Discord membership of one wallet *)

Module Membership2.
Import Db DbSpec DbFacts Walk.

Lemma check_cases now configured api w db :
  checkUserDiscordMembership now configured api w db = (mkMembershipCheck true false, db)
  \/ (fst (checkUserDiscordMembership now configured api w db) = mkMembershipCheck false true
      /\ exists p, select_walletProfile w db = Some p
                   /\ wp_discordVerified p && truthy (wp_discordId p) && configured = true
                   /\ api (or_else (wp_discordId p) "") = Response 404).
Proof.
  unfold checkUserDiscordMembership. rewrite bind_fst. unfold bind at 1. cbn [gets fst snd].
  destruct (select_walletProfile w db) as [p|] eqn:E; [|left; reflexivity].
  destruct (wp_discordVerified p) eqn:Hv; [|left; reflexivity].
  destruct (truthy (wp_discordId p)) eqn:Hi; [|left; reflexivity].
  destruct configured; [|left; reflexivity]. cbn [negb orb andb].
  destruct (api (or_else (wp_discordId p) "")) as [status|] eqn:Hapi; [|left; reflexivity].
  destruct (Z.eqb_spec status 404) as [->|Hne].
  - right. rewrite ?bind_fst. split; [reflexivity|]. exists p. rewrite Hv, Hi. auto.
  - left. destruct (response_ok status); reflexivity.
Qed.

Lemma check_unverifies now configured api w db p :
  select_walletProfile w db = Some p ->
  wp_discordVerified p && truthy (wp_discordId p) && configured = true ->
  api (or_else (wp_discordId p) "") = Response 404 ->
  DbProps.column wp_discordVerified w
    (snd (checkUserDiscordMembership now configured api w db)) = Some false.
Proof.
  intros Hsel Hg Hapi. unfold checkUserDiscordMembership.
  rewrite bind_snd. cbn [gets fst snd]. rewrite Hsel.
  apply andb_prop in Hg as [Hg ->]. apply andb_prop in Hg as [-> ->].
  cbn [negb orb]. rewrite Hapi. cbn [Z.eqb Pos.eqb]. rewrite bind_snd.
  apply (preserves_run (fun s => DbProps.column wp_discordVerified w s = Some false)).
  - walk ltac:(column_prim (fun (v : Z) (p : WalletProfile) => eq_refl (wp_discordVerified p))
                           (fun (v : Date) (p : WalletProfile) => eq_refl (wp_discordVerified p))).
  - unfold DbProps.column. rewrite select_update by keeps.
    rewrite String.eqb_refl, Hsel. reflexivity.
Qed.

End Membership2.

(** X15. [checkUserDiscordMembership] writes only when it revokes: a check
    that reports no revocation leaves the store as it was; one that
    revokes found a verified wallet for which the Discord API answered 404,
    leaves it unverified, and any later check of that wallet, whatever the
    API answers, reports nothing and writes nothing. *)
Theorem membership_check_revokes_once (now : Date) (configured : bool)
    (api : string -> FetchResult) (w : string) (db : Db.Store)
    (now' : Date) (configured' : bool) (api' : string -> FetchResult) :
  let r := Db.checkUserDiscordMembership now configured api w db in
  (Db.mc_revoked (fst r) = false -> Db.stillMember (fst r) = true /\ snd r = db)
  /\ (Db.mc_revoked (fst r) = true ->
        Db.stillMember (fst r) = false
        /\ (exists p, Db.select_walletProfile w db = Some p
                      /\ wp_discordVerified p = true
                      /\ api (or_else (wp_discordId p) "") = Response 404)
        /\ DbProps.column wp_discordVerified w (snd r) = Some false
        /\ Db.checkUserDiscordMembership now' configured' api' w (snd r)
           = (Db.mkMembershipCheck true false, snd r)).
Proof.
  intros r. subst r.
  destruct (Membership2.check_cases now configured api w db) as [E|[E [p [Hsel [Hg Hapi]]]]].
  - rewrite E. cbn [fst snd Db.mc_revoked Db.stillMember].
    split; [intros _; split; reflexivity | discriminate].
  - rewrite E. cbn [Db.mc_revoked Db.stillMember]. split; [discriminate|]. intros _.
    pose proof (Membership2.check_unverifies now configured api w db p Hsel Hg Hapi) as Hun.
    split; [reflexivity|]. split.
    { exists p. split; [exact Hsel|]. split; [|exact Hapi].
      apply andb_prop in Hg as [Hg _]. apply andb_prop in Hg as [Hg _]. exact Hg. }
    split; [exact Hun|].
    destruct (Membership2.check_cases now' configured' api' w
                (snd (Db.checkUserDiscordMembership now configured api w db)))
      as [E'|[_ [p1 [Hsel1 [Hg1 _]]]]]; [exact E'|].
    unfold DbProps.column in Hun. rewrite Hsel1 in Hun. injection Hun as Hun.
    rewrite Hun in Hg1. discriminate.
Qed.

(** X16. [verifyDiscordServer] succeeds exactly when verification is
    configured, the wallet has a profile that is Discord-connected, not
    yet verified and holds a Discord id, and the API answer for that id is
    a 2xx; it reports [notJoined], with the invite link, exactly when
    under the same conditions the answer is 404; success carries 50
    points, and every failure leaves the store unchanged. *)
Theorem verifyDiscordServer_outcome (now : Date) (n : string) (configured : bool)
    (api : string -> FetchResult) (w : string) (db : Db.Store) :
  let r := fst (Db.verifyDiscordServer now n configured api w db) in
  let ready := fun p =>
    configured && wp_discordConnected p && negb (wp_discordVerified p)
    && truthy (wp_discordId p) in
  (Db.vr_success r = true <->
     exists p status, Db.select_walletProfile w db = Some p /\ ready p = true
       /\ api (or_else (wp_discordId p) "") = Response status
       /\ response_ok status = true)
  /\ (Db.vr_notJoined r = true <->
        exists p, Db.select_walletProfile w db = Some p /\ ready p = true
          /\ api (or_else (wp_discordId p) "") = Response 404)
  /\ (Db.vr_notJoined r = true -> Db.vr_inviteUrl r = Some Db.DISCORD_INVITE_URL)
  /\ (Db.vr_success r = true -> Db.vr_points r = Some 50)
  /\ (Db.vr_success r = false -> snd (Db.verifyDiscordServer now n configured api w db) = db).
Proof.
  intros r ready. subst r. unfold Db.verifyDiscordServer, Db.getWalletProfile.
  assert (Hno : forall (P : WalletProfile -> Prop), 
             Db.select_walletProfile w db = None ->
             ~ exists p, Db.select_walletProfile w db = Some p /\ P p).
  { intros P E [p [Hp _]]. congruence. }
  destruct configured; cbn [negb].
  2:{ cbn. repeat split; try discriminate; try reflexivity.
      - intros [p [s [_ [H _]]]]. unfold ready in H. discriminate.
      - intros [p [_ [H _]]]. unfold ready in H. discriminate. }
  rewrite DbFacts.bind_fst, DbFacts.bind_snd. cbn [gets fst snd].
  destruct (Db.select_walletProfile w db) as [p|] eqn:Hsel.
  2:{ cbn. repeat split; try discriminate; try reflexivity.
      - intros [p [s [H _]]]. discriminate.
      - intros [p [H _]]. discriminate. }
  assert (Hp : forall q, Some p = Some q -> q = p) by (intros q [= <-]; reflexivity).
  unfold ready.
  destruct (wp_discordConnected p) eqn:Hc; cbn [negb].
  2:{ cbn. repeat split; try discriminate; try reflexivity.
      - intros [q [s [Hq [H _]]]]. apply Hp in Hq. subst q. rewrite Hc in H. discriminate.
      - intros [q [Hq [H _]]]. apply Hp in Hq. subst q. rewrite Hc in H. discriminate. }
  destruct (wp_discordVerified p) eqn:Hv.
  { cbn. repeat split; try discriminate; try reflexivity.
    - intros [q [s [Hq [H _]]]]. apply Hp in Hq. subst q. rewrite Hc, Hv in H. discriminate.
    - intros [q [Hq [H _]]]. apply Hp in Hq. subst q. rewrite Hc, Hv in H. discriminate. }
  destruct (truthy (wp_discordId p)) eqn:Hi; cbn [negb].
  2:{ cbn. repeat split; try discriminate; try reflexivity.
      - intros [q [s [Hq [H _]]]]. apply Hp in Hq. subst q. rewrite Hc, Hv, Hi in H.
        discriminate.
      - intros [q [Hq [H _]]]. apply Hp in Hq. subst q. rewrite Hc, Hv, Hi in H.
        discriminate. }
  destruct (api (or_else (wp_discordId p) "")) as [status|] eqn:Hapi.
  2:{ cbn. repeat split; try discriminate; try reflexivity.
      - intros [q [s [Hq [_ [H _]]]]]. apply Hp in Hq. subst q. congruence.
      - intros [q [Hq [_ H]]]. apply Hp in Hq. subst q. congruence. }
  destruct (Z.eqb_spec status 404) as [->|Hne].
  { cbn. repeat split; try discriminate; try reflexivity.
    - intros [q [s [Hq [_ [H Hok]]]]]. apply Hp in Hq. subst q.
      rewrite Hapi in H. injection H as <-. discriminate.
    - intros _. exists p. rewrite Hc, Hv, Hi. auto. }
  destruct (response_ok status) eqn:Hok; cbn [negb].
  2:{ cbn. repeat split; try discriminate; try reflexivity.
      - intros [q [s [Hq [_ [H Hok']]]]]. apply Hp in Hq. subst q.
        rewrite Hapi in H. injection H as <-. congruence.
      - intros [q [Hq [_ H]]]. apply Hp in Hq. subst q. congruence. }
  cbv zeta. rewrite ?DbFacts.bind_fst. cbn [ret fst Db.vr_success Db.vr_notJoined
    Db.vr_inviteUrl Db.vr_points].
  repeat split; try discriminate; try reflexivity.
  - intros _. exists p, status. rewrite Hc, Hv, Hi. auto.
  - intros [q [Hq [_ H]]]. apply Hp in Hq. subst q. congruence.
Qed.

(** ** Admin adjustments *)

(** X17. [adjustUserPoints]: on the persistent store a known wallet ends at
    its balance plus the change, which is also the reported total, with
    one [admin_adjustment] row carrying the reason, other wallets being
    untouched, and an unknown wallet is refused without a write; on the
    in-memory store the call never refuses: it answers the balance plus
    the change for any wallet, registering it if need be. *)
Theorem adjustUserPoints_effect (now : Date) (w : string) (pts : Z) (reason : string)
    (db : Db.Store) (mdb : Mock.Store) :
  (forall p, Db.select_walletProfile w db = Some p ->
     let r := Db.adjustUserPoints now w pts reason db in
     success (fst r) = true
     /\ points (fst r) = Some (wp_totalPoints p + pts)
     /\ Db.balance w (snd r) = wp_totalPoints p + pts
     /\ (forall w', w' <> w -> Db.balance w' (snd r) = Db.balance w' db)
     /\ Db.pointsHistory (snd r)
        = mkPointsHistory (Db.next_id (Db.pointsHistory db)) w "admin_adjustment" pts
            (wp_totalPoints p + pts) (Some reason) now :: Db.pointsHistory db)
  /\ (Db.select_walletProfile w db = None ->
      Db.adjustUserPoints now w pts reason db = (failure "Profile not found", db))
  /\ (let r := Mock.adjustUserPoints now w pts reason mdb in
      fst r = Mock.balance w mdb + pts
      /\ Mock.balance w (snd r) = Mock.balance w mdb + pts
      /\ (forall w', Mock.normalize w' <> Mock.normalize w ->
            Mock.balance w' (snd r) = Mock.balance w' mdb)).
Proof.
  split; [|split].
  - intros p Hsel r. subst r. unfold Db.adjustUserPoints, Db.getWalletProfile.
    rewrite DbFacts.bind_fst, DbFacts.bind_snd. cbn [gets fst snd]. rewrite Hsel.
    rewrite DbFacts.bind_fst, DbFacts.bind_snd.
    rewrite (DbFacts.addPoints_known _ _ _ _ _ _ _ Hsel). cbn [fst snd ret success points].
    split; [reflexivity|]. split; [reflexivity|].
    split.
    { unfold Db.balance, Db.select_walletProfile. cbn [Db.walletProfiles].
      rewrite DbFacts.find_update by (intro; reflexivity). rewrite String.eqb_refl.
      fold (Db.select_walletProfile w db). rewrite Hsel. reflexivity. }
    split; [|reflexivity].
    intros w' Hne. unfold Db.balance, Db.select_walletProfile. cbn [Db.walletProfiles].
    rewrite DbFacts.find_update by (intro; reflexivity).
    destruct (String.eqb_spec w' w); [contradiction | reflexivity].
  - intros Hsel. unfold Db.adjustUserPoints, Db.getWalletProfile, bind, gets.
    rewrite Hsel. reflexivity.
  - intros r. subst r. unfold Mock.adjustUserPoints, Mock.getWalletProfile.
    rewrite MockFacts.mock_bind_fst, MockFacts.mock_bind_snd.
    rewrite MockFacts.mock_bind_fst, MockFacts.mock_bind_snd. cbn [gets fst snd ret].
    assert (Hbal : forall w', Mock.balance w' (snd (Mock.addPoints now w pts "admin_adjustment"
                                                  (Some reason) mdb))
                   = if String.eqb (Mock.normalize w') (Mock.normalize w)
                     then Mock.balance w mdb + pts else Mock.balance w' mdb).
    { intros w'. unfold Mock.balance. rewrite MockFacts.addPoints_get.
      destruct (String.eqb (Mock.normalize w') (Mock.normalize w)); [|reflexivity].
      cbv zeta. rewrite MockFacts.ensure_fst.
      destruct (Mock.profiles_get (Mock.normalize w) mdb); reflexivity. }
    split; [|split].
    + pose proof (Hbal w) as H. rewrite String.eqb_refl in H. unfold Mock.balance in H at 1.
      exact H.
    + rewrite Hbal, String.eqb_refl. reflexivity.
    + intros w' Hne. rewrite Hbal. destruct (String.eqb_spec (Mock.normalize w') (Mock.normalize w));
        [contradiction | reflexivity].
Qed.

(** ** The membership sweep *)

Module Sweep.
Import Db DbSpec DbFacts.

Lemma select_of_in w (l : list WalletProfile) :
  In w (map wp_walletAddress l) -> find (walletAddress_is w) l <> None.
Proof.
  intros Hin H. apply in_map_iff in Hin as [p [Hp Hin]].
  apply (find_none _ _ H) in Hin. unfold walletAddress_is in Hin.
  rewrite Hp, String.eqb_refl in Hin. discriminate.
Qed.

Lemma addresses_update w f db :
  keeps_address f ->
  map wp_walletAddress (walletProfiles (snd (update_walletProfiles w f db)))
  = map wp_walletAddress (walletProfiles db).
Proof.
  intros Ha. cbn. rewrite map_map. apply map_ext. intros p.
  destruct (walletAddress_is w p); [apply Ha | reflexivity].
Qed.

Lemma addresses_addPoints now w pts ty d db :
  map wp_walletAddress (walletProfiles (snd (addPoints now w pts ty d db)))
  = map wp_walletAddress (walletProfiles db).
Proof.
  destruct (select_walletProfile w db) as [p|] eqn:E.
  - rewrite (addPoints_known _ _ _ _ _ _ _ E). cbn [snd walletProfiles].
    rewrite map_map. apply map_ext. intros q. destruct (walletAddress_is w q); reflexivity.
  - rewrite (addPoints_unknown _ _ _ _ _ _ E). reflexivity.
Qed.

(** What one turn of the loop adds to the counters and to the ledger. *)
Lemma body_accounts now api u acc s :
  In (wp_walletAddress u) (map wp_walletAddress (walletProfiles s)) ->
  let r := membership_sweep_body now api u acc s in
  exists c k e,
    fst r = mkSweepCounts (checked acc + c) (sw_revoked acc + k) (errors acc + e)
    /\ 0 <= k <= c /\ c <= 1 /\ 0 <= e /\ k + e <= 1
    /\ map wp_walletAddress (walletProfiles (snd r)) = map wp_walletAddress (walletProfiles s)
    /\ Z.of_nat (List.length (pointsHistory (snd r)))
       = Z.of_nat (List.length (pointsHistory s)) + k
    /\ all_changes (pointsHistory (snd r)) = all_changes (pointsHistory s) - 50 * k.
Proof.
  intros Hin r. subst r. unfold membership_sweep_body.
  assert (Hsame : forall a : SweepCounts,
            a = mkSweepCounts (checked a + 0) (sw_revoked a + 0) (errors a + 0)).
  { intros [c k e]. cbn. f_equal; lia. }
  destruct (truthy (wp_discordId u)); cbn [negb].
  2:{ exists 0, 0, 0. cbn [ret fst snd]. split; [apply Hsame|]. repeat split; lia. }
  destruct (api (or_else (wp_discordId u) "")) as [status|].
  2:{ exists 0, 0, 1. cbn [ret fst snd]. split; [f_equal; lia|]. repeat split; lia. }
  cbv zeta. destruct (Z.eqb status 404).
  - exists 1, 1, 0. rewrite !bind_fst, !bind_snd. cbn [ret fst snd].
    split; [f_equal; lia|]. split; [lia|]. split; [lia|]. split; [lia|]. split; [lia|].
    set (s1 := snd (update_walletProfiles (wp_walletAddress u)
                      (fun p => set_updatedAt now (set_discordVerified false None p)) s)).
    assert (Ha1 : map wp_walletAddress (walletProfiles s1) = map wp_walletAddress (walletProfiles s))
      by (apply addresses_update; intro; reflexivity).
    split; [rewrite addresses_addPoints; exact Ha1|].
    destruct (select_walletProfile (wp_walletAddress u) s1) as [p|] eqn:E.
    + rewrite (addPoints_known _ _ _ _ _ _ _ E). cbn [snd pointsHistory].
      change (pointsHistory s1) with (pointsHistory s). split.
      * cbn [List.length]. lia.
      * unfold all_changes. cbn [fold_right ph_pointsChange]. lia.
    + exfalso. revert E. apply select_of_in. rewrite Ha1. exact Hin.
  - destruct (response_ok status); cbn [negb ret fst snd].
    + exists 1, 0, 0. split; [f_equal; lia|]. repeat split; lia.
    + exists 1, 0, 1. split; [f_equal; lia|]. repeat split; lia.
Qed.

Lemma loop_accounts now api us : forall acc s,
  (forall u, In u us -> In (wp_walletAddress u) (map wp_walletAddress (walletProfiles s))) ->
  let r := for_each us (membership_sweep_body now api) acc s in
  exists c k e,
    fst r = mkSweepCounts (checked acc + c) (sw_revoked acc + k) (errors acc + e)
    /\ 0 <= k <= c /\ c <= Z.of_nat (List.length us) /\ 0 <= e
    /\ k + e <= Z.of_nat (List.length us)
    /\ Z.of_nat (List.length (pointsHistory (snd r)))
       = Z.of_nat (List.length (pointsHistory s)) + k
    /\ all_changes (pointsHistory (snd r)) = all_changes (pointsHistory s) - 50 * k.
Proof.
  induction us as [|u us IH]; intros acc s Hin r; subst r.
  - exists 0, 0, 0. cbn [for_each ret fst snd List.length]. 
    split; [destruct acc; cbn; f_equal; lia|]. repeat split; lia.
  - cbn [for_each]. rewrite bind_fst, bind_snd.
    destruct (body_accounts now api u acc s (Hin u (or_introl eq_refl)))
      as [c1 [k1 [e1 [E1 [Hk1 [Hc1 [He1 [Hke1 [Ha1 [Hl1 Hs1]]]]]]]]]].
    rewrite E1.
    destruct (IH (mkSweepCounts (checked acc + c1) (sw_revoked acc + k1) (errors acc + e1))
                 (snd (membership_sweep_body now api u acc s)))
      as [c2 [k2 [e2 [E2 [Hk2 [Hc2 [He2 [Hke2 [Hl2 Hs2]]]]]]]]].
    { intros u' Hu'. rewrite Ha1. apply Hin. right. exact Hu'. }
    exists (c1 + c2), (k1 + k2), (e1 + e2). rewrite E2. cbn [checked sw_revoked errors].
    split; [f_equal; lia|]. cbn [List.length].
    split; [lia|]. split; [lia|]. split; [lia|]. split; [lia|].
    split; [rewrite Hl2, Hl1; lia | rewrite Hs2, Hs1; lia].
Qed.

End Sweep.

(** X18. The counters of [checkDiscordServerMemberships] account for what
    it did: revoked <= checked <= the number of verified users with a
    Discord id, revoked + errors is at most that number, and the history
    grows by exactly one row per counted revocation, the sum of all changes
    dropping by 50 for each; when verification is not configured the sweep
    reports zeros and writes nothing. *)
Theorem membership_sweep_accounts (now : Date) (configured : bool)
    (api : string -> FetchResult) (db : Db.Store) :
  let r := Db.checkDiscordServerMemberships now configured api db in
  let visited := Z.of_nat (List.length (DbProps.verifiedUsers db)) in
  0 <= Db.sw_revoked (fst r) <= Db.checked (fst r)
  /\ Db.checked (fst r) <= visited
  /\ 0 <= Db.errors (fst r)
  /\ Db.sw_revoked (fst r) + Db.errors (fst r) <= visited
  /\ Z.of_nat (List.length (Db.pointsHistory (snd r)))
     = Z.of_nat (List.length (Db.pointsHistory db)) + Db.sw_revoked (fst r)
  /\ all_changes (Db.pointsHistory (snd r))
     = all_changes (Db.pointsHistory db) - 50 * Db.sw_revoked (fst r)
  /\ (configured = false -> r = (Db.mkSweepCounts 0 0 0, db)).
Proof.
  intros r visited. subst r visited. unfold Db.checkDiscordServerMemberships.
  destruct configured; cbn [negb].
  - rewrite DbFacts.bind_fst, DbFacts.bind_snd. cbn [gets fst snd].
    fold (DbProps.verifiedUsers db).
    destruct (Sweep.loop_accounts now api (DbProps.verifiedUsers db) (Db.mkSweepCounts 0 0 0) db)
      as [c [k [e [E [Hk [Hc [He [Hke [Hl Hs]]]]]]]]].
    { intros u Hu. apply filter_In in Hu as [Hu _]. apply in_map, Hu. }
    rewrite E. cbn [Db.checked Db.sw_revoked Db.errors] in *.
    rewrite Hl, Hs. repeat split; try lia; discriminate.
  - cbn [ret fst snd Db.checked Db.sw_revoked Db.errors]. 
    pose proof (Zle_0_nat (List.length (DbProps.verifiedUsers db))).
    repeat split; try lia.
Qed.

(** ** Tiers and referral statistics *)

Module Tiers.
Import Db.

Lemma tier_cases n :
  (n < 10 /\ getReferralTier n = mkTier "Bronze" 0 50 5 "#cd7f32")
  \/ (10 <= n < 25 /\ getReferralTier n = mkTier "Silver" 10 55 8 "#c0c0c0")
  \/ (25 <= n < 50 /\ getReferralTier n = mkTier "Gold" 25 60 10 "#ffd700")
  \/ (50 <= n < 100 /\ getReferralTier n = mkTier "Platinum" 50 75 12 "#e5e4e2")
  \/ (100 <= n /\ getReferralTier n = mkTier "Diamond" 100 100 15 "#b9f2ff").
Proof.
  unfold getReferralTier, tiers. cbn [find minReferrals].
  destruct (Z.leb_spec 100 n); [right; right; right; right; split; [lia | reflexivity]|].
  destruct (Z.leb_spec 50 n); [right; right; right; left; split; [lia | reflexivity]|].
  destruct (Z.leb_spec 25 n); [right; right; left; split; [lia | reflexivity]|].
  destruct (Z.leb_spec 10 n); [right; left; split; [lia | reflexivity]|].
  left. split; [lia|]. destruct (Z.leb_spec 0 n); reflexivity.
Qed.

Lemma count_tier_total n d :
  DbProps.tier_total (count_tier (tier_name (getReferralTier n)) d) = DbProps.tier_total d + 1.
Proof.
  destruct (tier_cases n) as [[_ ->]|[[_ ->]|[[_ ->]|[[_ ->]|[_ ->]]]]];
    unfold DbProps.tier_total; cbn; lia.
Qed.

Lemma for_each_pure {S A X} (g : X -> A -> A) (xs : list X) : forall (a : A) (s : S),
  for_each xs (fun x d => ret (g x d)) a s = (fold_left (fun d x => g x d) xs a, s).
Proof.
  induction xs as [|x xs IH]; intros a s; cbn [for_each fold_left]; [reflexivity|].
  unfold bind, ret at 1. apply IH.
Qed.

Lemma fold_tier_total (l : list WalletProfile) : forall d,
  DbProps.tier_total
    (fold_left (fun d p => count_tier (tier_name (getReferralTier (wp_referralCount p))) d) l d)
  = DbProps.tier_total d + Z.of_nat (List.length l).
Proof.
  induction l as [|p l IH]; intros d; cbn [fold_left List.length]; [lia|].
  rewrite IH, count_tier_total. lia.
Qed.

Lemma nodup_length (l : list string) :
  (List.length (nodup string_dec l) <= List.length l)%nat.
Proof.
  induction l as [|a l IH]; simpl; [lia|].
  destruct (in_dec string_dec a l); simpl; lia.
Qed.

Lemma filter_length_le {A} (f : A -> bool) (l : list A) :
  (List.length (filter f l) <= List.length l)%nat.
Proof. induction l as [|a l IH]; simpl; [lia|]. destruct (f a); simpl; lia. Qed.

End Tiers.

(** X19. [getReferralTier] answers a tier of the table whose threshold the
    count reaches, and the highest such; a negative count gets Bronze; the
    answer is monotone: more referrals never give a lower threshold, bonus
    per referral or percentage. *)
Theorem getReferralTier_brackets (n m : Z) :
  let t := Db.getReferralTier n in
  In t Db.tiers
  /\ (0 <= n -> Db.minReferrals t <= n)
  /\ (forall t', In t' Db.tiers -> Db.minReferrals t' <= n ->
        Db.minReferrals t' <= Db.minReferrals t)
  /\ (n < 0 -> Db.tier_name t = "Bronze")
  /\ (n <= m ->
        Db.minReferrals t <= Db.minReferrals (Db.getReferralTier m)
        /\ Db.bonusPerReferral t <= Db.bonusPerReferral (Db.getReferralTier m)
        /\ Db.percentageBonus t <= Db.percentageBonus (Db.getReferralTier m)).
Proof.
  intros t. subst t.
  destruct (Tiers.tier_cases n) as [[Hn ->]|[[Hn ->]|[[Hn ->]|[[Hn ->]|[Hn ->]]]]];
    (split; [cbn; tauto|]);
    (split; [cbn; lia|]);
    (split; [intros t' Ht'; cbn in Ht';
             destruct Ht' as [<-|[<-|[<-|[<-|[<-|[]]]]]]; cbn; lia|]);
    (split; [intros; first [reflexivity | lia]|]);
    intros Hm;
    destruct (Tiers.tier_cases m) as [[Hm' ->]|[[Hm' ->]|[[Hm' ->]|[[Hm' ->]|[Hm' ->]]]]];
    cbn; lia.
Qed.

(** X20. The referral statistics of the dashboard are consistent: on both
    stores claimed + pending = total, pending is not negative and the
    active referrers are at most the referrals; the tier distribution of
    the persistent store adds up to the profiles with at least one
    referral, that of the in-memory store to all profiles. *)
Theorem referral_admin_stats_consistent (db : Db.Store) (mdb : Mock.Store) :
  (let s := fst (Db.getReferralAdminStats db) in
   snd (Db.getReferralAdminStats db) = db
   /\ Db.claimedReferrals s + Db.pendingReferrals s = Db.totalReferrals s
   /\ 0 <= Db.pendingReferrals s
   /\ Db.activeReferrers s <= Db.totalReferrals s
   /\ DbProps.tier_total (Db.tierDistribution s)
      = Z.of_nat (List.length (filter (fun p => Z.leb 1 (wp_referralCount p))
                                      (Db.walletProfiles db))))
  /\ (let s := fst (Mock.getAdminReferralStats mdb) in
      Db.claimedReferrals s + Db.pendingReferrals s = Db.totalReferrals s
      /\ 0 <= Db.pendingReferrals s
      /\ Db.activeReferrers s <= Db.totalReferrals s
      /\ DbProps.tier_total (Db.tierDistribution s)
         = Z.of_nat (List.length (Mock.profiles mdb))).
Proof.
  split.
  - intros s. subst s. unfold Db.getReferralAdminStats.
    rewrite !DbFacts.bind_fst, !DbFacts.bind_snd. cbn [gets fst snd].
    rewrite Tiers.for_each_pure. cbn [fst snd ret Db.claimedReferrals Db.pendingReferrals
      Db.totalReferrals Db.activeReferrers Db.tierDistribution].
    pose proof (Tiers.filter_length_le rf_referrerClaimed (Db.referrals db)).
    pose proof (Tiers.nodup_length (map rf_referrerWallet (Db.referrals db))) as Hd.
    rewrite length_map in Hd.
    split; [reflexivity|]. split; [lia|]. split; [lia|].
    split; [unfold distinct_count; lia|].
    rewrite Tiers.fold_tier_total. reflexivity.
  - intros s. subst s. unfold Mock.getAdminReferralStats, gets.
    cbn [fst Db.claimedReferrals Db.pendingReferrals Db.totalReferrals Db.activeReferrers
         Db.tierDistribution].
    pose proof (Tiers.filter_length_le mr_referrerClaimed (Mock.referrals mdb)).
    pose proof (Tiers.nodup_length
                  (map (fun r => Mock.normalize (mr_referrerWallet r)) (Mock.referrals mdb))) as Hd.
    rewrite length_map in Hd.
    split; [lia|]. split; [lia|]. split; [unfold distinct_count; lia|].
    rewrite Tiers.fold_tier_total. unfold Mock.profiles_values. rewrite length_map.
    reflexivity.
Qed.

(** ** The profile page *)

Module ProfilePage.
Import Db DbSpec DbFacts Walk.

Lemma check_absent now configured api w db :
  select_walletProfile w db = None ->
  checkUserDiscordMembership now configured api w db = (mkMembershipCheck true false, db).
Proof.
  intros H. unfold checkUserDiscordMembership, bind, gets. rewrite H. reflexivity.
Qed.

Lemma getOrCreate_run now w c db :
  getOrCreateWalletProfile now w c db
  = match select_walletProfile w db with
    | Some p => (Some p, db)
    | None => (Some (new_profile w c now), snd (insert_walletProfile (new_profile w c now) db))
    end.
Proof.
  unfold getOrCreateWalletProfile, bind, gets. 
  destruct (select_walletProfile w db) eqn:E; [reflexivity|].
  cbn [insert_walletProfile modify snd]. unfold select_walletProfile. cbn [walletProfiles find].
  unfold walletAddress_is at 1. cbn [new_profile wp_walletAddress].
  rewrite String.eqb_refl. reflexivity.
Qed.

End ProfilePage.

(** X21. The [rewards.getProfile] procedure of routers.ts always answers a
    profile, which is the one stored for the wallet after the call: a
    wallet seen for the first time gets the zero profile, inserted at the
    front of the table, with no daily post; a known wallet gets its
    profile as the membership check left it, so that a verification
    revoked by that check already shows as withdrawn; for an X-connected
    wallet the daily-post flag is that of [isDailyPostCompleted]. *)
Theorem getProfile_shows_current_profile (now : Date) (today : string) (configured : bool)
    (api : string -> FetchResult) (w chainType : string) (db : Db.Store) :
  let r := Routers.getProfile now today configured api w chainType db in
  let checked := Db.checkUserDiscordMembership now configured api w db in
  exists view,
    fst r = Some view
    /\ Routers.todayUTC view = today
    /\ Db.select_walletProfile w (snd r) = Some (Routers.pv_profile view)
    /\ (Db.select_walletProfile w db = None ->
          Routers.pv_profile view = new_profile w chainType now
          /\ Routers.dailyPostCompleted view = false
          /\ Db.walletProfiles (snd r) = new_profile w chainType now :: Db.walletProfiles db)
    /\ (Db.select_walletProfile w db <> None -> snd r = snd checked)
    /\ (Db.mc_revoked (fst checked) = true ->
          wp_discordVerified (Routers.pv_profile view) = false)
    /\ (wp_xConnected (Routers.pv_profile view) = true ->
          Routers.dailyPostCompleted view = fst (Db.isDailyPostCompleted today w (snd r))).
Proof.
  intros r checked. subst r. unfold Routers.getProfile.
  rewrite DbFacts.bind_fst, DbFacts.bind_snd. fold checked.
  rewrite DbFacts.bind_fst, DbFacts.bind_snd.
  rewrite ProfilePage.getOrCreate_run.
  destruct (Db.select_walletProfile w db) as [p0|] eqn:E0.
  - (* the wallet is known *)
    assert (Hkeep : Db.select_walletProfile w (snd checked) <> None).
    { subst checked.
      destruct (Membership2.check_cases now configured api w db) as [E|[E [p [Hsel [Hg Hapi]]]]].
      - rewrite E. cbn. congruence.
      - pose proof (Membership2.check_unverifies now configured api w db p Hsel Hg Hapi) as H.
        unfold DbProps.column in H.
        destruct (Db.select_walletProfile w
                    (snd (Db.checkUserDiscordMembership now configured api w db)));
          [discriminate | discriminate H]. }
    destruct (Db.select_walletProfile w (snd checked)) as [p|] eqn:E; [|congruence].
    cbn [fst snd].
    assert (Hstate : forall b : bool,
              snd ((if b then Db.isDailyPostCompleted today w else (ret false : Db.M bool))
                     (snd checked)) = snd checked).
    { intros []; reflexivity. }
    rewrite DbFacts.bind_fst, DbFacts.bind_snd, Hstate. cbn [ret fst snd].
    eexists. split; [reflexivity|]. cbn [Routers.todayUTC Routers.pv_profile
      Routers.dailyPostCompleted].
    split; [reflexivity|]. split; [exact E|]. split; [congruence|].
    split; [reflexivity|]. split.
    + intros Hrev. subst checked.
      destruct (Membership2.check_cases now configured api w db) as [E1|[E1 [q [Hsel [Hg Hapi]]]]].
      * rewrite E1 in Hrev. discriminate.
      * pose proof (Membership2.check_unverifies now configured api w db q Hsel Hg Hapi) as H.
        unfold DbProps.column in H. rewrite E in H. injection H as H. exact H.
    + intros ->. reflexivity.
  - (* first sight of the wallet *)
    assert (Hc : checked = (Db.mkMembershipCheck true false, db))
      by (apply ProfilePage.check_absent, E0).
    rewrite Hc. cbn [fst snd]. rewrite E0. cbn [fst snd new_profile wp_xConnected].
    cbn [ret fst snd].
    eexists. split; [reflexivity|]. cbn [Routers.todayUTC Routers.pv_profile
      Routers.dailyPostCompleted].
    split; [reflexivity|]. split.
    { unfold Db.select_walletProfile. cbn. rewrite String.eqb_refl. reflexivity. }
    split; [intros _; repeat split|]. split; [congruence|].
    split; [discriminate|]. discriminate.
Qed.

(** ** What stays once written *)

Module Stability.
Import Db DbSpec DbFacts Walk.

(** The operations, opened up to the functions they share. *)
Ltac open_op :=
  unfold getOrCreateWalletProfile, claimConnectBonus, connectXAccount, disconnectXAccount,
    connectDiscordAccount, disconnectDiscordAccount, verifyDiscordServer, completeDailyPost,
    getOrCreateReferralCode, applyReferralCode, adjustUserPoints,
    checkUserDiscordMembership, checkDiscordServerMemberships, checkAndRevokeDeletedTweets,
    cronCheckAllTweets.

Lemma run_invariant (I : Store -> Prop) :
  (forall now op db, I db -> I (step now op db)) ->
  forall ops db, I db -> I (run ops db).
Proof.
  intros Hstep ops. induction ops as [|[now op] ops IH]; intros db H; cbn [run].
  - exact H.
  - apply IH, Hstep, H.
Qed.

Section Code.
Variable w : string.
Variable code : string.
Hypothesis code_nonempty : code <> "".

Let I : Store -> Prop := fun db => DbProps.column wp_referralCode w db = Some (Some code).

Lemma code_truthy : truthy (Some code) = true.
Proof. cbn. destruct (String.eqb_spec code ""); [contradiction | reflexivity]. Qed.

Lemma code_getOrCreateWalletProfile now w' c :
  preserves I (getOrCreateWalletProfile now w' c).
Proof.
  intros db H. unfold getOrCreateWalletProfile. rewrite bind_snd. cbn [gets fst snd].
  destruct (select_walletProfile w' db) eqn:E; [exact H|].
  rewrite bind_snd. cbn [gets snd].
  apply (column_insert_other wp_referralCode w _ (new_profile w' c now)); [|exact H].
  cbn. intros ->. unfold I, DbProps.column in H. rewrite E in H. discriminate.
Qed.

Lemma code_maybeGenerate now n w' : preserves I (maybeGenerateReferralCode now n w').
Proof.
  intros db H. unfold maybeGenerateReferralCode, getWalletProfile.
  rewrite bind_snd. cbn [gets fst snd].
  destruct (select_walletProfile w' db) as [p|] eqn:E; [|exact H].
  destruct (String.eqb_spec w w') as [<-|Hne].
  - pose proof H as H'. unfold I, DbProps.column in H'. rewrite E in H'. injection H' as H'.
    rewrite H', code_truthy, andb_false_r. exact H.
  - destruct (_ && _); [|exact H]. cbv zeta.
    apply (column_update_other wp_referralCode w _ w'); [exact Hne | keeps | exact H].
Qed.

Lemma code_getOrCreateReferralCode now n w' : preserves I (getOrCreateReferralCode now n w').
Proof.
  intros db H. unfold getOrCreateReferralCode, getWalletProfile.
  rewrite bind_snd. cbn [gets fst snd].
  destruct (select_walletProfile w' db) as [p|] eqn:E; [|exact H].
  destruct (_ || _); [exact H|].
  destruct (String.eqb_spec w w') as [<-|Hne].
  - pose proof H as H'. unfold I, DbProps.column in H'. rewrite E in H'. injection H' as H'.
    rewrite H', code_truthy. exact H.
  - destruct (truthy (wp_referralCode p)); [exact H|]. cbv zeta. rewrite bind_snd.
    apply (column_update_other wp_referralCode w _ w'); [exact Hne | keeps | exact H].
Qed.

Ltac code_prim :=
  first
    [ match goal with
      | |- preserves _ (maybeGenerateReferralCode _ _ _) => apply code_maybeGenerate
      end
    | column_prim (fun (v : Z) (p : WalletProfile) => eq_refl (wp_referralCode p))
                  (fun (v : Date) (p : WalletProfile) => eq_refl (wp_referralCode p)) ].

Lemma code_step now op db : I db -> I (step now op db).
Proof.
  intros H. destruct op; cbn [step]; apply preserves_run; try exact H;
    try apply code_getOrCreateWalletProfile;
    try apply code_getOrCreateReferralCode;
    open_op; walk code_prim.
Qed.

End Code.
End Stability.

Module Stability2.
Import Db DbSpec DbFacts Walk Stability.

Section ReferredBy.
Variable w : string.
Variable code : string.
Hypothesis code_nonempty : code <> "".

Let I : Store -> Prop := fun db => DbProps.column wp_referredBy w db = Some (Some code).

Lemma referredBy_getOrCreateWalletProfile now w' c :
  preserves I (getOrCreateWalletProfile now w' c).
Proof.
  intros db H. unfold getOrCreateWalletProfile. rewrite bind_snd. cbn [gets fst snd].
  destruct (select_walletProfile w' db) eqn:E; [exact H|].
  rewrite bind_snd. cbn [gets snd].
  apply (column_insert_other wp_referredBy w _ (new_profile w' c now)); [|exact H].
  cbn. intros ->. unfold I, DbProps.column in H. rewrite E in H. discriminate.
Qed.

Lemma referredBy_applyReferralCode now w' c : preserves I (applyReferralCode now w' c).
Proof.
  intros db H. unfold applyReferralCode, getWalletProfile.
  rewrite bind_snd. cbn [gets fst snd].
  destruct (select_walletProfile w' db) as [p|] eqn:E; [|exact H].
  destruct (String.eqb_spec w w') as [<-|Hne].
  - pose proof H as H'. unfold I, DbProps.column in H'. rewrite E in H'. injection H' as H'.
    rewrite H', (code_truthy code code_nonempty). exact H.
  - destruct (truthy (wp_referredBy p)); [exact H|].
    rewrite bind_snd. cbn [gets fst snd].
    destruct (select_walletProfile_by_code (toUpperCase c) db) as [referrer|]; [|exact H].
    destruct (String.eqb (wp_walletAddress referrer) w'); [exact H|].
    destruct (_ || _); [exact H|].
    rewrite !bind_snd. cbn [ret snd].
    apply (column_update_other wp_referredBy w _ w'); [exact Hne | keeps|]. exact H.
Qed.

Ltac referredBy_prim :=
  column_prim (fun (v : Z) (p : WalletProfile) => eq_refl (wp_referredBy p))
              (fun (v : Date) (p : WalletProfile) => eq_refl (wp_referredBy p)).

Lemma referredBy_step now op db : I db -> I (step now op db).
Proof.
  intros H. destruct op; cbn [step]; apply preserves_run; try exact H;
    try apply referredBy_getOrCreateWalletProfile;
    try apply referredBy_applyReferralCode;
    open_op; walk referredBy_prim.
Qed.

End ReferredBy.

Lemma toUpperCase_nonempty s : s <> "" -> toUpperCase s <> "".
Proof. destruct s; [congruence | discriminate]. Qed.

Lemma apply_success now w c db :
  success (fst (applyReferralCode now w c db)) = true ->
  DbProps.column wp_referredBy w (snd (applyReferralCode now w c db))
  = Some (Some (toUpperCase c)).
Proof.
  unfold applyReferralCode, getWalletProfile.
  rewrite bind_fst, bind_snd. cbn [gets fst snd].
  destruct (select_walletProfile w db) as [p|] eqn:E; [|discriminate].
  destruct (truthy (wp_referredBy p)); [discriminate|].
  rewrite bind_fst, bind_snd. cbn [gets fst snd].
  destruct (select_walletProfile_by_code (toUpperCase c) db) as [referrer|]; [|discriminate].
  destruct (String.eqb (wp_walletAddress referrer) w); [discriminate|].
  destruct (_ || _); [discriminate|]. intros _.
  rewrite !bind_snd. cbn [ret snd]. unfold DbProps.column.
  rewrite select_update by keeps. rewrite String.eqb_refl.
  change (select_walletProfile w (snd (insert_referral _ db))) with (select_walletProfile w db).
  rewrite E. reflexivity.
Qed.

End Stability2.

(** X22. A wallet that holds a non-empty referral code keeps exactly that
    code through every sequence of operations: the code is issued once and
    never replaced or removed. *)
Theorem referral_code_is_permanent (ops : list (Date * Db.Op)) (db : Db.Store)
    (w code : string) :
  code <> "" ->
  DbProps.column wp_referralCode w db = Some (Some code) ->
  DbProps.column wp_referralCode w (Db.run ops db) = Some (Some code).
Proof.
  intros Hne. apply (Stability.run_invariant
    (fun s => DbProps.column wp_referralCode w s = Some (Some code))).
  intros now op s. apply Stability.code_step, Hne.
Qed.

(** X23. Once [applyReferralCode] has succeeded for a wallet (with a
    non-empty code), the wallet keeps that code as [referredBy] through
    every later sequence of operations, and every later
    [applyReferralCode] of that wallet is refused without a write. *)
Theorem referral_applied_once (now : Date) (w code : string) (db : Db.Store)
    (ops : list (Date * Db.Op)) (now' : Date) (code' : string) :
  code <> "" ->
  success (fst (Db.applyReferralCode now w code db)) = true ->
  let db' := Db.run ops (snd (Db.applyReferralCode now w code db)) in
  DbProps.column wp_referredBy w db' = Some (Some (toUpperCase code))
  /\ Db.applyReferralCode now' w code' db'
     = (failure "You have already used a referral code", db').
Proof.
  intros Hne Hs db'.
  assert (H : DbProps.column wp_referredBy w db' = Some (Some (toUpperCase code))).
  { subst db'. apply (Stability.run_invariant
      (fun s => DbProps.column wp_referredBy w s = Some (Some (toUpperCase code)))).
    - intros now0 op s. apply Stability2.referredBy_step.
      apply Stability2.toUpperCase_nonempty, Hne.
    - apply Stability2.apply_success, Hs. }
  split; [exact H|].
  unfold Db.applyReferralCode, Db.getWalletProfile, bind, gets.
  unfold DbProps.column in H.
  destruct (Db.select_walletProfile w db') as [p|]; [|discriminate].
  injection H as ->.
  rewrite (Stability.code_truthy _ (Stability2.toUpperCase_nonempty _ Hne)). reflexivity.
Qed.

Lemma referral_code_is_permanent_witness :
  let db := Db.run Scenario.db_happy_path Db.empty in
  let ops := [ (10, Db.DisconnectXAccount "0xa");
               (11, Db.ConnectXAccount "zzzzzzzz" "0xa" "alice");
               (12, Db.GetOrCreateReferralCode "yyyyyyyy" "0xa") ] in
  DbProps.column wp_referralCode "0xa" db = Some (Some "ABCDEFGH")
  /\ DbProps.column wp_referralCode "0xa" (Db.run ops db) = Some (Some "ABCDEFGH").
Proof.
  intros db ops. split; [reflexivity|].
  apply (referral_code_is_permanent ops db "0xa" "ABCDEFGH"); [discriminate | reflexivity].
Defined.

Lemma referral_applied_once_witness :
  let db := Db.run [ (1, Db.GetOrCreateWalletProfile "0xa" "evm");
                     (2, Db.ConnectXAccount "abcdefgh" "0xa" "alice");
                     (3, Db.ConnectDiscordAccount "abcdefgh" "0xa" "alice#1" (Some "d1"));
                     (4, Db.VerifyDiscordServer "abcdefgh" true (Scenario.always 200) "0xa");
                     (5, Db.GetOrCreateWalletProfile "0xb" "evm") ] Db.empty in
  let db' := Db.run [ (7, Db.ConnectXAccount "zzzzzzzz" "0xb" "bob") ]
                    (snd (Db.applyReferralCode 6 "0xb" "abcdefgh" db)) in
  success (fst (Db.applyReferralCode 6 "0xb" "abcdefgh" db)) = true
  /\ Db.applyReferralCode 8 "0xb" "abcdefgh" db'
     = (failure "You have already used a referral code", db').
Proof.
  intros db db'. split; [reflexivity|].
  refine (proj2 (referral_applied_once 6 "0xb" "abcdefgh" db
                   [ (7, Db.ConnectXAccount "zzzzzzzz" "0xb" "bob") ] 8 "abcdefgh" _ _));
    [discriminate | reflexivity].
Defined.

(** ** The connect bonus *)

Module ConnectBonus.
Import Db DbSpec DbFacts Walk Stability DbProps.

Section Once.
Variable w : string.

Let K : Store -> Prop := bonus_once w.

Lemma rows_addPoints now w' pts ty d db :
  String.eqb w' w && String.eqb ty "connect_bonus" = false ->
  connect_bonus_rows w (snd (addPoints now w' pts ty d db)) = connect_bonus_rows w db.
Proof.
  intros Hty. destruct (select_walletProfile w' db) as [p|] eqn:E.
  - rewrite (addPoints_known _ _ _ _ _ _ _ E). unfold connect_bonus_rows.
    cbn [snd pointsHistory filter ph_walletAddress ph_transactionType]. rewrite Hty. reflexivity.
  - rewrite (addPoints_unknown _ _ _ _ _ _ E). reflexivity.
Qed.

Lemma K_update w' f :
  keeps_address f ->
  (forall p, wp_connectBonusClaimed p = true -> wp_connectBonusClaimed (f p) = true) ->
  preserves K (update_walletProfiles w' f).
Proof.
  intros Ha Hk db [H|[Hrow H]]; [left; exact H|]. right. split; [exact Hrow|].
  unfold DbProps.column in *. rewrite select_update by exact Ha.
  destruct (String.eqb w w'); [|exact H].
  destruct (select_walletProfile w db) as [p|]; [|discriminate].
  cbn in *. injection H as H. rewrite (Hk p H). reflexivity.
Qed.

Lemma K_addPoints now w' pts ty d :
  String.eqb ty "connect_bonus" = false -> preserves K (addPoints now w' pts ty d).
Proof.
  intros Hty db H. unfold K, bonus_once in *.
  rewrite rows_addPoints by (rewrite Hty; apply andb_false_r).
  destruct H as [H|[Hrow H]]; [left; exact H|]. right. split; [exact Hrow|].
  apply (column_addPoints wp_connectBonusClaimed (fun v p => eq_refl) (fun v p => eq_refl));
    exact H.
Qed.

Lemma K_addPoints_other now w' pts ty d :
  w' <> w -> preserves K (addPoints now w' pts ty d).
Proof.
  intros Hne db H. unfold K, bonus_once in *.
  rewrite rows_addPoints by (destruct (String.eqb_spec w' w); [contradiction | reflexivity]).
  destruct H as [H|[Hrow H]]; [left; exact H|]. right. split; [exact Hrow|].
  apply (column_addPoints wp_connectBonusClaimed (fun v p => eq_refl) (fun v p => eq_refl));
    exact H.
Qed.

Lemma K_tasks (f : Store -> list TaskCompletion) :
  preserves K (modify (fun db => mkStore (walletProfiles db) (f db)
                                         (pointsHistory db) (referrals db))).
Proof. intros db H. exact H. Qed.

Lemma K_referrals (f : Store -> list Referral) :
  preserves K (modify (fun db => mkStore (walletProfiles db) (taskCompletions db)
                                         (pointsHistory db) (f db))).
Proof. intros db H. exact H. Qed.

Lemma K_completeTask now w' ty pts meta date :
  preserves K (completeTask now w' ty pts meta date).
Proof.
  unfold completeTask. apply preserves_bind; [apply K_tasks | intros; apply preserves_ret].
Qed.

Lemma K_getOrCreateWalletProfile now w' c : preserves K (getOrCreateWalletProfile now w' c).
Proof.
  intros db H. unfold getOrCreateWalletProfile. rewrite bind_snd. cbn [gets fst snd].
  destruct (select_walletProfile w' db) eqn:E; [exact H|].
  rewrite bind_snd. cbn [gets snd].
  destruct H as [H|[Hrow H]]; [left; exact H|]. right. split; [exact Hrow|].
  apply (column_insert_other wp_connectBonusClaimed w _ (new_profile w' c now)); [|exact H].
  cbn. intros ->. unfold DbProps.column in H. rewrite E in H. discriminate.
Qed.

Lemma K_claimConnectBonus now w' : preserves K (claimConnectBonus now w').
Proof.
  intros db H. unfold claimConnectBonus, getWalletProfile.
  rewrite bind_snd. cbn [gets fst snd].
  destruct (select_walletProfile w' db) as [p|] eqn:E; [|exact H].
  destruct (wp_connectBonusClaimed p) eqn:Hc; [exact H|].
  cbv zeta. rewrite !bind_snd. cbn [ret snd].
  set (db1 := snd (update_walletProfiles w'
                     (fun q => set_updatedAt now (set_connectBonusClaimed true q)) db)).
  assert (H1 : K db1).
  { apply K_update; [keeps | intros; reflexivity | exact H]. }
  destruct (String.eqb_spec w' w) as [->|Hne].
  - assert (Hnone : connect_bonus_rows w db = []).
    { destruct H as [H|[_ H]]; [exact H|]. unfold DbProps.column in H. rewrite E in H.
      cbn in H. congruence. }
    assert (E1 : select_walletProfile w db1
                 = Some (set_updatedAt now (set_connectBonusClaimed true p))).
    { subst db1. rewrite select_update by keeps. rewrite String.eqb_refl, E. reflexivity. }
    right. rewrite (addPoints_known _ _ _ _ _ _ _ E1). split.
    + eexists. split.
      * unfold connect_bonus_rows.
        cbn [snd pointsHistory filter ph_walletAddress ph_transactionType].
        rewrite !String.eqb_refl. cbn [andb]. f_equal. exact Hnone.
      * reflexivity.
    + unfold DbProps.column, select_walletProfile. cbn [snd walletProfiles].
      rewrite find_update by keeps. rewrite String.eqb_refl.
      fold (select_walletProfile w db1). rewrite E1. reflexivity.
  - apply K_addPoints_other; assumption.
Qed.

Ltac K_prim :=
  idtac;
  match goal with
  | |- preserves _ (addPoints _ _ _ _ _) => apply K_addPoints; reflexivity
  | |- preserves _ (update_walletProfiles _ _) =>
      apply K_update; [keeps | let H := fresh in intros ? H; exact H]
  | |- preserves _ (update_taskCompletions _ _) => apply K_tasks
  | |- preserves _ (completeTask _ _ _ _ _ _) => apply K_completeTask
  | |- preserves _ (insert_referral _) => apply K_referrals
  | |- preserves _ (update_referrals _ _) => apply K_referrals
  end.

Lemma K_step now op db : K db -> K (step now op db).
Proof.
  intros H. destruct op; cbn [step]; apply preserves_run; try exact H;
    try apply K_getOrCreateWalletProfile;
    try apply K_claimConnectBonus;
    open_op; walk K_prim.
Qed.

End Once.

Lemma bonus_once_run ops w : bonus_once w (run ops empty).
Proof.
  apply (run_invariant (bonus_once w)).
  - intros now op db. apply K_step.
  - left. reflexivity.
Qed.
End ConnectBonus.

(** X24. In every store reached from the empty one a wallet has at most
    one [connect_bonus] history row, of 300 points, and once it has one
    every further [claimConnectBonus] is refused without a write. *)
Theorem connect_bonus_paid_once (ops : list (Date * Db.Op)) (w : string) :
  let db := Db.run ops Db.empty in
  (List.length (DbProps.connect_bonus_rows w db) <= 1)%nat
  /\ (forall row, In row (DbProps.connect_bonus_rows w db) -> ph_pointsChange row = 300)
  /\ (DbProps.connect_bonus_rows w db <> [] ->
        forall now, Db.claimConnectBonus now w db
                    = (failure "Connect bonus already claimed", db)).
Proof.
  intros db. destruct (ConnectBonus.bonus_once_run ops w) as [H|[[row [Hrow H300]] H]];
    fold db in H.
  - rewrite H. cbn. split; [lia|]. split; [tauto | congruence].
  - fold db in Hrow. rewrite Hrow. cbn [List.length In]. split; [lia|].
    split; [intros r [<-|[]]; exact H300|]. intros _ now.
    unfold Db.claimConnectBonus, Db.getWalletProfile, bind, gets.
    unfold DbProps.column in H. destruct (Db.select_walletProfile w db); [|discriminate].
    injection H as ->. reflexivity.
Qed.

(** ** Verified profiles *)

Module Discord.
Import Db DbSpec DbFacts Walk Stability DbProps.

Lemma D_update_at w f db :
  keeps_address f ->
  (forall p, select_walletProfile w db = Some p -> verified_is_connected (f p)) ->
  discord_ok db -> discord_ok (snd (update_walletProfiles w f db)).
Proof.
  intros Ha Hf H w0 p0. rewrite select_update by exact Ha.
  destruct (String.eqb_spec w0 w) as [->|]; [|apply H].
  destruct (select_walletProfile w db) as [p|] eqn:E; [|discriminate].
  cbn. intros [= <-]. apply Hf. reflexivity.
Qed.

Lemma D_update w f :
  keeps_address f ->
  (forall p, verified_is_connected p -> verified_is_connected (f p)) ->
  preserves discord_ok (update_walletProfiles w f).
Proof.
  intros Ha Hf db H. apply D_update_at; [exact Ha | | exact H].
  intros p Hp. apply Hf, (H w p Hp).
Qed.

Lemma D_addPoints now w pts ty d : preserves discord_ok (addPoints now w pts ty d).
Proof.
  intros db H w0 p0. rewrite addPoints_select.
  destruct (String.eqb w0 w); [|apply H].
  destruct (select_walletProfile w0 db) as [p|] eqn:E; [|discriminate].
  cbn. intros [= <-]. exact (H w0 p E).
Qed.

Lemma D_tasks (f : Store -> list TaskCompletion) :
  preserves discord_ok (modify (fun db => mkStore (walletProfiles db) (f db)
                                                  (pointsHistory db) (referrals db))).
Proof. intros db H. exact H. Qed.

Lemma D_referrals (f : Store -> list Referral) :
  preserves discord_ok (modify (fun db => mkStore (walletProfiles db) (taskCompletions db)
                                                  (pointsHistory db) (f db))).
Proof. intros db H. exact H. Qed.

Lemma D_completeTask now w' ty pts meta date :
  preserves discord_ok (completeTask now w' ty pts meta date).
Proof.
  unfold completeTask. apply preserves_bind; [apply D_tasks | intros; apply preserves_ret].
Qed.

Ltac D_prim :=
  idtac;
  match goal with
  | |- preserves _ (addPoints _ _ _ _ _) => apply D_addPoints
  | |- preserves _ (update_walletProfiles _ _) =>
      apply D_update;
      [ keeps
      | let H := fresh in let Hv := fresh in
        intros ? H; first [exact H | intro Hv; discriminate Hv] ]
  | |- preserves _ (update_taskCompletions _ _) => apply D_tasks
  | |- preserves _ (completeTask _ _ _ _ _ _) => apply D_completeTask
  | |- preserves _ (insert_referral _) => apply D_referrals
  | |- preserves _ (update_referrals _ _) => apply D_referrals
  end.

Lemma D_getOrCreateWalletProfile now w c :
  preserves discord_ok (getOrCreateWalletProfile now w c).
Proof.
  intros db H. unfold getOrCreateWalletProfile. rewrite bind_snd. cbn [gets fst snd].
  destruct (select_walletProfile w db) eqn:E; [exact H|].
  rewrite bind_snd. cbn [gets snd]. intros w0 p0. unfold select_walletProfile.
  cbn [insert_walletProfile modify snd walletProfiles find].
  destruct (walletAddress_is w0 (new_profile w c now)); [|apply H].
  intros [= <-] Hv. discriminate Hv.
Qed.

Lemma D_connectDiscordAccount now n w u i :
  preserves discord_ok (connectDiscordAccount now n w u i).
Proof.
  intros db H. unfold connectDiscordAccount, getWalletProfile.
  rewrite bind_snd. cbn [gets fst snd].
  destruct (select_walletProfile w db) as [p|] eqn:E; [|exact H].
  destruct (wp_discordConnected p) eqn:Hc; [exact H|].
  cbv zeta. rewrite bind_snd. apply preserves_run; [walk D_prim|].
  apply D_update_at; [keeps | | exact H].
  intros q Hq Hv. cbn in Hv. rewrite E in Hq. injection Hq as <-.
  destruct (H w p E Hv) as [Hcon _]. congruence.
Qed.

Lemma D_verifyDiscordServer now n c api w :
  preserves discord_ok (verifyDiscordServer now n c api w).
Proof.
  intros db H. unfold verifyDiscordServer, getWalletProfile.
  destruct c; [|exact H]. cbn [negb].
  rewrite bind_snd. cbn [gets fst snd].
  destruct (select_walletProfile w db) as [p|] eqn:E; [|exact H].
  destruct (wp_discordConnected p) eqn:Hc; [|exact H].
  destruct (wp_discordVerified p) eqn:Hv; [exact H|].
  destruct (truthy (wp_discordId p)) eqn:Hi; [|exact H]. cbn [negb].
  destruct (api (or_else (wp_discordId p) "")) as [status|]; [|exact H].
  destruct (Z.eqb status 404); [exact H|].
  destruct (response_ok status); [|exact H]. cbn [negb].
  cbv zeta. rewrite bind_snd. apply preserves_run; [walk D_prim|].
  apply D_update_at; [keeps | | exact H].
  intros q Hq _. rewrite E in Hq. injection Hq as <-. cbn. auto.
Qed.

Lemma D_step now op db : discord_ok db -> discord_ok (step now op db).
Proof.
  intros H. destruct op; cbn [step]; apply preserves_run; try exact H;
    try apply D_getOrCreateWalletProfile;
    try apply D_connectDiscordAccount;
    try apply D_verifyDiscordServer;
    open_op; walk D_prim.
Qed.

Lemma D_run ops : discord_ok (run ops empty).
Proof.
  apply (run_invariant discord_ok D_step). intros w p H. discriminate H.
Qed.

Lemma select_of_unique_row (l : list WalletProfile) p :
  NoDup (map wp_walletAddress l) -> In p l ->
  find (walletAddress_is (wp_walletAddress p)) l = Some p.
Proof.
  induction l as [|a l IH]; intros Hnd Hin; [contradiction|].
  cbn [map] in Hnd. inversion Hnd as [|? ? Hnotin Hnd']; subst.
  cbn [find]. unfold walletAddress_is at 1.
  destruct Hin as [->|Hin].
  - rewrite String.eqb_refl. reflexivity.
  - destruct (String.eqb_spec (wp_walletAddress a) (wp_walletAddress p)) as [E|E].
    + exfalso. apply Hnotin. rewrite E. apply in_map, Hin.
    + apply IH; assumption.
Qed.

End Discord.


(** ** One post a day, over any sequence *)

Module OnePost.
Import Db DbSpec DbFacts Walk Stability DbProps.

Section Day.
Variable w date : string.

Let T : Store -> Prop := fun db => (List.length (active_posts w date db) <= 1)%nat.

Lemma T_profiles (f : Store -> list WalletProfile) (g : Store -> list PointsHistory) :
  preserves T (modify (fun db => mkStore (f db) (taskCompletions db) (g db) (referrals db))).
Proof. intros db H. exact H. Qed.

Lemma T_update w' f : preserves T (update_walletProfiles w' f).
Proof. intros db H. exact H. Qed.

Lemma T_addPoints now w' pts ty d : preserves T (addPoints now w' pts ty d).
Proof. intros db H. unfold T, active_posts in *. rewrite addPoints_tasks. exact H. Qed.

Lemma T_referrals (f : Store -> list Referral) :
  preserves T (modify (fun db => mkStore (walletProfiles db) (taskCompletions db)
                                         (pointsHistory db) (f db))).
Proof. intros db H. exact H. Qed.

Lemma T_revoke id now : preserves T (update_taskCompletions id (set_task_revoked now)).
Proof.
  intros db H. unfold T, active_posts in *. cbn [update_taskCompletions modify snd taskCompletions].
  eapply Nat.le_trans; [|exact H]. clear H.
  induction (taskCompletions db) as [|t l IH]; cbn [map filter]; [lia|].
  destruct (Z.eqb (tc_id t) id).
  - cbn [set_task_revoked tc_status is_active]. rewrite andb_false_r.
    destruct (_ && is_active (tc_status t)); cbn [List.length]; lia.
  - destruct (_ && is_active (tc_status t)); cbn [List.length]; lia.
Qed.

Ltac T_prim :=
  idtac;
  match goal with
  | |- preserves _ (addPoints _ _ _ _ _) => apply T_addPoints
  | |- preserves _ (update_walletProfiles _ _) => apply T_update
  | |- preserves _ (update_taskCompletions _ _) => apply T_revoke
  | |- preserves _ (insert_referral _) => apply T_referrals
  | |- preserves _ (update_referrals _ _) => apply T_referrals
  end.

Lemma T_getOrCreateWalletProfile now w' c : preserves T (getOrCreateWalletProfile now w' c).
Proof.
  intros db H. unfold getOrCreateWalletProfile. rewrite bind_snd. cbn [gets fst snd].
  destruct (select_walletProfile w' db); [exact H|]. rewrite bind_snd. exact H.
Qed.

Lemma not_done_no_active_post today w' db :
  fst (hasCompletedTask w' "daily_post" (Some today) db) = false ->
  active_posts w' today db = [].
Proof.
  unfold hasCompletedTask. rewrite bind_fst. cbn [gets fst snd ret].
  destruct (find _ (taskCompletions db)) eqn:E; [discriminate|]. intros _.
  unfold active_posts. induction (taskCompletions db) as [|t l IH]; [reflexivity|].
  cbn [find] in E. cbn [filter].
  destruct (String.eqb (tc_walletAddress t) w' && String.eqb (tc_taskType t) "daily_post"
            && (if truthy (Some today)
                then match tc_completionDate t with
                     | Some d' => String.eqb d' today
                     | None => false
                     end
                else true) && is_active (tc_status t)) eqn:Ht; [discriminate|].
  rewrite (IH E).
  destruct (String.eqb (tc_walletAddress t) w' && String.eqb (tc_taskType t) "daily_post"
            && opt_string_eqb (tc_completionDate t) today && is_active (tc_status t)) eqn:Ha;
    [|reflexivity].
  exfalso. apply andb_prop in Ha as [Ha Hact]. apply andb_prop in Ha as [Ha Hdate].
  rewrite Ha, Hact in Ht. cbn [andb] in Ht.
  unfold opt_string_eqb in Hdate. destruct (truthy (Some today)); [|discriminate].
  rewrite andb_true_r in Ht. congruence.
Qed.

Lemma T_completeDailyPost now today w' url : preserves T (completeDailyPost now today w' url).
Proof.
  intros db H. unfold completeDailyPost, getWalletProfile.
  rewrite bind_snd. cbn [gets fst snd].
  destruct (select_walletProfile w' db) as [p|] eqn:E; [|exact H].
  destruct (wp_xConnected p); [|exact H]. cbn [negb].
  rewrite bind_snd.
  change (snd (hasCompletedTask w' "daily_post" (Some today) db)) with db.
  destruct (fst (hasCompletedTask w' "daily_post" (Some today) db)) eqn:Hdone; [exact H|].
  cbv zeta. rewrite bind_snd. apply preserves_run; [walk T_prim|].
  unfold T, active_posts, completeTask. rewrite bind_snd.
  cbn [insert_taskCompletion modify snd ret taskCompletions filter tc_walletAddress tc_taskType
       tc_completionDate tc_status is_active opt_string_eqb].
  destruct (String.eqb_spec w' w) as [->|]; [|exact H].
  destruct (String.eqb_spec today date) as [->|]; [|exact H].
  cbn [andb String.eqb Ascii.eqb Bool.eqb].
  pose proof (not_done_no_active_post date w db Hdone) as Hnone.
  unfold active_posts in Hnone. rewrite Hnone. cbn. lia.
Qed.

Lemma T_step now op db : T db -> T (step now op db).
Proof.
  intros H. destruct op; cbn [step]; apply preserves_run; try exact H;
    try apply T_getOrCreateWalletProfile;
    try apply T_completeDailyPost;
    open_op; walk T_prim.
Qed.

End Day.
End OnePost.

(** X26. In every store reached from the empty one, a wallet has at most
    one active daily-post completion for any one day. *)
Theorem one_active_post_per_day (ops : list (Date * Db.Op)) (w date : string) :
  (List.length (DbProps.active_posts w date (Db.run ops Db.empty)) <= 1)%nat.
Proof.
  apply (Stability.run_invariant
           (fun db => (List.length (DbProps.active_posts w date db) <= 1)%nat)).
  - intros now op db. apply OnePost.T_step.
  - cbn. lia.
Qed.

(** ** Row ids *)

Module Ids.
Import Db DbSpec DbFacts Walk Stability DbProps.

Lemma ranked_bound {R} (id : R -> Z) (l : list R) :
  ranked id l -> forall x, In x l -> 1 <= id x <= Z.of_nat (List.length l).
Proof.
  induction l as [|a l IH]; intros H x Hin; [contradiction|].
  destruct H as [Ha Hl]. cbn [List.length]. destruct Hin as [<-|Hin]; [lia|].
  specialize (IH Hl x Hin). lia.
Qed.

Lemma ranked_NoDup {R} (id : R -> Z) (l : list R) : ranked id l -> NoDup (map id l).
Proof.
  induction l as [|a l IH]; intros H; cbn [map]; [constructor|].
  destruct H as [Ha Hl]. constructor; [|apply IH, Hl].
  intros Hin. apply in_map_iff in Hin as [x [Hx Hin]].
  pose proof (ranked_bound id l Hl x Hin). lia.
Qed.

Lemma ranked_map {R} (id : R -> Z) (f : R -> R) (l : list R) :
  (forall x, id (f x) = id x) -> ranked id l -> ranked id (map f l).
Proof.
  intros Hf. induction l as [|a l IH]; intros H; cbn [map ranked]; [exact I|].
  destruct H as [Ha Hl]. rewrite length_map, Hf. split; [exact Ha | apply IH, Hl].
Qed.

Lemma N_update w f : preserves ids_ok (update_walletProfiles w f).
Proof. intros db H. exact H. Qed.

Lemma N_addPoints now w pts ty d : preserves ids_ok (addPoints now w pts ty d).
Proof.
  intros db [Ht [Hh Hr]]. destruct (select_walletProfile w db) as [p|] eqn:E.
  - rewrite (addPoints_known _ _ _ _ _ _ _ E). repeat split; assumption.
  - rewrite (addPoints_unknown _ _ _ _ _ _ E). repeat split; assumption.
Qed.

Lemma N_completeTask now w ty pts meta date :
  preserves ids_ok (completeTask now w ty pts meta date).
Proof.
  intros db [Ht [Hh Hr]]. unfold completeTask. rewrite bind_snd.
  repeat split; assumption.
Qed.

Lemma N_tasks f :
  (forall t, tc_id (f t) = tc_id t) ->
  forall id, preserves ids_ok (update_taskCompletions id f).
Proof.
  intros Hf id db [Ht [Hh Hr]]. split; [|split; assumption].
  cbn. apply ranked_map; [|exact Ht]. intros t. destruct (Z.eqb (tc_id t) id); [apply Hf | reflexivity].
Qed.

Lemma N_insert_referral row :
  (forall id, rf_id (row id) = id) -> preserves ids_ok (insert_referral row).
Proof.
  intros Hrow db [Ht [Hh Hr]]. split; [exact Ht|]. split; [exact Hh|].
  cbn. split; [apply Hrow | exact Hr].
Qed.

Lemma N_update_referrals id f :
  (forall r, rf_id (f r) = rf_id r) -> preserves ids_ok (update_referrals id f).
Proof.
  intros Hf db [Ht [Hh Hr]]. split; [exact Ht|]. split; [exact Hh|].
  cbn. apply ranked_map; [|exact Hr]. intros r. destruct (Z.eqb (rf_id r) id); [apply Hf | reflexivity].
Qed.

Lemma N_insert_walletProfile p : preserves ids_ok (insert_walletProfile p).
Proof. intros db H. exact H. Qed.

Ltac N_prim :=
  idtac;
  match goal with
  | |- preserves _ (addPoints _ _ _ _ _) => apply N_addPoints
  | |- preserves _ (update_walletProfiles _ _) => apply N_update
  | |- preserves _ (insert_walletProfile _) => apply N_insert_walletProfile
  | |- preserves _ (update_taskCompletions _ _) => apply N_tasks; keeps
  | |- preserves _ (completeTask _ _ _ _ _ _) => apply N_completeTask
  | |- preserves _ (insert_referral _) => apply N_insert_referral; keeps
  | |- preserves _ (update_referrals _ _) => apply N_update_referrals; keeps
  end.

Lemma N_step now op db : ids_ok db -> ids_ok (step now op db).
Proof.
  intros H. destruct op; cbn [step]; apply preserves_run; try exact H;
    open_op; walk N_prim.
Qed.

Lemma N_run ops : ids_ok (run ops empty).
Proof. apply (run_invariant ids_ok N_step). repeat split. Qed.

End Ids.


(** ** Tweet sweeps *)

Module TweetSweep.
Import Db DbSpec DbFacts Walk Stability DbProps.

Lemma filter_twice {A} (f g : A -> bool) (l : list A) :
  filter g (filter f l) = filter (fun x => f x && g x) l.
Proof.
  induction l as [|x l IH]; [reflexivity|]. cbn [filter].
  destruct (f x); cbn [andb filter]; [|exact IH].
  destruct (g x); rewrite IH; reflexivity.
Qed.

Lemma completions_are_swept wopt db :
  getActiveTweetCompletions wopt db = (filter (swept wopt) (taskCompletions db), db).
Proof.
  unfold getActiveTweetCompletions, bind, gets, ret. rewrite filter_twice. reflexivity.
Qed.

Lemma unique_by_id (l : list TaskCompletion) a b :
  NoDup (map tc_id l) -> In a l -> In b l -> tc_id a = tc_id b -> a = b.
Proof.
  induction l as [|x l IH]; intros Hnd Ha Hb E; [contradiction|].
  cbn [map] in Hnd. inversion Hnd as [|? ? Hnotin Hnd']; subst.
  destruct Ha as [->|Ha], Hb as [->|Hb].
  - reflexivity.
  - exfalso. apply Hnotin. rewrite E. apply in_map, Hb.
  - exfalso. apply Hnotin. rewrite <- E. apply in_map, Ha.
  - apply IH; assumption.
Qed.

Lemma revoke_tasks now id s :
  NoDup (map tc_id (taskCompletions s)) ->
  taskCompletions (snd (revokeTweetPoints now id s))
  = map (fun t => if Z.eqb (tc_id t) id && is_active (tc_status t)
                  then set_task_revoked now t else t)
        (taskCompletions s).
Proof.
  intros Hnd. unfold revokeTweetPoints. rewrite bind_snd. cbn [gets fst snd].
  destruct (select_taskCompletion id s) as [t|] eqn:E.
  - unfold select_taskCompletion in E. apply find_some in E as [Hin E]. apply Z.eqb_eq in E.
    assert (Huniq : forall x, In x (taskCompletions s) -> tc_id x = id -> x = t).
    { intros x Hx Ex. apply (unique_by_id _ x t Hnd Hx Hin). congruence. }
    destruct (tc_status t) eqn:Hst.
    + rewrite !bind_snd. cbn [ret snd]. rewrite addPoints_tasks.
      cbn [update_taskCompletions modify snd taskCompletions].
      apply map_ext_in. intros x Hx. destruct (Z.eqb_spec (tc_id x) id) as [Ex|]; [|reflexivity].
      rewrite (Huniq x Hx Ex), Hst. reflexivity.
    + cbn [ret snd]. rewrite <- (map_id (taskCompletions s)) at 1.
      apply map_ext_in. intros x Hx. destruct (Z.eqb_spec (tc_id x) id) as [Ex|]; [|reflexivity].
      rewrite (Huniq x Hx Ex), Hst. reflexivity.
  - cbn [ret snd]. rewrite <- (map_id (taskCompletions s)) at 1.
    apply map_ext_in. intros x Hx.
    pose proof (find_none _ _ E x Hx) as Hne. cbn in Hne. rewrite Hne. reflexivity.
Qed.

Lemma sweep_one_tasks now api c s :
  NoDup (map tc_id (taskCompletions s)) ->
  exists G, revokes_only G
    /\ taskCompletions (sweep_one now api c s) = map G (taskCompletions s)
    /\ (truthy (tc_metadata c) = true ->
        checkTweetExists api (or_else (tc_metadata c) "") = false ->
        forall t, tc_id t = tc_id c -> tc_status (G t) = Revoked).
Proof.
  intros Hnd. unfold sweep_one.
  assert (Hid : revokes_only (fun t => t)) by (constructor; auto).
  destruct (truthy (tc_metadata c)); cbn [negb].
  2:{ exists (fun t => t). rewrite map_id. split; [exact Hid|]. split; [reflexivity | discriminate]. }
  destruct (checkTweetExists api (or_else (tc_metadata c) "")).
  { exists (fun t => t). rewrite map_id. split; [exact Hid|]. split; [reflexivity | discriminate]. }
  exists (fun t => if Z.eqb (tc_id t) (tc_id c) && is_active (tc_status t)
                   then set_task_revoked now t else t).
  split; [|split].
  - constructor.
    + intros t. destruct (_ && _); reflexivity.
    + intros t. destruct (_ && _); [discriminate | reflexivity].
    + intros t Ht. destruct (_ && _); [reflexivity | exact Ht].
  - apply revoke_tasks, Hnd.
  - intros _ _ t Ht. rewrite Ht, Z.eqb_refl. cbn [andb].
    destruct (tc_status t) eqn:Hst; cbn [is_active]; [reflexivity | exact Hst].
Qed.

Lemma revokes_only_NoDup G l :
  revokes_only G -> NoDup (map tc_id l) -> NoDup (map tc_id (map G l)).
Proof.
  intros HG Hnd. rewrite map_map.
  rewrite (map_ext (fun x => tc_id (G x)) tc_id); [exact Hnd | apply (keeps_id G HG)].
Qed.

Section Loop.
Context {A : Type} (now : Date) (api : string -> FetchResult).
Variable body : TaskCompletion -> A -> M A.
Hypothesis body_state : forall c acc s, snd (body c acc s) = sweep_one now api c s.

Lemma loop_tasks cs : forall acc s,
  NoDup (map tc_id (taskCompletions s)) ->
  exists G, revokes_only G
    /\ taskCompletions (snd (for_each cs body acc s)) = map G (taskCompletions s)
    /\ (forall c, In c cs -> truthy (tc_metadata c) = true ->
          checkTweetExists api (or_else (tc_metadata c) "") = false ->
          forall t, tc_id t = tc_id c -> tc_status (G t) = Revoked).
Proof.
  induction cs as [|c cs IH]; intros acc s Hnd.
  - exists (fun t => t). rewrite map_id. split; [constructor; auto|].
    split; [reflexivity | contradiction].
  - cbn [for_each]. rewrite bind_snd, body_state.
    destruct (sweep_one_tasks now api c s Hnd) as [G1 [HG1 [E1 Hrev1]]].
    destruct (IH (fst (body c acc s)) (sweep_one now api c s)) as [G2 [HG2 [E2 Hrev2]]].
    { rewrite E1. apply revokes_only_NoDup; assumption. }
    exists (fun t => G2 (G1 t)). split; [|split].
    + constructor.
      * intros t. rewrite (keeps_id G2 HG2), (keeps_id G1 HG1). reflexivity.
      * intros t Ht. pose proof (keeps_active G2 HG2 _ Ht) as H2. rewrite H2 in Ht |- *.
        apply (keeps_active G1 HG1 _ Ht).
      * intros t Ht. apply (keeps_revoked G2 HG2), (keeps_revoked G1 HG1), Ht.
    + rewrite E2, E1, map_map. reflexivity.
    + intros c0 [<-|Hin] Htr Hex t Ht.
      * apply (keeps_revoked G2 HG2), (Hrev1 Htr Hex t Ht).
      * apply (Hrev2 c0 Hin Htr Hex). rewrite (keeps_id G1 HG1). exact Ht.
Qed.

Lemma tweet_loop_quiet cs : forall acc s,
  (forall c, In c cs -> truthy (tc_metadata c) = true ->
     checkTweetExists api (or_else (tc_metadata c) "") = true) ->
  snd (for_each cs body acc s) = s.
Proof.
  induction cs as [|c cs IH]; intros acc s H; [reflexivity|].
  cbn [for_each]. rewrite bind_snd, body_state.
  assert (Hs : sweep_one now api c s = s).
  { unfold sweep_one. destruct (truthy (tc_metadata c)) eqn:Ht; [|reflexivity].
    rewrite (H c (or_introl eq_refl) Ht). reflexivity. }
  rewrite Hs. apply IH. intros c0 Hc0. apply H. right. exact Hc0.
Qed.

(** After a sweep, what a second sweep looks at still exists. *)
Lemma swept_again_exists wopt acc s :
  NoDup (map tc_id (taskCompletions s)) ->
  forall c,
    In c (filter (swept wopt)
            (taskCompletions (snd (for_each (filter (swept wopt) (taskCompletions s))
                                            body acc s)))) ->
    truthy (tc_metadata c) = true ->
    checkTweetExists api (or_else (tc_metadata c) "") = true.
Proof.
  intros Hnd c Hc Htr.
  destruct (loop_tasks (filter (swept wopt) (taskCompletions s)) acc s Hnd)
    as [G [HG [E Hrev]]].
  rewrite E in Hc. apply filter_In in Hc as [Hin Hq].
  apply in_map_iff in Hin as [t [Ht Hin]].
  assert (Hact : is_active (tc_status (G t)) = true).
  { rewrite Ht. unfold swept in Hq. apply andb_prop in Hq as [Hq _].
    apply andb_prop in Hq as [Hq _]. apply andb_prop in Hq as [Hq _].
    apply andb_prop in Hq as [_ Hq]. exact Hq. }
  pose proof (keeps_active G HG t Hact) as Hfix. rewrite Hfix in Ht. subst c.
  destruct (checkTweetExists api (or_else (tc_metadata t) "")) eqn:Hex; [reflexivity|].
  exfalso.
  assert (Hrv : tc_status (G t) = Revoked).
  { apply (Hrev t); [apply filter_In; split; assumption | exact Htr | exact Hex | reflexivity]. }
  rewrite Hrv in Hact. discriminate.
Qed.

End Loop.

Lemma wallet_body_state now api c acc s :
  snd (wallet_body now api c acc s) = sweep_one now api c s.
Proof.
  unfold wallet_body, sweep_one. destruct (truthy (tc_metadata c)); [|reflexivity].
  cbn [negb]. cbv zeta. destruct (checkTweetExists api _); [reflexivity|]. cbn [negb].
  rewrite bind_snd. destruct (success _); reflexivity.
Qed.

Lemma cron_body_state now api c acc s :
  snd (cron_body now api c acc s) = sweep_one now api c s.
Proof.
  unfold cron_body, sweep_one. destruct (truthy (tc_metadata c)); [|reflexivity].
  cbn [negb]. cbv zeta. destruct (checkTweetExists api _); [reflexivity|]. cbn [negb].
  rewrite bind_snd. destruct (success _); reflexivity.
Qed.

Lemma wallet_sweep_run now api w s :
  checkAndRevokeDeletedTweets now api w s
  = for_each (filter (swept (Some w)) (taskCompletions s)) (wallet_body now api)
             (mkTweetCheck 0 0 []) s.
Proof.
  unfold checkAndRevokeDeletedTweets. unfold bind at 1.
  rewrite completions_are_swept. reflexivity.
Qed.

Lemma cron_sweep_run now api s :
  cronCheckAllTweets now api s
  = for_each (filter (swept None) (taskCompletions s)) (cron_body now api)
             (mkCronCounts 0 0 0) s.
Proof.
  unfold cronCheckAllTweets. unfold bind at 1.
  rewrite completions_are_swept. reflexivity.
Qed.

Lemma wallet_quiet_counts now api cs : forall acc s,
  (forall c, In c cs -> truthy (tc_metadata c) = true ->
     checkTweetExists api (or_else (tc_metadata c) "") = true) ->
  tk_revoked (fst (for_each cs (wallet_body now api) acc s)) = tk_revoked acc
  /\ revokedIds (fst (for_each cs (wallet_body now api) acc s)) = revokedIds acc.
Proof.
  induction cs as [|c cs IH]; intros acc s H; [split; reflexivity|].
  cbn [for_each]. rewrite bind_fst.
  assert (Hb : wallet_body now api c acc s
               = (if negb (truthy (tc_metadata c)) then acc
                  else mkTweetCheck (tk_checked acc + 1) (tk_revoked acc) (revokedIds acc), s)).
  { unfold wallet_body. destruct (truthy (tc_metadata c)) eqn:Ht; [|reflexivity].
    cbn [negb]. cbv zeta. rewrite (H c (or_introl eq_refl) Ht). reflexivity. }
  rewrite Hb. cbn [fst snd].
  destruct (IH (if negb (truthy (tc_metadata c)) then acc
                else mkTweetCheck (tk_checked acc + 1) (tk_revoked acc) (revokedIds acc)) s)
    as [H1 H2].
  { intros c0 Hc0. apply H. right. exact Hc0. }
  rewrite H1, H2. destruct (negb (truthy (tc_metadata c))); split; reflexivity.
Qed.

Lemma cron_quiet_counts now api cs : forall acc s,
  (forall c, In c cs -> truthy (tc_metadata c) = true ->
     checkTweetExists api (or_else (tc_metadata c) "") = true) ->
  totalRevoked (fst (for_each cs (cron_body now api) acc s)) = totalRevoked acc.
Proof.
  induction cs as [|c cs IH]; intros acc s H; [reflexivity|].
  cbn [for_each]. rewrite bind_fst.
  assert (Hb : cron_body now api c acc s
               = (if negb (truthy (tc_metadata c)) then acc
                  else mkCronCounts (totalChecked acc + 1) (totalRevoked acc) (cron_errors acc), s)).
  { unfold cron_body. destruct (truthy (tc_metadata c)) eqn:Ht; [|reflexivity].
    cbn [negb]. cbv zeta. rewrite (H c (or_introl eq_refl) Ht). reflexivity. }
  rewrite Hb. cbn [fst snd]. rewrite IH.
  - destruct (negb (truthy (tc_metadata c))); reflexivity.
  - intros c0 Hc0. apply H. right. exact Hc0.
Qed.

End TweetSweep.

(** X28. On every store reached from the empty one, running
    [checkAndRevokeDeletedTweets] for a wallet, or [cronCheckAllTweets], a
    second time against the same oEmbed answers revokes nothing and leaves
    the store exactly as the first run left it: no tweet is deducted
    twice. *)
Theorem tweet_sweeps_are_idempotent (ops : list (Date * Db.Op)) (now now' : Date)
    (api : string -> FetchResult) (w : string) :
  let db := Db.run ops Db.empty in
  (let db1 := snd (Db.checkAndRevokeDeletedTweets now api w db) in
   let again := Db.checkAndRevokeDeletedTweets now' api w db1 in
   snd again = db1 /\ Db.tk_revoked (fst again) = 0 /\ Db.revokedIds (fst again) = [])
  /\ (let db1 := snd (Db.cronCheckAllTweets now api db) in
      let again := Db.cronCheckAllTweets now' api db1 in
      snd again = db1 /\ Db.totalRevoked (fst again) = 0).
Proof.
  intros db.
  assert (Hnd : NoDup (map tc_id (Db.taskCompletions db))).
  { apply Ids.ranked_NoDup. apply (proj1 (Ids.N_run ops)). }
  split.
  - intros db1 again. subst again db1.
    rewrite (TweetSweep.wallet_sweep_run now' api w).
    rewrite (TweetSweep.wallet_sweep_run now api w db).
    pose proof (TweetSweep.swept_again_exists now api (DbProps.wallet_body now api)
                  (TweetSweep.wallet_body_state now api) (Some w) (Db.mkTweetCheck 0 0 []) db Hnd)
      as Hex.
    split; [|apply TweetSweep.wallet_quiet_counts; exact Hex].
    apply (TweetSweep.tweet_loop_quiet now' api (DbProps.wallet_body now' api)
             (TweetSweep.wallet_body_state now' api)). exact Hex.
  - intros db1 again. subst again db1.
    rewrite (TweetSweep.cron_sweep_run now' api).
    rewrite (TweetSweep.cron_sweep_run now api db).
    pose proof (TweetSweep.swept_again_exists now api (DbProps.cron_body now api)
                  (TweetSweep.cron_body_state now api) None (Db.mkCronCounts 0 0 0) db Hnd)
      as Hex.
    split; [|apply TweetSweep.cron_quiet_counts; exact Hex].
    apply (TweetSweep.tweet_loop_quiet now' api (DbProps.cron_body now' api)
             (TweetSweep.cron_body_state now' api)). exact Hex.
Qed.

(** ** The membership sweep, run twice *)

Module MemberSweep.
Import Db DbSpec DbFacts DbProps.

Lemma addPoints_profiles now w pts ty d s :
  exists v, walletProfiles (snd (addPoints now w pts ty d s))
            = map (fun q => if walletAddress_is w q
                            then set_updatedAt now (set_totalPoints v q) else q)
                  (walletProfiles s)
            \/ walletProfiles (snd (addPoints now w pts ty d s)) = walletProfiles s.
Proof.
  destruct (select_walletProfile w s) as [p|] eqn:E.
  - exists (wp_totalPoints p + pts). left. rewrite (addPoints_known _ _ _ _ _ _ _ E). reflexivity.
  - exists 0. right. rewrite (addPoints_unknown _ _ _ _ _ _ E). reflexivity.
Qed.

Lemma body_profiles now api u acc s :
  exists G, unverifies_only G
    /\ walletProfiles (snd (membership_sweep_body now api u acc s)) = map G (walletProfiles s)
    /\ (truthy (wp_discordId u) = true ->
        api (or_else (wp_discordId u) "") = Response 404 ->
        forall q, wp_walletAddress q = wp_walletAddress u -> wp_discordVerified (G q) = false).
Proof.
  assert (Hid : unverifies_only (fun p => p)) by (constructor; auto).
  unfold membership_sweep_body.
  destruct (truthy (wp_discordId u)); cbn [negb].
  2:{ exists (fun p => p). rewrite map_id. split; [exact Hid|]. split; [reflexivity | discriminate]. }
  destruct (api (or_else (wp_discordId u) "")) as [status|].
  2:{ exists (fun p => p). rewrite map_id. split; [exact Hid|]. split; [reflexivity | discriminate]. }
  cbv zeta. destruct (Z.eqb_spec status 404) as [->|Hne].
  - rewrite !bind_snd. cbn [ret snd].
    set (s1 := snd (update_walletProfiles (wp_walletAddress u)
                      (fun p => set_updatedAt now (set_discordVerified false None p)) s)).
    destruct (addPoints_profiles now (wp_walletAddress u) (-50) "discord_verify_revoked"
                (Some "Discord server verification revoked (left server)") s1) as [v [E|E]].
    + exists (fun q => if walletAddress_is (wp_walletAddress u) q
                       then set_updatedAt now (set_totalPoints v
                              (set_updatedAt now (set_discordVerified false None q)))
                       else q).
      split; [|split].
      * constructor; intros p; destruct (walletAddress_is _ p); cbn; auto; discriminate.
      * rewrite E. subst s1. cbn [update_walletProfiles modify snd walletProfiles].
        rewrite map_map. apply map_ext. intros q. unfold walletAddress_is.
        destruct (String.eqb (wp_walletAddress q) (wp_walletAddress u)) eqn:Eq; cbn;
          rewrite Eq; reflexivity.
      * intros _ _ q Hq. unfold walletAddress_is. rewrite Hq, String.eqb_refl. reflexivity.
    + exists (fun q => if walletAddress_is (wp_walletAddress u) q
                       then set_updatedAt now (set_discordVerified false None q) else q).
      split; [|split].
      * constructor; intros p; destruct (walletAddress_is _ p); cbn; auto; discriminate.
      * rewrite E. reflexivity.
      * intros _ _ q Hq. unfold walletAddress_is. rewrite Hq, String.eqb_refl. reflexivity.
  - exists (fun p => p). rewrite map_id. split; [exact Hid|].
    split; [destruct (response_ok status); reflexivity|].
    intros _ [= E]. contradiction.
Qed.

Lemma loop_profiles now api us : forall acc s,
  exists G, unverifies_only G
    /\ walletProfiles (snd (for_each us (membership_sweep_body now api) acc s))
       = map G (walletProfiles s)
    /\ (forall u, In u us -> truthy (wp_discordId u) = true ->
          api (or_else (wp_discordId u) "") = Response 404 ->
          forall q, wp_walletAddress q = wp_walletAddress u -> wp_discordVerified (G q) = false).
Proof.
  induction us as [|u us IH]; intros acc s.
  - exists (fun p => p). rewrite map_id. split; [constructor; auto|].
    split; [reflexivity | contradiction].
  - cbn [for_each]. rewrite bind_snd.
    destruct (body_profiles now api u acc s) as [G1 [HG1 [E1 Hrev1]]].
    destruct (IH (fst (membership_sweep_body now api u acc s))
                 (snd (membership_sweep_body now api u acc s))) as [G2 [HG2 [E2 Hrev2]]].
    exists (fun p => G2 (G1 p)). split; [|split].
    + constructor; intros p.
      * rewrite (same_address G2 HG2), (same_address G1 HG1). reflexivity.
      * rewrite (same_discordId G2 HG2), (same_discordId G1 HG1). reflexivity.
      * intros H. apply (still_unverified G2 HG2), (still_unverified G1 HG1), H.
      * intros H. apply (verified_untouched G1 HG1), (verified_untouched G2 HG2), H.
    + rewrite E2, E1, map_map. reflexivity.
    + intros u0 [<-|Hin] Htr Hapi q Hq.
      * apply (still_unverified G2 HG2), (Hrev1 Htr Hapi q Hq).
      * apply (Hrev2 u0 Hin Htr Hapi). rewrite (same_address G1 HG1). exact Hq.
Qed.

Lemma member_loop_quiet now api us : forall acc s,
  (forall u, In u us -> truthy (wp_discordId u) = true ->
     api (or_else (wp_discordId u) "") <> Response 404) ->
  snd (for_each us (membership_sweep_body now api) acc s) = s
  /\ sw_revoked (fst (for_each us (membership_sweep_body now api) acc s)) = sw_revoked acc.
Proof.
  induction us as [|u us IH]; intros acc s H; [split; reflexivity|].
  cbn [for_each]. rewrite bind_snd, bind_fst.
  assert (Hb : snd (membership_sweep_body now api u acc s) = s
               /\ sw_revoked (fst (membership_sweep_body now api u acc s)) = sw_revoked acc).
  { unfold membership_sweep_body. destruct (truthy (wp_discordId u)) eqn:Ht; [|split; reflexivity].
    cbn [negb]. pose proof (H u (or_introl eq_refl) Ht) as Hne.
    destruct (api (or_else (wp_discordId u) "")) as [status|]; [|split; reflexivity].
    cbv zeta. destruct (Z.eqb_spec status 404) as [->|]; [congruence|].
    destruct (response_ok status); split; reflexivity. }
  destruct Hb as [Hs Hr]. rewrite Hs.
  destruct (IH (fst (membership_sweep_body now api u acc s)) s) as [H1 H2].
  { intros u0 Hu0. apply H. right. exact Hu0. }
  rewrite H1, H2, Hr. split; reflexivity.
Qed.

End MemberSweep.

(** X29. On any store, running [checkDiscordServerMemberships] a second
    time against the same Discord answers revokes nothing and leaves the
    store exactly as the first run left it: no wallet is deducted twice
    for one departure. *)
Theorem membership_sweep_is_idempotent (now now' : Date) (configured : bool)
    (api : string -> FetchResult) (db : Db.Store) :
  let db1 := snd (Db.checkDiscordServerMemberships now configured api db) in
  let again := Db.checkDiscordServerMemberships now' configured api db1 in
  snd again = db1 /\ Db.sw_revoked (fst again) = 0.
Proof.
  destruct configured; [| split; reflexivity].
  intros db1 again.
  assert (Hquiet : forall q,
    In q (filter (fun p => wp_discordVerified p
                           && match wp_discordId p with Some _ => true | None => false end)
                 (Db.walletProfiles db1)) ->
    truthy (wp_discordId q) = true -> api (or_else (wp_discordId q) "") <> Response 404).
  { intros q Hq Htr Hapi. apply filter_In in Hq as [Hin Hq].
    apply andb_prop in Hq as [Hv _].
    subst db1. unfold Db.checkDiscordServerMemberships in Hin. cbn [negb] in Hin.
    rewrite DbFacts.bind_snd in Hin. cbn [gets fst snd] in Hin.
    destruct (MemberSweep.loop_profiles now api
                (filter (fun p => wp_discordVerified p
                                  && match wp_discordId p with Some _ => true | None => false end)
                        (Db.walletProfiles db))
                (Db.mkSweepCounts 0 0 0) db) as [G [HG [E Hrev]]].
    rewrite E in Hin. apply in_map_iff in Hin as [q0 [Hq0 Hin0]]. subst q.
    assert (Hv0 : wp_discordVerified q0 = true)
      by (apply (DbProps.verified_untouched G HG), Hv).
    rewrite (DbProps.same_discordId G HG) in Htr, Hapi.
    assert (Hfalse : wp_discordVerified (G q0) = false).
    { apply (Hrev q0); [| exact Htr | exact Hapi | reflexivity].
      apply filter_In. split; [exact Hin0|]. rewrite Hv0.
      destruct (wp_discordId q0); [reflexivity | discriminate Htr]. }
    congruence. }
  subst again. unfold Db.checkDiscordServerMemberships. cbn [negb].
  fold (Db.checkDiscordServerMemberships now true api db). fold db1.
  rewrite DbFacts.bind_snd, DbFacts.bind_fst. cbn [gets fst snd].
  apply (MemberSweep.member_loop_quiet now' api _ (Db.mkSweepCounts 0 0 0) db1 Hquiet).
Qed.

(** ** The referral code on the dashboard *)

(** X30. The [referral.canGenerateCode] procedure of routers.ts writes
    nothing and agrees with [getOrCreateReferralCode]: it answers
    [canGenerate] exactly when that call would return a code, and gives a
    reason exactly when it would not; when it reports a code, the call
    returns that code without a write, and otherwise the call stores and
    returns the upper-cased fresh code. *)
Theorem canGenerateCode_agrees_with_generation (now : Date) (n w : string)
    (db : Db.Store) :
  let s := fst (Routers.canGenerateCode w db) in
  let r := Db.getOrCreateReferralCode now n w db in
  snd (Routers.canGenerateCode w db) = db
  /\ (Routers.canGenerate s = true <-> exists c, fst r = Some c)
  /\ (Routers.canGenerate s = true <-> Routers.reason s = None)
  /\ (Routers.canGenerate s = true -> Routers.hasCode s = true ->
        fst r = Routers.cs_referralCode s /\ snd r = db)
  /\ (Routers.canGenerate s = true -> Routers.hasCode s = false ->
        fst r = Some (toUpperCase n)
        /\ DbProps.column wp_referralCode w (snd r) = Some (Some (toUpperCase n)))
  /\ (Db.select_walletProfile w db = None ->
        s = Routers.mkCodeStatus false false None (Some "Profile not found")
        /\ fst r = None /\ snd r = db).
Proof.
  intros s r. subst s r.
  unfold Routers.canGenerateCode, Db.getOrCreateReferralCode, Db.getWalletProfile.
  rewrite !DbFacts.bind_fst, !DbFacts.bind_snd. cbn [gets fst snd].
  destruct (Db.select_walletProfile w db) as [p|] eqn:Hp.
  - cbn [ret fst snd Routers.canGenerate Routers.hasCode Routers.reason
         Routers.cs_referralCode].
    destruct (wp_xConnected p), (wp_discordConnected p), (wp_discordVerified p);
      cbn [negb orb andb ret fst snd];
      try (split; [reflexivity|]; split; [split; [discriminate | intros [c Hc]; discriminate]|];
           split; [split; discriminate|];
           split; [discriminate|]; split; [discriminate | discriminate]).
    split; [reflexivity|].
    destruct (truthy (wp_referralCode p)) eqn:Ht.
    + cbn [ret fst snd].
      split. { split; [intros _ | reflexivity].
               destruct (wp_referralCode p) as [c|]; [exists c; reflexivity | discriminate Ht]. }
      split; [split; reflexivity|].
      split; [intros _ _; split; reflexivity|]. split; [discriminate | discriminate].
    + rewrite DbFacts.bind_fst, DbFacts.bind_snd. cbn [ret fst snd].
      split. { split; [intros _; eexists; reflexivity | reflexivity]. }
      split; [split; reflexivity|].
      split; [discriminate|].
      split; [| discriminate].
      intros _ _. split; [reflexivity|].
      unfold DbProps.column. rewrite DbFacts.select_update by (intro; reflexivity).
      rewrite String.eqb_refl, Hp. reflexivity.
  - cbn [ret fst snd Routers.canGenerate Routers.hasCode Routers.reason].
    split; [reflexivity|].
    split; [split; [discriminate | intros [c Hc]; discriminate]|].
    split; [split; discriminate|].
    split; [discriminate|]. split; [discriminate|].
    intros _. repeat split.
Qed.

(** ** The sweep reaches every verified wallet *)

Module SweepReach.
Import Db DbSpec DbFacts DbProps.

Lemma select_map_G (G : WalletProfile -> WalletProfile) w (l : list WalletProfile) :
  (forall p, wp_walletAddress (G p) = wp_walletAddress p) ->
  find (walletAddress_is w) (map G l) = option_map G (find (walletAddress_is w) l).
Proof.
  intros HG. induction l as [|a l IH]; [reflexivity|].
  cbn [map find]. unfold walletAddress_is at 1 3. rewrite HG.
  destruct (String.eqb (wp_walletAddress a) w); [reflexivity | exact IH].
Qed.

Lemma find_of_in w (l : list WalletProfile) p :
  In p l -> wp_walletAddress p = w ->
  exists q, find (walletAddress_is w) l = Some q /\ wp_walletAddress q = w.
Proof.
  intros Hin Hw. destruct (find (walletAddress_is w) l) as [q|] eqn:E.
  - exists q. split; [reflexivity|]. apply find_some in E as [_ E].
    unfold walletAddress_is in E. apply String.eqb_eq. exact E.
  - exfalso. pose proof (find_none _ _ E p Hin) as K. unfold walletAddress_is in K.
    rewrite Hw, String.eqb_refl in K. discriminate K.
Qed.

End SweepReach.

(** X25. In every store reached from the empty one, a verified profile is
    Discord-connected and holds a non-empty Discord id, so that a
    configured [checkDiscordServerMemberships] misses no verified wallet:
    every wallet that is verified and whose Discord id the API answers 404
    for is unverified after the sweep, and no profile is left verified
    with an id that the API answers 404 for. *)
Theorem verified_wallets_are_swept (ops : list (Date * Db.Op)) (now : Date)
    (api : string -> FetchResult) :
  let db := Db.run ops Db.empty in
  let db1 := snd (Db.checkDiscordServerMemberships now true api db) in
  (forall p, In p (Db.walletProfiles db) -> wp_discordVerified p = true ->
     wp_discordConnected p = true /\ truthy (wp_discordId p) = true)
  /\ (forall p, In p (Db.walletProfiles db) -> wp_discordVerified p = true ->
        api (or_else (wp_discordId p) "") = Response 404 ->
        DbProps.column wp_discordVerified (wp_walletAddress p) db1 = Some false)
  /\ (forall q, In q (Db.walletProfiles db1) -> wp_discordVerified q = true ->
        api (or_else (wp_discordId q) "") <> Response 404).
Proof.
  intros db db1.
  assert (Hok : forall p, In p (Db.walletProfiles db) -> wp_discordVerified p = true ->
                  wp_discordConnected p = true /\ truthy (wp_discordId p) = true).
  { intros p Hin Hv.
    assert (Hsel : Db.select_walletProfile (wp_walletAddress p) db = Some p).
    { apply Discord.select_of_unique_row; [|exact Hin].
      apply (proj1 (Conservation.db_conserved_run ops)). }
    exact (Discord.D_run ops _ _ Hsel Hv). }
  assert (Hvisited : forall p, In p (Db.walletProfiles db) -> wp_discordVerified p = true ->
            In p (filter (fun p => wp_discordVerified p
                                   && match wp_discordId p with Some _ => true | None => false end)
                         (Db.walletProfiles db))).
  { intros p Hin Hv. apply filter_In. split; [exact Hin|]. rewrite Hv.
    destruct (Hok p Hin Hv) as [_ Hi].
    destruct (wp_discordId p); [reflexivity | discriminate Hi]. }
  destruct (MemberSweep.loop_profiles now api
              (filter (fun p => wp_discordVerified p
                                && match wp_discordId p with Some _ => true | None => false end)
                      (Db.walletProfiles db))
              (Db.mkSweepCounts 0 0 0) db) as [G [HG [E Hrev]]].
  assert (E1 : Db.walletProfiles db1 = map G (Db.walletProfiles db)).
  { subst db1. unfold Db.checkDiscordServerMemberships. cbn [negb].
    rewrite DbFacts.bind_snd. cbn [gets fst snd]. exact E. }
  split; [exact Hok|]. split.
  - intros p Hin Hv Hapi. unfold DbProps.column, Db.select_walletProfile. rewrite E1.
    rewrite (SweepReach.select_map_G G _ _ (DbProps.same_address G HG)).
    destruct (SweepReach.find_of_in (wp_walletAddress p) _ p Hin eq_refl) as [q [Hq Hqa]].
    rewrite Hq. cbn [option_map]. f_equal.
    apply (Hrev p); [apply Hvisited; assumption | apply (Hok p Hin Hv) | exact Hapi | exact Hqa].
  - intros q Hin Hv Hapi. rewrite E1 in Hin. apply in_map_iff in Hin as [q0 [Hq0 Hin0]].
    subst q.
    assert (Hv0 : wp_discordVerified q0 = true)
      by (apply (DbProps.verified_untouched G HG), Hv).
    rewrite (DbProps.same_discordId G HG) in Hapi.
    assert (Hfalse : wp_discordVerified (G q0) = false).
    { apply (Hrev q0); [apply Hvisited; assumption | apply (Hok q0 Hin0 Hv0) | exact Hapi
                       | reflexivity]. }
    congruence.
Qed.

(** The sweep on a store with one verified wallet whose id answers 404. *)
Example verified_wallet_swept_scenario :
  let db := Db.run Scenario.db_two_referred Db.empty in
  let db1 := snd (Db.checkDiscordServerMemberships 9 true (Scenario.always 404) db) in
  DbProps.column wp_discordVerified "0xa" db = Some true
  /\ DbProps.column wp_discordVerified "0xa" db1 = Some false
  /\ Db.balance "0xa" db1 = Db.balance "0xa" db - 50.
Proof. vm_compute. repeat split; reflexivity. Qed.
